(** * AI Medibot web client: a shallow embedding of [lib/api.ts], the chat
  page and the escalations page, with the decision-core contracts the
  client relies on.

  JavaScript values are modelled as follows.
  - [number] confidence scores are IEEE binary64 values, i.e. [float];
    the literal [0.4] below is the same double the TypeScript compiler
    produces.  Database ids ([chat_message_id], [conversation_id], ...)
    are integers and are kept in [Z].
  - [string] is [string]: the UTF-8 text of the JavaScript string.
  - an optional or nullable field [f?: T | null] is [option T]; [None]
    covers both [undefined] and [null], and the one comparison that tells
    them apart says so.
  - a thrown value is a [Thrown]; a promise that settles is an [Outcome]. *)

From Stdlib Require Import Floats ZArith Ascii.
From stdpp Require Import gmap strings list pretty.

#[local] Set Warnings "-register-all,-inexact-float".

Local Open Scope string_scope.
Local Open Scope list_scope.

(** ** JavaScript primitives used by the client *)

Module Js.

(** Truthiness of an optional string: [undefined], [null] and the empty
    string are falsy. *)
Definition truthy_string (o : option string) : bool :=
  match o with
  | Some s => negb (String.eqb s "")
  | None => false
  end.

(** Truthiness of an optional integer: [undefined], [null] and [0] are falsy. *)
Definition truthy_int (o : option Z) : bool :=
  match o with
  | Some z => negb (Z.eqb z 0)
  | None => false
  end.

(** [a || b] on optional strings. *)
Definition or_string (a b : option string) : option string :=
  if truthy_string a then a else b.

(** [String.prototype.startsWith]. *)
Definition startsWith (t p : string) : bool := String.prefix p t.

(** The lower case of one ASCII character: [A]..[Z] move to [a]..[z],
    every other one stays. *)
Definition lower_ascii (c : ascii) : ascii :=
  let n := nat_of_ascii c in
  if (65 <=? n)%nat && (n <=? 90)%nat then ascii_of_nat (n + 32) else c.

Definition is_ascii (c : ascii) : bool := (nat_of_ascii c <? 128)%nat.

Fixpoint lower_ascii_text (s : string) : string :=
  match s with
  | EmptyString => EmptyString
  | String c r => String (lower_ascii c) (lower_ascii_text r)
  end.

(** Whether a text is ASCII throughout. *)
Fixpoint ascii_text (s : string) : bool :=
  match s with
  | EmptyString => true
  | String c r => is_ascii c && ascii_text r
  end.

(** The text up to its first byte outside ASCII, and the text from that
    byte on. *)
Fixpoint ascii_prefix (s : string) : string * string :=
  match s with
  | EmptyString => (EmptyString, EmptyString)
  | String c r =>
    if is_ascii c
    then let '(a, b) := ascii_prefix r in (String c a, b)
    else (EmptyString, s)
  end.

Section Lowering.

(** The lower case of text that starts outside ASCII is read off the
    Unicode case tables of the JavaScript engine, which are not written
    out here: [unicode_lower a b] stands for the lower case of [b] where
    it follows the ASCII text [a] (U+0130 becomes [i] and U+0307, U+212A
    becomes [k], a capital sigma depends on the letters before it). *)
Variable unicode_lower : string -> string -> string.

(** [String.prototype.toLowerCase].  Code points are lowered from left to
    right, each to one or more code points, so the ASCII text in front is
    lowered letter by letter whatever follows it. *)
Definition toLowerCase (s : string) : string :=
  let '(a, b) := ascii_prefix s in
  match b with
  | EmptyString => lower_ascii_text a
  | _ => lower_ascii_text a +:+ unicode_lower a b
  end.

End Lowering.

(** White space and line terminators of ECMAScript that fit in one byte:
    TAB, LF, VT, FF, CR and SPACE. *)
Definition is_ws1 (c : ascii) : bool :=
  let n := nat_of_ascii c in
  ((9 <=? n)%nat && (n <=? 13)%nat) || (n =? 32)%nat.

(** Two-byte white space: U+00A0 (bytes 194 160). *)
Definition is_ws2 (a b : ascii) : bool :=
  (nat_of_ascii a =? 194)%nat && (nat_of_ascii b =? 160)%nat.

(** Three-byte white space: U+1680, U+2000..U+200A, U+2028, U+2029,
    U+202F, U+205F, U+3000 and U+FEFF. *)
Definition is_ws3 (a b c : ascii) : bool :=
  let x := nat_of_ascii a in
  let y := nat_of_ascii b in
  let z := nat_of_ascii c in
  ((x =? 225) && (y =? 154) && (z =? 128))%nat
  || ((x =? 226) && (y =? 128)
      && (((128 <=? z) && (z <=? 138)) || (z =? 168) || (z =? 169) || (z =? 175)))%nat
  || ((x =? 226) && (y =? 129) && (z =? 159))%nat
  || ((x =? 227) && (y =? 128) && (z =? 128))%nat
  || ((x =? 239) && (y =? 187) && (z =? 191))%nat.

(** [String.prototype.trimStart]. *)
Fixpoint trimStart (s : string) : string :=
  match s with
  | String a r1 =>
    if is_ws1 a then trimStart r1 else
    match r1 with
    | String b r2 =>
      if is_ws2 a b then trimStart r2 else
      match r2 with
      | String c r3 => if is_ws3 a b c then trimStart r3 else s
      | EmptyString => s
      end
    | EmptyString => s
    end
  | EmptyString => s
  end.

(** The same scan on the reversed text, where a multi-byte white space
    shows its bytes last to first. *)
Fixpoint trimStart_rev (s : string) : string :=
  match s with
  | String a r1 =>
    if is_ws1 a then trimStart_rev r1 else
    match r1 with
    | String b r2 =>
      if is_ws2 b a then trimStart_rev r2 else
      match r2 with
      | String c r3 => if is_ws3 c b a then trimStart_rev r3 else s
      | EmptyString => s
      end
    | EmptyString => s
    end
  | EmptyString => s
  end.

Definition trimEnd (s : string) : string :=
  String.rev (trimStart_rev (String.rev s)).

(** [String.prototype.trim]. *)
Definition trim (s : string) : string := trimEnd (trimStart s).

(** The text of an integer in a template literal or after [String(n)]
    (decimal digits, as JavaScript prints every integer below 10^21). *)
Definition string_of_int (z : Z) : string := pretty z.

End Js.

(** ** Parsed JSON values

    What [res.json()] resolves to: a value built by [JSON.parse].  A number
    is kept as its canonical text (what [String(n)] and [JSON.stringify(n)]
    print, so zero is ["0"]); the fields of an object are listed in property
    order. *)

Module Json.

Inductive value :=
| Null
| Bool (b : bool)
| Number (text : string)
| Str (s : string)
| Array (items : list value)
| Object (fields : list (string * value)).

(** Property access [data?.key]: only an object has own fields; [null] and
    the primitives give [undefined]. *)
Fixpoint lookup_field (key : string) (fields : list (string * value)) : option value :=
  match fields with
  | [] => None
  | (k, v) :: rest => if String.eqb k key then Some v else lookup_field key rest
  end.

Definition get (key : string) (data : value) : option value :=
  match data with
  | Object fields => lookup_field key fields
  | _ => None
  end.

(** Truthiness of a parsed value. *)
Definition truthy (v : value) : bool :=
  match v with
  | Null => false
  | Bool b => b
  | Number text => negb (String.eqb text "0")
  | Str s => negb (String.eqb s "")
  | Array _ | Object _ => true
  end.

Definition hex_digit (n : nat) : ascii :=
  if (n <? 10)%nat then ascii_of_nat (48 + n) else ascii_of_nat (87 + n).

Definition dquote : string := String (ascii_of_nat 34) EmptyString.

(** The escape [JSON.stringify] writes for one byte of a string. *)
Definition escape_char (c : ascii) : string :=
  let n := nat_of_ascii c in
  if (n =? 34)%nat then "\" +:+ dquote
  else if (n =? 92)%nat then "\\"
  else if (n =? 8)%nat then "\b"
  else if (n =? 12)%nat then "\f"
  else if (n =? 10)%nat then "\n"
  else if (n =? 13)%nat then "\r"
  else if (n =? 9)%nat then "\t"
  else if (n <? 32)%nat then
    "\u00" +:+ String (hex_digit (n / 16)) (String (hex_digit (n mod 16)) EmptyString)
  else String c EmptyString.

Fixpoint escape (s : string) : string :=
  match s with
  | EmptyString => EmptyString
  | String c r => escape_char c +:+ escape r
  end.

Definition quote (s : string) : string := dquote +:+ escape s +:+ dquote.

(** [JSON.stringify] of a parsed value (no indentation). *)
Fixpoint stringify (v : value) : string :=
  match v with
  | Null => "null"
  | Bool b => if b then "true" else "false"
  | Number text => text
  | Str s => quote s
  | Array items => "[" +:+ String.concat "," (map stringify items) +:+ "]"
  | Object fields =>
    "{" +:+ String.concat ","
              (map (fun kv => quote (fst kv) +:+ ":" +:+ stringify (snd kv)) fields)
        +:+ "}"
  end.

(** [String(v)], the conversion [new Error(v)] applies to its argument.
    Inside an array, [null] prints as the empty string. *)
Fixpoint to_string (v : value) : string :=
  match v with
  | Null => "null"
  | Bool b => if b then "true" else "false"
  | Number text => text
  | Str s => s
  | Array items =>
    String.concat ","
      (map (fun x => match x with Null => EmptyString | _ => to_string x end) items)
  | Object _ => "[object Object]"
  end.

End Json.

(** ** [lib/api.ts] *)

Module Api.

(** A thrown value; [message] is [None] when the value has no [message]
    property (so that [e?.message ?? d] gives [d]). *)
Record Thrown := { message : option string }.

(** [new Error(m)]. *)
Definition Error (m : string) : Thrown := {| message := Some m |}.

(** How a promise settles. *)
Inductive Outcome (A : Type) :=
| Resolved (a : A)
| Rejected (e : Thrown).
Arguments Resolved {A} a.
Arguments Rejected {A} e.

(** A call of [fetch]; the URL is [API_BASE] followed by [path]. *)
Record Request := {
  path : string;
  method : option string;
  headers : gmap string string;
  body : option string
}.

(** The browser as the client sees it.  [localStorage] is [None] where
    there is no [window]; [requests] lists the calls of [fetch] and
    [alerts] the texts passed to [alert], oldest first. *)
Record Browser := {
  localStorage : option (gmap string string);
  requests : list Request;
  alerts : list string
}.

(** Asynchronous code: it reads and changes the browser and then settles. *)
Definition Async (A : Type) : Type := Browser -> Outcome A * Browser.

Definition ret {A} (a : A) : Async A := fun w => (Resolved a, w).

Definition throw {A} (e : Thrown) : Async A := fun w => (Rejected e, w).

Definition bind {A B} (c : Async A) (k : A -> Async B) : Async B :=
  fun w =>
    match c w with
    | (Resolved a, w') => k a w'
    | (Rejected e, w') => (Rejected e, w')
    end.

Notation "x <- c ;; k" := (bind c (fun x => k))
  (at level 100, c at next level, right associativity).

(** The body of a response that is not [ok]: what [res.json()] resolves
    to, [None] where it rejects (the body is not JSON, or reading it
    failed). *)
Record ErrorBody := {
  json : option Json.value
}.

(** What the network answers to one call of [fetch].  The body of an [ok]
    response is taken at the type the caller declares ([apiFetch<T>] casts
    it unchecked); [payload] is how [res.json()] settles. *)
Inductive FetchOutcome (T : Type) :=
| NetworkError (e : Thrown)
| HttpError (status : Z) (b : ErrorBody)
| HttpOk (payload : Outcome T).
Arguments NetworkError {T} e.
Arguments HttpError {T} status b.
Arguments HttpOk {T} payload.

Record TokenResponse := {
  access_token : string;
  token_type : string
}.

(** The citation objects of a reply; the fields are those named by
    [Citation] here and by [UIMessage.citations] in the chat page. *)
Record Citation := {
  title : option string;
  source : option string;
  url : option string;
  snippet : option string;
  source_file : option string;
  page_number : option Z
}.

Inductive ModelMode := Online | Offline.

Record ChatResponse := {
  conversation_id : Z;
  reply : string;
  chat_message_id : Z;
  citations : option (list Citation);
  risk_level : option string;
  emergency_detected : option bool;
  confidence_score : option float;
  suppression_reason : option string;
  model_mode : option ModelMode
}.

Record ExplainResponse := {
  ex_chat_message_id : Z;
  ex_risk_level : string;
  ex_emergency_detected : bool;
  ex_risk_reason : string;
  ex_risk_trigger : option string;
  ex_primary_domain : option string;
  ex_all_domains : option (list string);
  ex_model_name : option string;
  ex_created_at : option string;
  ex_confidence_score : option float;
  ex_reasoning_summary : option string;
  ex_suppression_reason : option string
}.

Record ConversationSummary := {
  cs_id : Z;
  cs_title : string;
  cs_created_at : string;
  cs_updated_at : string
}.

Record StoredMessage := {
  sm_id : Z;
  sm_role : string;
  sm_content : string;
  sm_created_at : string
}.

Record ConversationDetail := {
  cd_id : Z;
  cd_title : string;
  cd_messages : option (list StoredMessage)
}.

Record Escalation := {
  id : Z;
  esc_conversation_id : Z;
  reason : string;
  notes : string;
  resolved : bool;
  created_at : string
}.

Record ResolveResponse := {
  rr_id : Z;
  rr_resolved : bool
}.

Definition token_key : string := "medibot_token".

Definition getToken : Async (option string) :=
  fun w =>
    match localStorage w with
    | None => (Resolved None, w)
    | Some store => (Resolved (store !! token_key), w)
    end.

(** [setToken] and [clearToken] touch [localStorage] without a guard:
    where there is none they throw. *)
Definition setToken (token : string) : Async unit :=
  fun w =>
    match localStorage w with
    | None => (Rejected (Error "localStorage is not defined"), w)
    | Some store =>
      (Resolved tt,
       {| localStorage := Some (<[token_key := token]> store);
          requests := requests w; alerts := alerts w |})
    end.

Definition clearToken : Async unit :=
  fun w =>
    match localStorage w with
    | None => (Rejected (Error "localStorage is not defined"), w)
    | Some store =>
      (Resolved tt,
       {| localStorage := Some (delete token_key store);
          requests := requests w; alerts := alerts w |})
    end.

Definition request_failed (status : Z) : string :=
  "Request failed: " +:+ Js.string_of_int status.

(** [readErrorMessage].  Where [res.json()] rejects, the body of the
    response has been read by it: the [res.text()] of the [catch] block
    rejects in turn (or, for a response without a body, resolves to the
    empty text), and both ways end in the message with the status. *)
Definition readErrorMessage (status : Z) (b : ErrorBody) : string :=
  match json b with
  | Some data =>
    match Json.get "detail" data with
    | Some (Json.Str detail) => detail
    | Some (Json.Array items) => Json.stringify (Json.Array items)
    | _ => Json.stringify data
    end
  | None => request_failed status
  end.

(** [fetch]: the call is issued (and logged), then it settles as the
    network decides. *)
Definition fetch {T} (req : Request) (net : FetchOutcome T) : Async (FetchOutcome T) :=
  fun w =>
    let w' := {| localStorage := localStorage w;
                 requests := requests w ++ [req];
                 alerts := alerts w |} in
    match net with
    | NetworkError e => (Rejected e, w')
    | _ => (Resolved net, w')
    end.

(** The [RequestInit] the helpers pass; none of them sets [headers]. *)
Record RequestInit := {
  ri_method : option string;
  ri_headers : gmap string string;
  ri_body : option string
}.

Definition init (m : string) (b : option string) : RequestInit :=
  {| ri_method := Some m; ri_headers := ∅; ri_body := b |}.

Definition apiFetch {T} (p : string) (options : RequestInit) (auth : bool)
    (net : FetchOutcome T) : Async T :=
  let h0 := ri_headers options in
  let h1 :=
    if negb (Js.truthy_string (h0 !! "Content-Type")) && Js.truthy_string (ri_body options)
    then <["Content-Type" := "application/json"]> h0
    else h0 in
  h2 <- (if auth then
           token <- getToken ;;
           match token with
           | Some t =>
             if String.eqb t "" then throw (Error "Not authenticated")
             else ret (<["Authorization" := "Bearer " +:+ t]> h1)
           | None => throw (Error "Not authenticated")
           end
         else ret h1) ;;
  res <- fetch {| path := p; method := ri_method options;
                  headers := h2; body := ri_body options |} net ;;
  match res with
  | HttpError status b => throw (Error (readErrorMessage status b))
  | HttpOk (Resolved data) => ret data
  | HttpOk (Rejected e) => throw e
  | NetworkError e => throw e
  end.

(** [URLSearchParams.prototype.toString] for one value: the
    [application/x-www-form-urlencoded] byte serializer. *)
Definition form_safe (c : ascii) : bool :=
  let n := nat_of_ascii c in
  ((48 <=? n) && (n <=? 57) || (65 <=? n) && (n <=? 90) || (97 <=? n) && (n <=? 122)
   || (n =? 42) || (n =? 45) || (n =? 46) || (n =? 95))%nat.

Definition upper_hex (n : nat) : ascii :=
  if (n <? 10)%nat then ascii_of_nat (48 + n) else ascii_of_nat (55 + n).

Fixpoint form_encode (s : string) : string :=
  match s with
  | EmptyString => EmptyString
  | String c r =>
    let n := nat_of_ascii c in
    (if form_safe c then String c EmptyString
     else if (n =? 32)%nat then "+"
     else String "%" (String (upper_hex (n / 16)) (String (upper_hex (n mod 16)) EmptyString)))
    +:+ form_encode r
  end.

Definition login (email password : string) (net : FetchOutcome TokenResponse)
    : Async TokenResponse :=
  res <- fetch {| path := "/api/v1/auth/login"; method := Some "POST";
                  headers := {[ "Content-Type" := "application/x-www-form-urlencoded" ]};
                  body := Some ("username=" +:+ form_encode email
                                +:+ "&password=" +:+ form_encode password) |} net ;;
  match res with
  | HttpError _ b =>
    match json b with
    | Some err =>
      match Json.get "detail" err with
      | Some detail =>
        if Json.truthy detail then throw (Error (Json.to_string detail))
        else throw (Error "Invalid email or password")
      | None => throw (Error "Invalid email or password")
      end
    | None => throw (Error "Invalid email or password")
    end
  | HttpOk (Resolved data) =>
    _ <- setToken (access_token data) ;;
    ret data
  | HttpOk (Rejected e) => throw e
  | NetworkError e => throw e
  end.

Definition sendChat (message : string) (conversation_id : option Z)
    (net : FetchOutcome ChatResponse) : Async ChatResponse :=
  apiFetch "/api/v1/chat"
    (init "POST"
       (Some (Json.stringify
                (Json.Object
                   (("message", Json.Str message)
                    :: match conversation_id with
                       | Some c => [("conversation_id", Json.Number (Js.string_of_int c))]
                       | None => []
                       end)))))
    true net.

Definition explain (chat_message_id : Z) (net : FetchOutcome ExplainResponse)
    : Async ExplainResponse :=
  apiFetch ("/api/v1/chat/" +:+ Js.string_of_int chat_message_id +:+ "/explain")
    (init "GET" None) true net.

(** The [rag] object of [explain-rag]. *)
Record RetrievedChunk := {
  chunk_id : option Z;
  chunk_number : option Z;
  document_id : option Z;
  chunk_title : option string;
  chunk_source : option string;
  chunk_source_file : option string;
  chunk_page_number : option Z;
  medical_domain : option string;
  authority_level : option string
}.

Record Rag := {
  rag_confidence : option float;
  model_confidence : option float;
  final_confidence : option float;
  citations_returned : option bool;
  rag_suppression_reason : option string;
  retrieved_chunks : option (list RetrievedChunk)
}.

Record ExplainRagResponse := {
  er_chat_message_id : Z;
  er_role : string;
  rag : option Rag
}.

Definition explainRag (chat_message_id : Z) (net : FetchOutcome ExplainRagResponse)
    : Async ExplainRagResponse :=
  apiFetch ("/api/v1/chat/" +:+ Js.string_of_int chat_message_id +:+ "/explain-rag")
    (init "GET" None) true net.

Definition listConversations (net : FetchOutcome (list ConversationSummary))
    : Async (list ConversationSummary) :=
  apiFetch "/api/v1/conversations" (init "GET" None) true net.

Definition getConversation (conversation_id : Z) (net : FetchOutcome ConversationDetail)
    : Async ConversationDetail :=
  apiFetch ("/api/v1/conversations/" +:+ Js.string_of_int conversation_id)
    (init "GET" None) true net.

(** The body of the escalate answer is [{ status: string }]. *)
Definition escalateToDoctor (chat_message_id : Z) (net : FetchOutcome string)
    : Async string :=
  apiFetch ("/api/v1/chat/" +:+ Js.string_of_int chat_message_id +:+ "/escalate")
    (init "POST" None) true net.

Definition listEscalations (net : FetchOutcome (list Escalation))
    : Async (list Escalation) :=
  apiFetch "/api/v1/escalations" (init "GET" None) true net.

Definition resolveEscalation (i : Z) (net : FetchOutcome ResolveResponse)
    : Async ResolveResponse :=
  apiFetch ("/api/v1/escalations/" +:+ Js.string_of_int i +:+ "/resolve")
    (init "PATCH" None) true net.

End Api.

(** ** [app/chat/page.tsx] *)

Module Chat.

Inductive Role := User | Assistant.

Record UIMessage := {
  id : string;
  role : Role;
  content : string;
  chat_message_id : option Z;
  citations : option (list Api.Citation);
  emergency_detected : option bool;
  risk_level : option string;
  confidence_score : option float;
  model_mode : option Api.ModelMode
}.

(** The state of the component, one field per [useState]. *)
Record ChatState := {
  conversations : list Api.ConversationSummary;
  activeConversationId : option Z;
  messages : list UIMessage;
  input : string;
  sending : bool;
  escalatedIds : list Z;
  drawerOpen : bool;
  selectedChatMessageId : option Z;
  explainData : option Api.ExplainResponse;
  ragData : option Api.ExplainRagResponse;
  showDev : bool;
  explainLoading : bool;
  explainError : option string
}.

Definition setConversations (v : list Api.ConversationSummary) (s : ChatState) : ChatState :=
  {| conversations := v; activeConversationId := activeConversationId s;
     messages := messages s; input := input s; sending := sending s;
     escalatedIds := escalatedIds s; drawerOpen := drawerOpen s;
     selectedChatMessageId := selectedChatMessageId s; explainData := explainData s;
     ragData := ragData s; showDev := showDev s; explainLoading := explainLoading s;
     explainError := explainError s |}.

Definition setActiveConversationId (v : option Z) (s : ChatState) : ChatState :=
  {| conversations := conversations s; activeConversationId := v;
     messages := messages s; input := input s; sending := sending s;
     escalatedIds := escalatedIds s; drawerOpen := drawerOpen s;
     selectedChatMessageId := selectedChatMessageId s; explainData := explainData s;
     ragData := ragData s; showDev := showDev s; explainLoading := explainLoading s;
     explainError := explainError s |}.

(** [setMessages((prev) => f prev)]. *)
Definition setMessages (f : list UIMessage -> list UIMessage) (s : ChatState) : ChatState :=
  {| conversations := conversations s; activeConversationId := activeConversationId s;
     messages := f (messages s); input := input s; sending := sending s;
     escalatedIds := escalatedIds s; drawerOpen := drawerOpen s;
     selectedChatMessageId := selectedChatMessageId s; explainData := explainData s;
     ragData := ragData s; showDev := showDev s; explainLoading := explainLoading s;
     explainError := explainError s |}.

Definition setInput (v : string) (s : ChatState) : ChatState :=
  {| conversations := conversations s; activeConversationId := activeConversationId s;
     messages := messages s; input := v; sending := sending s;
     escalatedIds := escalatedIds s; drawerOpen := drawerOpen s;
     selectedChatMessageId := selectedChatMessageId s; explainData := explainData s;
     ragData := ragData s; showDev := showDev s; explainLoading := explainLoading s;
     explainError := explainError s |}.

Definition setSending (v : bool) (s : ChatState) : ChatState :=
  {| conversations := conversations s; activeConversationId := activeConversationId s;
     messages := messages s; input := input s; sending := v;
     escalatedIds := escalatedIds s; drawerOpen := drawerOpen s;
     selectedChatMessageId := selectedChatMessageId s; explainData := explainData s;
     ragData := ragData s; showDev := showDev s; explainLoading := explainLoading s;
     explainError := explainError s |}.

Definition is_assistant (m : UIMessage) : bool :=
  match role m with Assistant => true | User => false end.

Definition is_user (m : UIMessage) : bool :=
  match role m with User => true | Assistant => false end.

(** [[...messages].reverse().find(p)]. *)
Definition find_last (p : UIMessage -> bool) (ms : list UIMessage) : option UIMessage :=
  find p (rev ms).

Definition title (s : ChatState) : string :=
  match find (fun c => bool_decide (Some (Api.cs_id c) = activeConversationId s))
             (conversations s) with
  | Some found => Api.cs_title found
  | None => "New conversation"
  end.

(** The risk one assistant message stands for: emergency when its flag is
    set, high when its level is ["high"], low otherwise. *)
Definition message_risk (m : UIMessage) : string :=
  if bool_decide (emergency_detected m = Some true) then "emergency"
  else if bool_decide (risk_level m = Some "high") then "high"
  else "low".

Definition conversationRisk (ms : list UIMessage) : string :=
  match find_last is_assistant ms with
  | None => "low"
  | Some lastAssistant =>
    if bool_decide (emergency_detected lastAssistant = Some true) then "emergency"
    else if bool_decide (risk_level lastAssistant = Some "high") then "high"
    else "low"
  end.

Definition hadPreviousEmergency (ms : list UIMessage) : bool :=
  existsb (fun m => is_assistant m && bool_decide (emergency_detected m = Some true)) ms.

Definition greetings : list string := ["hi"; "hello"; "thanks"; "thank you"; "bye"].

(** The header of the chat area: the risk label and whether the
    "previous emergency" badge is drawn. *)
Record HeaderView := {
  header_title : string;
  risk_label : string;
  previous_emergency_badge : bool
}.

Section Header.

(** The case tables of the engine, see [Js.toLowerCase]. *)
Variable unicode_lower : string -> string -> string.

Definition isNonMedicalTurn (ms : list UIMessage) : bool :=
  match find_last is_user ms with
  | None => false
  | Some lastUser =>
    let t := Js.toLowerCase unicode_lower (content lastUser) in
    existsb (fun p => Js.startsWith t p) greetings
  end.

Definition render_header (s : ChatState) : HeaderView :=
  {| header_title := title s;
     risk_label := conversationRisk (messages s) +:+ " risk";
     previous_emergency_badge :=
       negb (String.eqb (conversationRisk (messages s)) "emergency")
       && hadPreviousEmergency (messages s)
       && negb (isNonMedicalTurn (messages s)) |}.

(** One rendering of the header.  The body of the component reads the
    state, computes its memos and returns the elements; it calls no
    setter on the way, so the state it hands back is the one it read. *)
Definition display (s : ChatState) : HeaderView * ChatState :=
  let risk := conversationRisk (messages s) in
  let previous := hadPreviousEmergency (messages s) in
  let nonMedical := isNonMedicalTurn (messages s) in
  ({| header_title := title s;
      risk_label := risk +:+ " risk";
      previous_emergency_badge :=
        negb (String.eqb risk "emergency") && previous && negb nonMedical |},
   s).

End Header.

(** The [try] body of [refreshConversations] after its [await]. *)
Definition refreshed (r : Api.Outcome (list Api.ConversationSummary)) (s : ChatState)
    : ChatState :=
  match r with
  | Api.Resolved l => setConversations l s
  | Api.Rejected _ => s
  end.

Definition refreshConversations (net : Api.FetchOutcome (list Api.ConversationSummary))
    (s : ChatState) (w : Api.Browser) : ChatState * Api.Browser :=
  let '(r, w') := Api.listConversations net w in
  (refreshed r s, w').

Definition thinking (thinkingId : string) : UIMessage :=
  {| id := thinkingId; role := Assistant; content := "Thinking...";
     chat_message_id := None; citations := None; emergency_detected := None;
     risk_level := None; confidence_score := None; model_mode := None |}.

Definition userMsg (uuid text : string) : UIMessage :=
  {| id := uuid; role := User; content := text;
     chat_message_id := None; citations := None; emergency_detected := None;
     risk_level := None; confidence_score := None; model_mode := None |}.

Definition assistantMsg (uuid : string) (res : Api.ChatResponse) : UIMessage :=
  {| id := uuid; role := Assistant; content := Api.reply res;
     chat_message_id := Some (Api.chat_message_id res);
     citations := Some (default [] (Api.citations res));
     emergency_detected := Api.emergency_detected res;
     risk_level := Api.risk_level res;
     confidence_score := Api.confidence_score res;
     model_mode := Api.model_mode res |}.

Definition send_failed : string :=
  "Something went wrong while sending your message. Please try again.".

Definition failureMsg (uuid : string) : UIMessage :=
  {| id := uuid; role := Assistant; content := send_failed;
     chat_message_id := None; citations := None; emergency_detected := None;
     risk_level := None; confidence_score := None; model_mode := None |}.

(** [prev.filter((m) => m.id !== thinkingId).concat(msg)]. *)
Definition replace_thinking (thinkingId : string) (msg : UIMessage)
    (prev : list UIMessage) : list UIMessage :=
  (filter (fun m => id m <> thinkingId) prev ++ [msg])%list.

(** [onSend] up to the request: the guard, then the user message and the
    placeholder are appended.  [None] is the early return. *)
Definition onSend_start (uuid1 thinkingId : string) (s : ChatState)
    : option (string * ChatState) :=
  let text := Js.trim (input s) in
  if String.eqb text "" || sending s then None
  else
    Some (text,
          setMessages (fun prev => (prev ++ [userMsg uuid1 text; thinking thinkingId])%list)
            (setSending true (setInput "" s))).

(** [onSend] once [sendChat] has settled with [r], up to its next [await]:
    the [try] body after the first [await], or the [catch] body. *)
Definition onSend_replied (thinkingId uuid3 : string)
    (r : Api.Outcome Api.ChatResponse) (s : ChatState) : ChatState :=
  match r with
  | Api.Resolved res =>
    setMessages (replace_thinking thinkingId (assistantMsg uuid3 res))
      (setActiveConversationId (Some (Api.conversation_id res)) s)
  | Api.Rejected _ =>
    setMessages (replace_thinking thinkingId (failureMsg uuid3)) s
  end.

(** [onSend] from the moment [sendChat] has settled: the above, then
    [refreshConversations] after a success, and [finally]. *)
Definition onSend_settle (thinkingId uuid3 : string)
    (r : Api.Outcome Api.ChatResponse)
    (list_net : Api.FetchOutcome (list Api.ConversationSummary))
    (s : ChatState) (w : Api.Browser) : ChatState * Api.Browser :=
  let s1 := onSend_replied thinkingId uuid3 r s in
  match r with
  | Api.Resolved _ =>
    let '(s2, w') := refreshConversations list_net s1 w in
    (setSending false s2, w')
  | Api.Rejected _ => (setSending false s1, w)
  end.

(** [onSend], run with nothing else happening while it waits.  The three
    identifiers are the results of its calls of [crypto.randomUUID()]. *)
Definition onSend (uuid1 thinkingId uuid3 : string)
    (chat_net : Api.FetchOutcome Api.ChatResponse)
    (list_net : Api.FetchOutcome (list Api.ConversationSummary))
    (s : ChatState) (w : Api.Browser) : ChatState * Api.Browser :=
  match onSend_start uuid1 thinkingId s with
  | None => (s, w)
  | Some (text, s1) =>
    let '(r, w1) := Api.sendChat text (activeConversationId s) chat_net w in
    onSend_settle thinkingId uuid3 r list_net s1 w1
  end.

(** The state the component mounts with. *)
Definition initial : ChatState :=
  {| conversations := []; activeConversationId := None; messages := [];
     input := ""; sending := false; escalatedIds := []; drawerOpen := false;
     selectedChatMessageId := None; explainData := None; ragData := None;
     showDev := false; explainLoading := false; explainError := None |}.

(** A stored message as [loadConversation] maps it. *)
Definition mapped (m : Api.StoredMessage) : UIMessage :=
  {| id := Js.string_of_int (Api.sm_id m);
     role := if String.eqb (Api.sm_role m) "user" then User else Assistant;
     content := Api.sm_content m;
     chat_message_id := Some (Api.sm_id m);
     citations := None; emergency_detected := None; risk_level := None;
     confidence_score := None; model_mode := None |}.

(** What [loadConversation] does once [getConversation] has settled. *)
Definition loaded (r : Api.Outcome Api.ConversationDetail) (s : ChatState) : ChatState :=
  match r with
  | Api.Resolved conv => setMessages (fun _ => map mapped (default [] (Api.cd_messages conv))) s
  | Api.Rejected _ => setMessages (fun _ => []) s
  end.

(** [loadConversation], run with nothing else happening while it waits. *)
Definition loadConversation (conversationId : Z)
    (net : Api.FetchOutcome Api.ConversationDetail)
    (s : ChatState) (w : Api.Browser) : ChatState * Api.Browser :=
  match Api.getConversation conversationId net w with
  | (Api.Resolved conv, w') =>
    (setMessages (fun _ => map mapped (default [] (Api.cd_messages conv))) s, w')
  | (Api.Rejected _, w') => (setMessages (fun _ => []) s, w')
  end.

(** The click on "+ New Chat". *)
Definition newChat (s : ChatState) : ChatState :=
  setMessages (fun _ => []) (setActiveConversationId None s).

(** The click on a conversation of the side bar, run with nothing else
    happening while it waits. *)
Definition openConversation (conversationId : Z)
    (net : Api.FetchOutcome Api.ConversationDetail)
    (s : ChatState) (w : Api.Browser) : ChatState * Api.Browser :=
  loadConversation conversationId net (setActiveConversationId (Some conversationId) s) w.

(** What one message bubble shows. *)
Inductive Bubble := BubbleUser | BubbleEmergency | BubbleSelected | BubblePlain.

Record EmergencyBanner := {
  escalate_disabled : bool;
  escalate_label : string;
  clinician_notified : bool
}.

Record SourceView := {
  summary : string;
  source_line : option string;
  file_line : option string;
  page_line : option string
}.

Record MessageView := {
  bubble : Bubble;
  emergency_banner : option EmergencyBanner;
  risk_badge : option string;
  model_badge : option string;
  body_text : string;
  confidence_indicator : option float;
  low_confidence_warning : bool;
  sources : list SourceView;
  explain_button : bool
}.

Definition render_citation (c : Api.Citation) : SourceView :=
  {| summary := default "Source" (Js.or_string (Js.or_string (Api.title c) (Api.source c))
                                               (Some "Source"));
     source_line :=
       if Js.truthy_string (Api.source c)
       then Some ("Source: " +:+ default "" (Api.source c)) else None;
     file_line :=
       if Js.truthy_string (Api.source_file c)
       then Some ("File: " +:+ default "" (Api.source_file c)) else None;
     page_line :=
       match Api.page_number c with
       | Some n => if Z.eqb n 0 then Some "0" else Some ("Page: " +:+ Js.string_of_int n)
       | None => None
       end |}.

(** The confidence below which a reply is flagged. *)
Definition low_confidence_threshold : float := 0.4%float.

(** [typeof score === "number" && score < 0.4]. *)
Definition is_low_confidence (score : option float) : bool :=
  match score with
  | Some x => PrimFloat.ltb x low_confidence_threshold
  | None => false
  end.

(** The body of [messages.map((m) => ...)]; [selected] and [escalated] are
    [selectedChatMessageId] and [escalatedIds].  An absent [chat_message_id]
    is [undefined] and an absent selection is [null], which [===] keeps
    apart.  [sources] is empty when the "Sources" block is not drawn. *)
Definition render_message (selected : option Z) (escalated : list Z) (m : UIMessage)
    : MessageView :=
  let isEmergency := bool_decide (emergency_detected m = Some true) in
  let isSelected :=
    match chat_message_id m, selected with
    | Some a, Some b => Z.eqb a b
    | _, _ => false
    end in
  let isEscalated := bool_decide (default (-1)%Z (chat_message_id m) ∈ escalated) in
  {| bubble :=
       if is_user m then BubbleUser
       else if isEmergency then BubbleEmergency
       else if isSelected then BubbleSelected
       else BubblePlain;
     emergency_banner :=
       if isEmergency then
         Some {| escalate_disabled := isEscalated;
                 escalate_label :=
                   if isEscalated then "Doctor notified" else "Contact a doctor";
                 clinician_notified :=
                   Js.truthy_int (chat_message_id m) && isEscalated |}
       else None;
     risk_badge :=
       if is_assistant m && Js.truthy_string (risk_level m) && negb isEmergency
       then Some (default "" (risk_level m) +:+ " risk") else None;
     model_badge :=
       if is_assistant m then
         match model_mode m with
         | Some Api.Offline => Some "Offline safe mode"
         | Some Api.Online => Some "Online AI"
         | None => None
         end
       else None;
     body_text := content m;
     confidence_indicator :=
       if is_assistant m then confidence_score m else None;
     low_confidence_warning :=
       is_assistant m && is_low_confidence (confidence_score m);
     sources :=
       if is_assistant m && negb isEmergency
       then map render_citation (default [] (citations m)) else [];
     explain_button :=
       is_assistant m && Js.truthy_int (chat_message_id m) && negb isEmergency |}.

Definition render_messages (s : ChatState) : list MessageView :=
  map (render_message (selectedChatMessageId s) (escalatedIds s)) (messages s).

(** The notice at the top of the explain drawer. *)
Definition drawer_low_confidence (e : Api.ExplainResponse) : bool :=
  is_low_confidence (Api.ex_confidence_score e).

End Chat.

(** ** The escalations page *)

Module Escalations.

Record PageState := {
  items : list Api.Escalation;
  loading : bool;
  error : option string;
  resolvingId : option Z
}.

(** The state right after mounting. *)
Definition initial : PageState :=
  {| items := []; loading := true; error := None; resolvingId := None |}.

Definition setItems (v : list Api.Escalation) (s : PageState) : PageState :=
  {| items := v; loading := loading s; error := error s; resolvingId := resolvingId s |}.

Definition setLoading (v : bool) (s : PageState) : PageState :=
  {| items := items s; loading := v; error := error s; resolvingId := resolvingId s |}.

Definition setError (v : option string) (s : PageState) : PageState :=
  {| items := items s; loading := loading s; error := v; resolvingId := resolvingId s |}.

Definition setResolvingId (v : option Z) (s : PageState) : PageState :=
  {| items := items s; loading := loading s; error := error s; resolvingId := v |}.

(** [alert(text)]. *)
Definition alert (text : string) (w : Api.Browser) : Api.Browser :=
  {| Api.localStorage := Api.localStorage w;
     Api.requests := Api.requests w;
     Api.alerts := (Api.alerts w ++ [text])%list |}.

(** [e?.message ?? d]. *)
Definition message_or (e : Api.Thrown) (d : string) : string :=
  default d (Api.message e).

Definition load (net : Api.FetchOutcome (list Api.Escalation))
    (s : PageState) (w : Api.Browser) : PageState * Api.Browser :=
  match Api.listEscalations net w with
  | (Api.Resolved data, w') => (setLoading false (setItems data s), w')
  | (Api.Rejected e, w') =>
    (setLoading false (setError (Some (message_or e "Failed to load escalations")) s), w')
  end.

Definition onResolve (i : Z)
    (resolve_net : Api.FetchOutcome Api.ResolveResponse)
    (list_net : Api.FetchOutcome (list Api.Escalation))
    (s : PageState) (w : Api.Browser) : PageState * Api.Browser :=
  let s1 := setResolvingId (Some i) s in
  match Api.resolveEscalation i resolve_net w with
  | (Api.Resolved _, w1) =>
    let '(s2, w2) := load list_net s1 w1 in
    (setResolvingId None s2, w2)
  | (Api.Rejected e, w1) =>
    (setResolvingId None s1, alert (message_or e "Failed to resolve escalation") w1)
  end.

(** One card of the list: the status badge and the resolve button, which
    is drawn only for a pending escalation. *)
Record Card := {
  card_id : Z;
  badge : string;
  resolve_button : option string;
  resolve_disabled : bool
}.

Inductive PageView :=
| Loading
| Failed (msg : string)
| Listing (cards : list Card).

Definition render_card (resolving : option Z) (e : Api.Escalation) : Card :=
  let busy := bool_decide (resolving = Some (Api.id e)) in
  {| card_id := Api.id e;
     badge := if Api.resolved e then "Resolved" else "Pending";
     resolve_button :=
       if Api.resolved e then None
       else Some (if busy then "Resolving..." else "Mark as resolved");
     resolve_disabled := busy |}.

Definition render (s : PageState) : PageView :=
  if loading s then Loading
  else if Js.truthy_string (error s) then Failed (default "" (error s))
  else Listing (map (render_card (resolvingId s)) (items s)).

End Escalations.

(** ** The chat page over time

    [onSend] and [loadConversation] give control back at each [await];
    other handlers may run before they resume.  A session interleaves the
    handlers that touch [messages] and [sending], one event at a time. *)

Module Session.

(** Where a call of [onSend] that has passed its guard is waiting, with the
    way the awaited promise will settle. *)
Inductive Phase :=
| AwaitingChat (r : Api.Outcome Api.ChatResponse)
| AwaitingList (r : Api.Outcome (list Api.ConversationSummary)).

(** [in_flight] lists the calls of [onSend] whose [finally] has not run,
    each under the identifier of its placeholder.  [loads] lists the calls
    of [loadConversation] that wait for [getConversation], each with the
    way it will settle.  [issued] and [placeholders] are bookkeeping for
    the statements: the identifiers drawn or loaded so far, and those given
    to placeholders. *)
Record State := {
  page : Chat.ChatState;
  browser : Api.Browser;
  in_flight : list (string * Phase);
  loads : list (Api.Outcome Api.ConversationDetail);
  issued : list string;
  placeholders : list string
}.

Definition start (w : Api.Browser) : State :=
  {| page := Chat.initial; browser := w; in_flight := []; loads := [];
     issued := []; placeholders := [] |}.

Inductive Event :=
| TypeText (text : string)
| ClickSend (uuid1 thinkingId : string) (chat_net : Api.FetchOutcome Api.ChatResponse)
| ChatSettles (thinkingId uuid3 : string)
    (list_net : Api.FetchOutcome (list Api.ConversationSummary))
| ListSettles (thinkingId : string)
| ClickNewChat
| ClickConversation (conversationId : Z) (net : Api.FetchOutcome Api.ConversationDetail)
| LoadSettles (k : nat).

(** The waiting call with placeholder [t], taken out of the list. *)
Fixpoint take (t : string) (l : list (string * Phase))
    : option (Phase * list (string * Phase)) :=
  match l with
  | [] => None
  | (t', ph) :: rest =>
    if String.eqb t t' then Some (ph, rest)
    else match take t rest with
         | Some (ph', rest') => Some (ph', (t', ph) :: rest')
         | None => None
         end
  end.

Definition with_page (s : Chat.ChatState) (x : State) : State :=
  {| page := s; browser := browser x; in_flight := in_flight x; loads := loads x;
     issued := issued x; placeholders := placeholders x |}.

(** One event.  A click on a conversation marks it active and calls
    [getConversation]; the messages are replaced when that call settles,
    which is an event of its own ([LoadSettles k], for the [k]-th waiting
    call), so that whatever happens in between is seen. *)
Definition step (e : Event) (x : State) : State :=
  match e with
  | TypeText text => with_page (Chat.setInput text (page x)) x
  | ClickSend uuid1 t chat_net =>
    match Chat.onSend_start uuid1 t (page x) with
    | None => x
    | Some (text, s1) =>
      let '(r, w1) :=
        Api.sendChat text (Chat.activeConversationId (page x)) chat_net (browser x) in
      {| page := s1; browser := w1;
         in_flight := in_flight x ++ [(t, AwaitingChat r)];
         loads := loads x;
         issued := uuid1 :: t :: issued x;
         placeholders := t :: placeholders x |}
    end
  | ChatSettles t uuid3 list_net =>
    match take t (in_flight x) with
    | Some (AwaitingChat r, rest) =>
      let s1 := Chat.onSend_replied t uuid3 r (page x) in
      match r with
      | Api.Resolved _ =>
        let '(lr, w1) := Api.listConversations list_net (browser x) in
        {| page := s1; browser := w1;
           in_flight := rest ++ [(t, AwaitingList lr)];
           loads := loads x;
           issued := uuid3 :: issued x;
           placeholders := placeholders x |}
      | Api.Rejected _ =>
        {| page := Chat.setSending false s1; browser := browser x;
           in_flight := rest;
           loads := loads x;
           issued := uuid3 :: issued x;
           placeholders := placeholders x |}
      end
    | _ => x
    end
  | ListSettles t =>
    match take t (in_flight x) with
    | Some (AwaitingList lr, rest) =>
      {| page := Chat.setSending false (Chat.refreshed lr (page x));
         browser := browser x; in_flight := rest; loads := loads x;
         issued := issued x; placeholders := placeholders x |}
    | _ => x
    end
  | ClickNewChat => with_page (Chat.newChat (page x)) x
  | ClickConversation conversationId net =>
    let '(r, w1) := Api.getConversation conversationId net (browser x) in
    {| page := Chat.setActiveConversationId (Some conversationId) (page x);
       browser := w1; in_flight := in_flight x;
       loads := loads x ++ [r];
       issued := issued x; placeholders := placeholders x |}
  | LoadSettles k =>
    match loads x !! k with
    | Some r =>
      let s1 := Chat.loaded r (page x) in
      {| page := s1; browser := browser x; in_flight := in_flight x;
         loads := delete k (loads x);
         issued := map Chat.id (Chat.messages s1) ++ issued x;
         placeholders := placeholders x |}
    | None => x
    end
  end.

Definition run (es : list Event) (x : State) : State :=
  fold_left (fun y e => step e y) es x.

(** What is assumed of the identifiers: [crypto.randomUUID()] returns one
    that was not seen before, and the identifier of a stored message (the
    text of a number) is not the one of a placeholder. *)
Definition fresh (x : State) (e : Event) : Prop :=
  match e with
  | ClickSend uuid1 t _ => (uuid1 ∉ issued x) /\ (t ∉ issued x) /\ uuid1 <> t
  | ChatSettles _ uuid3 _ => uuid3 ∉ issued x
  | LoadSettles k =>
    forall r m,
      loads x !! k = Some r -> m ∈ Chat.messages (Chat.loaded r (page x)) ->
      Chat.id m ∉ placeholders x
  | _ => True
  end.

(** The states a session can be in. *)
Inductive reachable (w : Api.Browser) : State -> Prop :=
| reach_start : reachable w (start w)
| reach_step x e : reachable w x -> fresh x e -> reachable w (step e x).

(** The placeholders whose turn has not been answered yet. *)
Definition awaited (l : list (string * Phase)) : list string :=
  flat_map (fun tp => match snd tp with
                      | AwaitingChat _ => [fst tp]
                      | AwaitingList _ => []
                      end) l.

Record Inv (x : State) : Prop := {
  inv_one : length (in_flight x) <= 1;
  inv_sending :
    Chat.sending (page x) = match in_flight x with [] => false | _ => true end;
  inv_known : forall m, m ∈ Chat.messages (page x) -> Chat.id m ∈ issued x;
  inv_sub : forall t, t ∈ placeholders x -> t ∈ issued x;
  inv_placeholder :
    forall m, m ∈ Chat.messages (page x) -> Chat.id m ∈ placeholders x ->
              Chat.id m ∈ awaited (in_flight x)
}.

End Session.

(** ** The decision core behind the API

    The server is not part of the web client; the two operations below are
    written from their contracts. *)

Module Core.

(** Modelled from the spec: the level of a RiskVerdict. *)
Inductive RiskLevel := Low | High | Emergency.

(** Modelled from the spec: the ConfidenceRecord of the data model. *)
Record ConfidenceRecord := {
  retrieval_confidence : option float;
  generation_confidence : float;
  final_confidence : float;
  suppression_reason : option string
}.

(** Modelled from the spec: [min] of two scores, the second one when it is
    strictly below the first. *)
Definition fmin (a b : float) : float :=
  if PrimFloat.ltb b a then b else a.

(** Modelled from the spec: the confidence fusion [fuse] of the server,
    which is not among the sources.  With both scores available the final
    confidence is their minimum; when retrieval was skipped it is the
    generation confidence; an emergency verdict tags the record with
    ["emergency_override"]. *)
Definition fuse (retrieval : option float) (generation : float) (verdict : RiskLevel)
    : ConfidenceRecord :=
  {| retrieval_confidence := retrieval;
     generation_confidence := generation;
     final_confidence :=
       match retrieval with
       | Some r => fmin r generation
       | None => generation
       end;
     suppression_reason :=
       match verdict with
       | Emergency => Some "emergency_override"
       | _ => None
       end |}.

(** Modelled from the spec: the Escalation of the data model, with the
    resolution time that [resolve] stamps. *)
Record Escalation := {
  id : Z;
  conversation_id : Z;
  reason : string;
  notes : string;
  resolved : bool;
  created_at : string;
  resolved_at : option string
}.

(** Modelled from the spec: the error taxonomy. *)
Inductive CoreError := ValidationError | NotFound | PersistenceFailure.

(** Modelled from the spec: the transition resolved=false to true. *)
Definition mark_resolved (now : string) (e : Escalation) : Escalation :=
  {| id := id e; conversation_id := conversation_id e; reason := reason e;
     notes := notes e; resolved := true; created_at := created_at e;
     resolved_at := Some now |}.

(** Modelled from the spec: [resolve] of the Escalation Manager, which is
    not among the sources.  It fails with [NotFound] for an unknown id,
    returns an already resolved escalation as it is, and otherwise sets
    [resolved] and stamps the time [now]. *)
Definition resolve (now : string) (escalation_id : Z) (store : gmap Z Escalation)
    : CoreError + (Escalation * gmap Z Escalation) :=
  match store !! escalation_id with
  | None => inl NotFound
  | Some e =>
    if resolved e then inr (e, store)
    else inr (mark_resolved now e, <[escalation_id := mark_resolved now e]> store)
  end.

End Core.

(** ** Concrete data used to exercise the statements below *)

Module Examples.

Definition guideline : Api.Citation :=
  {| Api.title := Some "Chest pain: first response";
     Api.source := Some "who.int";
     Api.url := None;
     Api.snippet := None;
     Api.source_file := Some "chest_pain.pdf";
     Api.page_number := Some 12%Z |}.

Definition emergency_reply : Chat.UIMessage :=
  {| Chat.id := "a-1"; Chat.role := Chat.Assistant;
     Chat.content := "Call emergency services now.";
     Chat.chat_message_id := Some 41%Z;
     Chat.citations := Some [guideline];
     Chat.emergency_detected := Some true;
     Chat.risk_level := Some "emergency";
     Chat.confidence_score := Some 0.9%float;
     Chat.model_mode := Some Api.Offline |}.

Definition unsure_reply : Chat.UIMessage :=
  {| Chat.id := "a-2"; Chat.role := Chat.Assistant;
     Chat.content := "It may be a viral infection.";
     Chat.chat_message_id := Some 43%Z;
     Chat.citations := Some [guideline];
     Chat.emergency_detected := Some false;
     Chat.risk_level := Some "low";
     Chat.confidence_score := Some 0.3%float;
     Chat.model_mode := Some Api.Online |}.

Definition chest_pain : Chat.UIMessage :=
  Chat.userMsg "u-1" "I have crushing chest pain".

Definition high_fever : Chat.UIMessage :=
  Chat.userMsg "u-2" "high fever".

Definition fever_is_high : Chat.UIMessage :=
  Chat.userMsg "u-2" "my fever is high".

Definition loud_high_fever : Chat.UIMessage :=
  Chat.userMsg "u-2" "HIGH fever".

(** A history with an emergency answer, then a question and an answer of
    low risk. *)
Definition after_emergency (question : Chat.UIMessage) : list Chat.UIMessage :=
  [chest_pain; emergency_reply; question; unsure_reply].

(** Case tables that leave the text beyond ASCII as it is; the sample
    messages are ASCII, so the tables are not consulted for them. *)
Definition no_table : string -> string -> string := fun _ b => b.

Definition unsure_explanation : Api.ExplainResponse :=
  {| Api.ex_chat_message_id := 43%Z;
     Api.ex_risk_level := "low";
     Api.ex_emergency_detected := false;
     Api.ex_risk_reason := "no emergency pattern";
     Api.ex_risk_trigger := None;
     Api.ex_primary_domain := Some "general";
     Api.ex_all_domains := Some ["general"];
     Api.ex_model_name := None;
     Api.ex_created_at := None;
     Api.ex_confidence_score := Some 0.3%float;
     Api.ex_reasoning_summary := None;
     Api.ex_suppression_reason := None |}.

(** A chat page holding the given messages, with "  high fever " typed. *)
Definition page (ms : list Chat.UIMessage) : Chat.ChatState :=
  {| Chat.conversations := [];
     Chat.activeConversationId := Some 5%Z;
     Chat.messages := ms;
     Chat.input := "  high fever ";
     Chat.sending := false;
     Chat.escalatedIds := [];
     Chat.drawerOpen := false;
     Chat.selectedChatMessageId := None;
     Chat.explainData := None;
     Chat.ragData := None;
     Chat.showDev := false;
     Chat.explainLoading := false;
     Chat.explainError := None |}.

Definition signed_out : Api.Browser :=
  {| Api.localStorage := Some ∅; Api.requests := []; Api.alerts := [] |}.

Definition signed_in : Api.Browser :=
  {| Api.localStorage := Some {[ "medibot_token" := "tok-123" ]};
     Api.requests := []; Api.alerts := [] |}.

Definition emergency_answer : Api.ChatResponse :=
  {| Api.conversation_id := 5%Z;
     Api.reply := "Call emergency services now.";
     Api.chat_message_id := 41%Z;
     Api.citations := Some [guideline];
     Api.risk_level := Some "emergency";
     Api.emergency_detected := Some true;
     Api.confidence_score := Some 0.9%float;
     Api.suppression_reason := Some "emergency_override";
     Api.model_mode := Some Api.Offline |}.

Definition server_detail (d : string) : Api.ErrorBody :=
  {| Api.json := Some (Json.Object [("detail", Json.Str d)]) |}.

Definition pending : Core.Escalation :=
  {| Core.id := 9%Z; Core.conversation_id := 5%Z; Core.reason := "emergency";
     Core.notes := ""; Core.resolved := false; Core.created_at := "2026-01-05T10:00:00Z";
     Core.resolved_at := None |}.

(** A session in which "high fever" was typed and sent, and the answer is
    awaited. *)
Definition waiting : Session.State :=
  Session.run
    [Session.TypeText "high fever";
     Session.ClickSend "u-1" "t-1" (Api.HttpOk (Api.Resolved emergency_answer))]
    (Session.start signed_in).

End Examples.

(** ** Accounts: [register], the login and register pages, [logout] *)

Module Account.

(** What [register] and [login] throw for a response that is not [ok]:
    [new Error(err?.detail || fallback)], with [err] the parsed body or
    [null]. *)
Definition detail_or (b : Api.ErrorBody) (fallback : string) : Api.Thrown :=
  match Api.json b with
  | Some err =>
    match Json.get "detail" err with
    | Some detail =>
      if Json.truthy detail then Api.Error (Json.to_string detail)
      else Api.Error fallback
    | None => Api.Error fallback
    end
  | None => Api.Error fallback
  end.

(** [register]; the body of an [ok] answer is returned as it is. *)
Definition register {T} (email password : string) (net : Api.FetchOutcome T)
    : Api.Async T :=
  Api.bind
    (Api.fetch
       {| Api.path := "/api/v1/auth/register"; Api.method := Some "POST";
          Api.headers := {[ "Content-Type" := "application/json" ]};
          Api.body :=
            Some (Json.stringify
                    (Json.Object [("email", Json.Str email);
                                  ("password", Json.Str password)])) |} net)
    (fun res =>
       match res with
       | Api.HttpError _ b => Api.throw (detail_or b "Registration failed")
       | Api.HttpOk (Api.Resolved data) => Api.ret data
       | Api.HttpOk (Api.Rejected e) => Api.throw e
       | Api.NetworkError e => Api.throw e
       end).

(** The state of the login page and of the register page. *)
Record Form := {
  email : string;
  password : string;
  loading : bool;
  error : option string
}.

Definition login_form : Form :=
  {| email := "user1@medibot.ai"; password := "password123";
     loading := false; error := None |}.

Definition register_form : Form :=
  {| email := ""; password := ""; loading := false; error := None |}.

Definition settled (err : option string) (s : Form) : Form :=
  {| email := email s; password := password s; loading := false; error := err |}.

(** [onSubmit] of the login page.  The third component is the route given
    to [router.push], if any. *)
Definition login_onSubmit (net : Api.FetchOutcome Api.TokenResponse)
    (s : Form) (w : Api.Browser) : Form * Api.Browser * option string :=
  match Api.login (email s) (password s) net w with
  | (Api.Resolved _, w1) => (settled None s, w1, Some "/chat")
  | (Api.Rejected e, w1) =>
    (settled (Some (default "Login failed" (Api.message e))) s, w1, None)
  end.

(** [onSubmit] of the register page: [register], then [login]. *)
Definition register_onSubmit {T} (register_net : Api.FetchOutcome T)
    (login_net : Api.FetchOutcome Api.TokenResponse)
    (s : Form) (w : Api.Browser) : Form * Api.Browser * option string :=
  match register (email s) (password s) register_net w with
  | (Api.Resolved _, w1) =>
    match Api.login (email s) (password s) login_net w1 with
    | (Api.Resolved _, w2) => (settled None s, w2, Some "/chat")
    | (Api.Rejected e, w2) =>
      (settled (Some (default "Registration failed" (Api.message e))) s, w2, None)
    end
  | (Api.Rejected e, w1) =>
    (settled (Some (default "Registration failed" (Api.message e))) s, w1, None)
  end.

(** [logout] of the chat page: the route is pushed once [clearToken] has
    returned. *)
Definition logout (w : Api.Browser) : Api.Browser * option string :=
  match Api.clearToken w with
  | (Api.Resolved _, w1) => (w1, Some "/login")
  | (Api.Rejected _, w1) => (w1, None)
  end.

End Account.

(** ** The rest of the chat page: mounting, the explain drawer, escalation *)

Module Panel.

Definition setEscalatedIds (v : list Z) (s : Chat.ChatState) : Chat.ChatState :=
  {| Chat.conversations := Chat.conversations s;
     Chat.activeConversationId := Chat.activeConversationId s;
     Chat.messages := Chat.messages s; Chat.input := Chat.input s;
     Chat.sending := Chat.sending s; Chat.escalatedIds := v;
     Chat.drawerOpen := Chat.drawerOpen s;
     Chat.selectedChatMessageId := Chat.selectedChatMessageId s;
     Chat.explainData := Chat.explainData s; Chat.ragData := Chat.ragData s;
     Chat.showDev := Chat.showDev s; Chat.explainLoading := Chat.explainLoading s;
     Chat.explainError := Chat.explainError s |}.




Definition setRagData (v : option Api.ExplainRagResponse) (s : Chat.ChatState) : Chat.ChatState :=
  {| Chat.conversations := Chat.conversations s;
     Chat.activeConversationId := Chat.activeConversationId s;
     Chat.messages := Chat.messages s; Chat.input := Chat.input s;
     Chat.sending := Chat.sending s; Chat.escalatedIds := Chat.escalatedIds s;
     Chat.drawerOpen := Chat.drawerOpen s;
     Chat.selectedChatMessageId := Chat.selectedChatMessageId s;
     Chat.explainData := Chat.explainData s; Chat.ragData := v;
     Chat.showDev := Chat.showDev s; Chat.explainLoading := Chat.explainLoading s;
     Chat.explainError := Chat.explainError s |}.

Definition setShowDev (v : bool) (s : Chat.ChatState) : Chat.ChatState :=
  {| Chat.conversations := Chat.conversations s;
     Chat.activeConversationId := Chat.activeConversationId s;
     Chat.messages := Chat.messages s; Chat.input := Chat.input s;
     Chat.sending := Chat.sending s; Chat.escalatedIds := Chat.escalatedIds s;
     Chat.drawerOpen := Chat.drawerOpen s;
     Chat.selectedChatMessageId := Chat.selectedChatMessageId s;
     Chat.explainData := Chat.explainData s; Chat.ragData := Chat.ragData s;
     Chat.showDev := v; Chat.explainLoading := Chat.explainLoading s;
     Chat.explainError := Chat.explainError s |}.



(** The first effect of the page: the conversations are listed, and a
    failure sends the user to the login page. *)
Definition mount (net : Api.FetchOutcome (list Api.ConversationSummary))
    (s : Chat.ChatState) (w : Api.Browser) : Chat.ChatState * Api.Browser * option string :=
  match Api.listConversations net w with
  | (Api.Resolved l, w1) => (Chat.setConversations l s, w1, None)
  | (Api.Rejected _, w1) => (s, w1, Some "/login")
  end.



Definition toggleDevMode (rag_net : Api.FetchOutcome Api.ExplainRagResponse)
    (s : Chat.ChatState) (w : Api.Browser) : Chat.ChatState * Api.Browser :=
  let next := negb (Chat.showDev s) in
  let s1 := setShowDev next s in
  match Chat.selectedChatMessageId s with
  | Some selected =>
    if next && Js.truthy_int (Some selected) then
      match Api.explainRag selected rag_net w with
      | (Api.Resolved rag, w1) => (setRagData (Some rag) s1, w1)
      | (Api.Rejected _, w1) => (s1, w1)
      end
    else (s1, w)
  | None => (s1, w)
  end.

(** The click on "Contact a doctor" in the banner of message [m].  The
    handler has no [catch]: when [escalateToDoctor] throws, nothing is set. *)
Definition escalate_click (m : Chat.UIMessage) (net : Api.FetchOutcome string)
    (s : Chat.ChatState) (w : Api.Browser) : Chat.ChatState * Api.Browser :=
  match Chat.chat_message_id m with
  | Some i =>
    if Js.truthy_int (Some i) then
      match Api.escalateToDoctor i net w with
      | (Api.Resolved _, w1) =>
        (setEscalatedIds
           (if bool_decide (i ∈ Chat.escalatedIds s) then Chat.escalatedIds s
            else Chat.escalatedIds s ++ [i]) s, w1)
      | (Api.Rejected _, w1) => (s, w1)
      end
    else (s, w)
  | None => (s, w)
  end.

End Panel.

(** ** Vocabulary of the statements *)

(** Between [w] and [w'] exactly one request was issued, and it carries the
    header [Authorization: Bearer t]. *)
Definition sent_with_bearer (t : string) (w w' : Api.Browser) : Prop :=
  exists req, Api.requests w' = Api.requests w ++ [req]
              /\ Api.headers req !! "Authorization" = Some ("Bearer " +:+ t).

(** Nothing is stored under ["medibot_token"] (also where there is no
    [localStorage] at all). *)
Definition no_token (w : Api.Browser) : Prop :=
  forall store, Api.localStorage w = Some store -> store !! "medibot_token" = None.

(** The request [login] issues. *)
Definition login_request (email password : string) : Api.Request :=
  {| Api.path := "/api/v1/auth/login"; Api.method := Some "POST";
     Api.headers := {[ "Content-Type" := "application/x-www-form-urlencoded" ]};
     Api.body := Some ("username=" +:+ Api.form_encode email
                       +:+ "&password=" +:+ Api.form_encode password) |}.

(** The request [register] issues. *)
Definition register_request (email password : string) : Api.Request :=
  {| Api.path := "/api/v1/auth/register"; Api.method := Some "POST";
     Api.headers := {[ "Content-Type" := "application/json" ]};
     Api.body := Some (Json.stringify
                         (Json.Object [("email", Json.Str email);
                                       ("password", Json.Str password)])) |}.

(** What the form encoding writes for one byte. *)
Definition piece_of (c : ascii) : string :=
  if Api.form_safe c then String c EmptyString
  else if (nat_of_ascii c =? 32)%nat then "+"
  else String "%" (String (Api.upper_hex (nat_of_ascii c / 16))
                     (String (Api.upper_hex (nat_of_ascii c mod 16)) EmptyString)).

(** A message without any safety field. *)
Definition plain (m : Chat.UIMessage) : Prop :=
  Chat.citations m = None /\ Chat.emergency_detected m = None
  /\ Chat.risk_level m = None /\ Chat.confidence_score m = None
  /\ Chat.model_mode m = None.

(** More concrete data. *)

Module Samples.

(** A stored conversation whose second message was an emergency reply. *)
Definition stored : Api.ConversationDetail :=
  {| Api.cd_id := 5%Z; Api.cd_title := "Chest pain";
     Api.cd_messages :=
       Some [{| Api.sm_id := 40%Z; Api.sm_role := "user";
                Api.sm_content := "I have crushing chest pain";
                Api.sm_created_at := "2026-01-05T10:00:00Z" |};
             {| Api.sm_id := 41%Z; Api.sm_role := "assistant";
                Api.sm_content := "Call emergency services now.";
                Api.sm_created_at := "2026-01-05T10:00:01Z" |}] |}.


Definition empty_rag : Api.ExplainRagResponse :=
  {| Api.er_chat_message_id := 43%Z; Api.er_role := "assistant"; Api.rag := None |}.

End Samples.

(** * Properties *)

(** ** Comparison of scores *)

Lemma SFcompare_antisym (a b : spec_float) :
  SFcompare b a = option_map CompOpp (SFcompare a b).
Proof.
  destruct a as [s| s| |s m e], b as [s'| s'| |s' m' e']; simpl; try reflexivity;
    try (destruct s; reflexivity); try (destruct s'; reflexivity);
    try (destruct s, s'; reflexivity).
  destruct s, s'; simpl; try reflexivity; f_equal;
    rewrite (Z.compare_antisym e' e); destruct (e' ?= e)%Z; simpl; try reflexivity;
    rewrite (Pos.compare_cont_antisym m m' Eq); simpl; try reflexivity;
    apply CompOpp_involutive.
Qed.

Lemma ltb_antisym (x y : float) :
  PrimFloat.ltb x y = true -> PrimFloat.ltb y x = false.
Proof.
  rewrite !ltb_spec. unfold SFltb.
  rewrite (SFcompare_antisym (Prim2SF x) (Prim2SF y)).
  destruct (SFcompare (Prim2SF x) (Prim2SF y)) as [[]|]; simpl; congruence.
Qed.

Lemma ltb_irrefl (x : float) : PrimFloat.ltb x x = false.
Proof.
  destruct (PrimFloat.ltb x x) eqn:E; [|reflexivity].
  pose proof (ltb_antisym x x E). congruence.
Qed.

Lemma leb_not_ltb (x y : float) :
  PrimFloat.leb y x = true -> PrimFloat.ltb x y = false.
Proof.
  rewrite leb_spec, ltb_spec. unfold SFleb, SFltb.
  rewrite (SFcompare_antisym (Prim2SF y) (Prim2SF x)).
  destruct (SFcompare (Prim2SF y) (Prim2SF x)) as [[]|]; simpl; congruence.
Qed.

(** ** Finding the last message of a role *)

Lemma find_skip {A} (p : A -> bool) (l1 l2 : list A) (x : A) :
  Forall (fun u => p u = false) l1 -> p x = true ->
  find p (l1 ++ x :: l2) = Some x.
Proof.
  intros Hl Hx. induction Hl as [|u l1 Hu _ IH]; simpl.
  - now rewrite Hx.
  - now rewrite Hu.
Qed.

Lemma find_none {A} (p : A -> bool) (l : list A) :
  Forall (fun u => p u = false) l -> find p l = None.
Proof.
  intros Hl. induction Hl as [|u l Hu _ IH]; simpl; [reflexivity|]. now rewrite Hu.
Qed.

Lemma find_last_split (p : Chat.UIMessage -> bool)
    (earlier later : list Chat.UIMessage) (m : Chat.UIMessage) :
  Forall (fun u => p u = false) later -> p m = true ->
  Chat.find_last p (earlier ++ m :: later) = Some m.
Proof.
  intros Hl Hm. unfold Chat.find_last.
  rewrite rev_app_distr. simpl. rewrite <- app_assoc. simpl.
  apply find_skip; [|exact Hm].
  apply Forall_forall. intros u Hu. apply list_elem_of_In, in_rev, list_elem_of_In in Hu.
  revert u Hu. now apply Forall_forall.
Qed.

Lemma find_last_none (p : Chat.UIMessage -> bool) (ms : list Chat.UIMessage) :
  Forall (fun u => p u = false) ms -> Chat.find_last p ms = None.
Proof.
  intros Hl. unfold Chat.find_last. apply find_none.
  apply Forall_forall. intros u Hu. apply list_elem_of_In, in_rev, list_elem_of_In in Hu.
  revert u Hu. now apply Forall_forall.
Qed.

Lemma users_are_not_assistants (l : list Chat.UIMessage) :
  Forall (fun u => Chat.role u = Chat.User) l ->
  Forall (fun u => Chat.is_assistant u = false) l.
Proof.
  intros H. eapply Forall_impl; [exact H|].
  intros u Hu. unfold Chat.is_assistant. now rewrite Hu.
Qed.

Lemma assistants_are_not_users (l : list Chat.UIMessage) :
  Forall (fun u => Chat.role u = Chat.Assistant) l ->
  Forall (fun u => Chat.is_user u = false) l.
Proof.
  intros H. eapply Forall_impl; [exact H|].
  intros u Hu. unfold Chat.is_user. now rewrite Hu.
Qed.

(** The risk shown in the header is the one of the last assistant message. *)
Lemma conversationRisk_last_assistant (earlier later : list Chat.UIMessage)
    (m : Chat.UIMessage) :
  Chat.role m = Chat.Assistant ->
  Forall (fun u => Chat.role u = Chat.User) later ->
  Chat.conversationRisk (earlier ++ m :: later) = Chat.message_risk m.
Proof.
  intros Hm Hl. unfold Chat.conversationRisk.
  rewrite find_last_split.
  - reflexivity.
  - now apply users_are_not_assistants.
  - unfold Chat.is_assistant. now rewrite Hm.
Qed.

(** ** Emergency replies *)

(** C1: an assistant message whose [emergency_detected] flag is set is drawn
    without its "Sources" block and without the "Why this answer?" button,
    whatever citations the message carries.  In particular the message
    [onSend] builds from an emergency answer keeps the citations it was sent
    and still shows none of them. *)
Theorem emergency_reply_discloses_no_sources
    (selected : option Z) (escalated : list Z) (m : Chat.UIMessage)
    (uuid : string) (res : Api.ChatResponse) :
  Chat.emergency_detected m = Some true ->
  Api.emergency_detected res = Some true ->
  Chat.sources (Chat.render_message selected escalated m) = []
  /\ Chat.explain_button (Chat.render_message selected escalated m) = false
  /\ Chat.citations (Chat.assistantMsg uuid res) = Some (default [] (Api.citations res))
  /\ Chat.sources (Chat.render_message selected escalated (Chat.assistantMsg uuid res)) = []
  /\ Chat.explain_button (Chat.render_message selected escalated (Chat.assistantMsg uuid res))
     = false.
Proof.
  intros He Hr.
  assert (H : forall a, Chat.emergency_detected a = Some true ->
                Chat.sources (Chat.render_message selected escalated a) = []
                /\ Chat.explain_button (Chat.render_message selected escalated a) = false).
  { intros a Ha. unfold Chat.render_message. cbn [Chat.sources Chat.explain_button].
    rewrite Ha. rewrite bool_decide_eq_true_2 by reflexivity. cbn [negb].
    rewrite !andb_false_r. split; reflexivity. }
  destruct (H m He) as [H1 H2]. destruct (H (Chat.assistantMsg uuid res) Hr) as [H3 H4].
  repeat split; assumption.
Qed.

(** ** The low-confidence advisory *)

(** C2: for an assistant message with a numeric confidence score, the
    low-confidence warning of the bubble is drawn exactly when the score is
    strictly below 0.4, and not at or above 0.4; the notice of the explain
    drawer follows the same rule for the score of the explanation. *)
Theorem low_confidence_advisory_iff
    (selected : option Z) (escalated : list Z) (m : Chat.UIMessage)
    (e : Api.ExplainResponse) (x y : float) :
  Chat.role m = Chat.Assistant ->
  Chat.confidence_score m = Some x ->
  Api.ex_confidence_score e = Some y ->
  (Chat.low_confidence_warning (Chat.render_message selected escalated m) = true
   <-> PrimFloat.ltb x 0.4 = true)
  /\ (PrimFloat.leb 0.4 x = true ->
      Chat.low_confidence_warning (Chat.render_message selected escalated m) = false)
  /\ (Chat.drawer_low_confidence e = true <-> PrimFloat.ltb y 0.4 = true)
  /\ (PrimFloat.leb 0.4 y = true -> Chat.drawer_low_confidence e = false).
Proof.
  intros Hr Hx Hy.
  assert (Hm : Chat.low_confidence_warning (Chat.render_message selected escalated m)
               = PrimFloat.ltb x 0.4).
  { unfold Chat.render_message. cbn [Chat.low_confidence_warning].
    unfold Chat.is_assistant, Chat.is_low_confidence. now rewrite Hr, Hx. }
  assert (Hd : Chat.drawer_low_confidence e = PrimFloat.ltb y 0.4).
  { unfold Chat.drawer_low_confidence, Chat.is_low_confidence. now rewrite Hy. }
  rewrite Hm, Hd. repeat split; auto using leb_not_ltb.
Qed.

(** C3: with both scores available the fused confidence is their minimum:
    it is one of the two and neither is strictly below it.  For retrieval
    0.9 and generation 0.3 it is 0.3, and an assistant message carrying that
    score is drawn with the low-confidence warning. *)
Theorem fuse_is_conjunctive_minimum
    (r g : float) (v : Core.RiskLevel)
    (selected : option Z) (escalated : list Z) (m : Chat.UIMessage) :
  Chat.role m = Chat.Assistant ->
  Chat.confidence_score m
    = Some (Core.final_confidence (Core.fuse (Some 0.9%float) 0.3%float v)) ->
  (Core.final_confidence (Core.fuse (Some r) g v) = r
   \/ Core.final_confidence (Core.fuse (Some r) g v) = g)
  /\ PrimFloat.ltb r (Core.final_confidence (Core.fuse (Some r) g v)) = false
  /\ PrimFloat.ltb g (Core.final_confidence (Core.fuse (Some r) g v)) = false
  /\ Core.final_confidence (Core.fuse (Some 0.9%float) 0.3%float v) = 0.3%float
  /\ PrimFloat.ltb 0.3 0.4 = true
  /\ Chat.low_confidence_warning (Chat.render_message selected escalated m) = true.
Proof.
  intros Hr Hs. cbn [Core.fuse Core.final_confidence] in *. unfold Core.fmin in *.
  split; [|split; [|split; [|split; [|split]]]].
  - destruct (PrimFloat.ltb g r); auto.
  - destruct (PrimFloat.ltb g r) eqn:E; [now apply ltb_antisym | apply ltb_irrefl].
  - destruct (PrimFloat.ltb g r) eqn:E; [apply ltb_irrefl | exact E].
  - reflexivity.
  - reflexivity.
  - unfold Chat.render_message. cbn [Chat.low_confidence_warning].
    unfold Chat.is_assistant. rewrite Hr, Hs. reflexivity.
Qed.

(** ** Risk is scoped to the last assistant message *)

(** C4: the risk shown for a conversation is that of its most recent
    assistant message alone (emergency when its flag is set, high when its
    level is "high", low otherwise), whatever the earlier messages were, and
    it is low while there is no assistant message. *)
Theorem conversationRisk_message_scoped
    (earlier later : list Chat.UIMessage) (m : Chat.UIMessage) :
  Chat.role m = Chat.Assistant ->
  Forall (fun u => Chat.role u = Chat.User) later ->
  Chat.conversationRisk (earlier ++ m :: later)
    = (if bool_decide (Chat.emergency_detected m = Some true) then "emergency"
       else if bool_decide (Chat.risk_level m = Some "high") then "high"
       else "low")
  /\ Chat.conversationRisk later = "low".
Proof.
  intros Hm Hl. split.
  - now apply conversationRisk_last_assistant.
  - unfold Chat.conversationRisk.
    now rewrite find_last_none by now apply users_are_not_assistants.
Qed.

(** ** The "previous emergency" badge *)

Lemma hadPreviousEmergency_spec (ms : list Chat.UIMessage) :
  Chat.hadPreviousEmergency ms = true
  <-> exists m, m ∈ ms /\ Chat.role m = Chat.Assistant
                /\ Chat.emergency_detected m = Some true.
Proof.
  unfold Chat.hadPreviousEmergency. rewrite existsb_exists. split.
  - intros (m & Hin & Hp). apply andb_true_iff in Hp as [Ha He].
    exists m. split; [now apply list_elem_of_In|]. split.
    + unfold Chat.is_assistant in Ha. now destruct (Chat.role m).
    + now apply bool_decide_eq_true in He.
  - intros (m & Hin & Ha & He). exists m. split; [now apply list_elem_of_In|].
    unfold Chat.is_assistant. rewrite Ha. simpl. now apply bool_decide_eq_true.
Qed.

Lemma previous_emergency_badge_spec (U : string -> string -> string) (s : Chat.ChatState) :
  Chat.previous_emergency_badge (Chat.render_header U s) = true
  <-> Chat.hadPreviousEmergency (Chat.messages s) = true
      /\ Chat.conversationRisk (Chat.messages s) <> "emergency"
      /\ Chat.isNonMedicalTurn U (Chat.messages s) = false.
Proof.
  cbn [Chat.render_header Chat.previous_emergency_badge].
  rewrite !andb_true_iff, !negb_true_iff.
  destruct (String.eqb_spec (Chat.conversationRisk (Chat.messages s)) "emergency") as [E|E].
  - split; [intros [[H _] _]; discriminate | intros (_ & H & _); contradiction].
  - split; [intros [[_ H1] H2] | intros (H1 & _ & H2)]; auto.
Qed.

(** C5, as stated, fails: the badge is not settled by whether some
    assistant message has [emergency_detected] set.  Both histories below
    hold the same emergency answer, followed by a question and an answer of
    low risk; after the question "high fever" the badge is not drawn, after
    "my fever is high" it is. *)
Lemma previous_emergency_badge_needs_more_than_the_flag :
  Chat.hadPreviousEmergency (Examples.after_emergency Examples.high_fever) = true
  /\ Chat.hadPreviousEmergency (Examples.after_emergency Examples.fever_is_high) = true
  /\ Chat.previous_emergency_badge
       (Chat.render_header Examples.no_table
          (Examples.page (Examples.after_emergency Examples.high_fever))) = false
  /\ Chat.previous_emergency_badge
       (Chat.render_header Examples.no_table
          (Examples.page (Examples.after_emergency Examples.fever_is_high))) = true.
Proof. repeat split; reflexivity. Qed.

(** C5, amended: the "previous emergency" badge is drawn exactly when some
    assistant message of the history has [emergency_detected] set (which
    is what the memo [hadPreviousEmergency] says), the risk shown (that of
    the last assistant message) is not an emergency, and the last user
    message is not a greeting.  It is the same for any
    two states of the page with the same messages, and so is the risk
    label.  Rendering hands the state back as it was, so the messages and
    the risk are what they were before; and the flag never feeds the risk:
    two histories that end with the same assistant message show the same
    risk, whether or not an emergency came before. *)
Theorem previous_emergency_is_read_only_projection
    (U : string -> string -> string)
    (s s2 : Chat.ChatState) (earlier earlier' later : list Chat.UIMessage)
    (m : Chat.UIMessage) :
  Chat.messages s2 = Chat.messages s ->
  Chat.role m = Chat.Assistant ->
  Forall (fun u => Chat.role u = Chat.User) later ->
  (Chat.previous_emergency_badge (Chat.render_header U s) = true
   <-> (exists a, a ∈ Chat.messages s /\ Chat.role a = Chat.Assistant
                  /\ Chat.emergency_detected a = Some true)
       /\ Chat.conversationRisk (Chat.messages s) <> "emergency"
       /\ Chat.isNonMedicalTurn U (Chat.messages s) = false)
  /\ (Chat.hadPreviousEmergency (Chat.messages s) = true
      <-> exists a, a ∈ Chat.messages s /\ Chat.role a = Chat.Assistant
                    /\ Chat.emergency_detected a = Some true)
  /\ Chat.previous_emergency_badge (Chat.render_header U s2)
     = Chat.previous_emergency_badge (Chat.render_header U s)
  /\ Chat.risk_label (Chat.render_header U s2) = Chat.risk_label (Chat.render_header U s)
  /\ Chat.display U s = (Chat.render_header U s, s)
  /\ Chat.conversationRisk (Chat.messages (snd (Chat.display U s)))
     = Chat.conversationRisk (Chat.messages s)
  /\ Chat.conversationRisk (earlier ++ m :: later)
     = Chat.conversationRisk (earlier' ++ m :: later).
Proof.
  intros H2 Hm Hl. split; [|split; [|split; [|split; [|split; [|split]]]]].
  - rewrite previous_emergency_badge_spec, hadPreviousEmergency_spec. reflexivity.
  - apply hadPreviousEmergency_spec.
  - cbn [Chat.render_header Chat.previous_emergency_badge]. now rewrite H2.
  - cbn [Chat.render_header Chat.risk_label]. now rewrite H2.
  - reflexivity.
  - reflexivity.
  - now rewrite !conversationRisk_last_assistant.
Qed.

(** ** Greetings *)

Lemma append_cons (c : ascii) (x y : string) : String c x +:+ y = String c (x +:+ y).
Proof. reflexivity. Qed.

Lemma lower_ascii_text_app (x y : string) :
  Js.lower_ascii_text (x +:+ y) = Js.lower_ascii_text x +:+ Js.lower_ascii_text y.
Proof.
  induction x as [|c x IH]; [reflexivity|].
  rewrite append_cons. simpl. now rewrite IH, append_cons.
Qed.

Lemma append_assoc (x y z : string) : (x +:+ y) +:+ z = x +:+ (y +:+ z).
Proof.
  induction x as [|c x IH]; [reflexivity|]. now rewrite !append_cons, IH.
Qed.

Lemma ascii_prefix_app (front rest : string) :
  Js.ascii_text front = true ->
  Js.ascii_prefix (front +:+ rest)
  = (front +:+ fst (Js.ascii_prefix rest), snd (Js.ascii_prefix rest)).
Proof.
  induction front as [|c front IH].
  - intros _. change ("" +:+ rest) with rest. now destruct (Js.ascii_prefix rest).
  - intros H. simpl in H. apply andb_true_iff in H as [Hc Hf].
    rewrite !append_cons. simpl. rewrite Hc, (IH Hf). reflexivity.
Qed.

(** ASCII text in front of a message is lowered letter by letter,
    whatever follows it. *)
Lemma toLowerCase_front (U : string -> string -> string) (front rest : string) :
  Js.ascii_text front = true ->
  exists r, Js.toLowerCase U (front +:+ rest) = Js.lower_ascii_text front +:+ r.
Proof.
  intros H. unfold Js.toLowerCase. rewrite (ascii_prefix_app front rest H).
  rewrite lower_ascii_text_app.
  destruct (snd (Js.ascii_prefix rest)) as [|c b]; [eexists; reflexivity|].
  eexists. apply append_assoc.
Qed.

(** A text that is ASCII throughout is lowered letter by letter. *)
Lemma toLowerCase_ascii_text (U : string -> string -> string) (t : string) :
  Js.ascii_text t = true -> Js.toLowerCase U t = Js.lower_ascii_text t.
Proof.
  intros H. unfold Js.toLowerCase.
  assert (E : Js.ascii_prefix t = (t, "")).
  { induction t as [|c t IH]; simpl; [reflexivity|].
    simpl in H. apply andb_true_iff in H as [Hc Ht]. now rewrite Hc, (IH Ht). }
  now rewrite E.
Qed.

Lemma prefix_app (p a r : string) :
  String.prefix p a = true -> String.prefix p (a +:+ r) = true.
Proof.
  revert a. induction p as [|c p IH]; intros a.
  - intros _. now destruct (a +:+ r).
  - destruct a as [|d a]; [discriminate|].
    rewrite append_cons. simpl.
    destruct (Ascii.ascii_dec c d); [apply IH | easy].
Qed.

Lemma isNonMedicalTurn_last_user (U : string -> string -> string)
    (earlier later : list Chat.UIMessage) (m : Chat.UIMessage) :
  Chat.role m = Chat.User ->
  Forall (fun u => Chat.role u = Chat.Assistant) later ->
  Chat.isNonMedicalTurn U (earlier ++ m :: later)
  = existsb (fun p => Js.startsWith (Js.toLowerCase U (Chat.content m)) p) Chat.greetings.
Proof.
  intros Hm Hl. unfold Chat.isNonMedicalTurn.
  rewrite find_last_split.
  - reflexivity.
  - now apply assistants_are_not_users.
  - unfold Chat.is_user. now rewrite Hm.
Qed.

(** C8: the turn counts as non-medical exactly when the lowercased text of
    the last user message starts with one of "hi", "hello", "thanks",
    "thank you", "bye"; so a last user message that begins with "high", such
    as "high fever", counts as non-medical and the "previous emergency"
    badge is not drawn.  The same holds in any mix of cases ("HIGH fever",
    "Hello", "THANKS"): whenever the message begins with ASCII text whose
    lower case starts with one of the five. *)
Theorem greeting_prefix_marks_turn_non_medical
    (U : string -> string -> string)
    (s : Chat.ChatState) (earlier later : list Chat.UIMessage)
    (m : Chat.UIMessage) (rest : string) :
  Chat.messages s = earlier ++ m :: later ->
  Chat.role m = Chat.User ->
  Forall (fun u => Chat.role u = Chat.Assistant) later ->
  (Chat.isNonMedicalTurn U (Chat.messages s) = true
   <-> exists p, In p ["hi"; "hello"; "thanks"; "thank you"; "bye"]
                 /\ Js.startsWith (Js.toLowerCase U (Chat.content m)) p = true)
  /\ (Chat.content m = "high" +:+ rest ->
      Chat.isNonMedicalTurn U (Chat.messages s) = true
      /\ Chat.previous_emergency_badge (Chat.render_header U s) = false)
  /\ (forall p front,
        In p ["hi"; "hello"; "thanks"; "thank you"; "bye"] ->
        Js.ascii_text front = true ->
        Js.startsWith (Js.lower_ascii_text front) p = true ->
        Chat.content m = front +:+ rest ->
        Chat.isNonMedicalTurn U (Chat.messages s) = true
        /\ Chat.previous_emergency_badge (Chat.render_header U s) = false).
Proof.
  intros Hs Hm Hl.
  pose proof (isNonMedicalTurn_last_user U earlier later m Hm Hl) as E.
  rewrite <- Hs in E.
  assert (G : forall p front,
             In p Chat.greetings -> Js.ascii_text front = true ->
             Js.startsWith (Js.lower_ascii_text front) p = true ->
             Chat.content m = front +:+ rest ->
             Chat.isNonMedicalTurn U (Chat.messages s) = true
             /\ Chat.previous_emergency_badge (Chat.render_header U s) = false).
  { intros p front Hp Hf Hpre Hc.
    assert (H : Chat.isNonMedicalTurn U (Chat.messages s) = true).
    { rewrite E, existsb_exists. exists p. split; [exact Hp|].
      rewrite Hc. destruct (toLowerCase_front U front rest Hf) as [r ->].
      unfold Js.startsWith in *. now apply prefix_app. }
    split; [exact H|].
    cbn [Chat.render_header Chat.previous_emergency_badge].
    rewrite H. now rewrite andb_false_r. }
  split; [|split].
  - rewrite E, existsb_exists. reflexivity.
  - intros Hc. apply (G "hi" "high"); [now left | reflexivity | reflexivity | exact Hc].
  - exact G.
Qed.

(** ** The statements above at concrete messages *)

Lemma emergency_reply_discloses_no_sources_witness :
  Chat.citations Examples.emergency_reply = Some [Examples.guideline]
  /\ Chat.sources (Chat.render_message None [] Examples.emergency_reply) = []
  /\ Chat.citations (Chat.assistantMsg "a-3" Examples.emergency_answer)
     = Some [Examples.guideline]
  /\ Chat.sources (Chat.render_message None []
                     (Chat.assistantMsg "a-3" Examples.emergency_answer)) = [].
Proof.
  destruct (emergency_reply_discloses_no_sources None [] Examples.emergency_reply
              "a-3" Examples.emergency_answer eq_refl eq_refl)
    as (H1 & _ & H3 & H4 & _).
  split; [reflexivity|]. split; [exact H1|]. split; [exact H3 | exact H4].
Defined.

Lemma low_confidence_advisory_iff_witness :
  Chat.low_confidence_warning (Chat.render_message None [] Examples.unsure_reply) = true
  /\ Chat.drawer_low_confidence Examples.unsure_explanation = true.
Proof.
  destruct (low_confidence_advisory_iff None [] Examples.unsure_reply
              Examples.unsure_explanation 0.3%float 0.3%float
              eq_refl eq_refl eq_refl) as (Hm & _ & Hd & _).
  split; [apply Hm | apply Hd]; reflexivity.
Defined.

Lemma fuse_is_conjunctive_minimum_witness :
  Core.final_confidence (Core.fuse (Some 0.9%float) 0.3%float Core.Low) = 0.3%float
  /\ Chat.low_confidence_warning (Chat.render_message None [] Examples.unsure_reply) = true.
Proof.
  destruct (fuse_is_conjunctive_minimum 0.9%float 0.3%float Core.Low None []
              Examples.unsure_reply eq_refl eq_refl) as (_ & _ & _ & H & _ & W).
  split; [exact H | exact W].
Defined.

Lemma conversationRisk_message_scoped_witness :
  Chat.conversationRisk
    [Examples.chest_pain; Examples.emergency_reply; Examples.high_fever;
     Examples.unsure_reply; Examples.high_fever] = "low".
Proof.
  apply (conversationRisk_message_scoped
           [Examples.chest_pain; Examples.emergency_reply; Examples.high_fever]
           [Examples.high_fever] Examples.unsure_reply eq_refl).
  repeat constructor.
Defined.

Lemma previous_emergency_is_read_only_projection_witness :
  Chat.previous_emergency_badge
    (Chat.render_header Examples.no_table
       (Examples.page (Examples.after_emergency Examples.fever_is_high))) = true
  /\ Chat.conversationRisk (Examples.after_emergency Examples.fever_is_high)
     = Chat.conversationRisk [Examples.unsure_reply].
Proof.
  destruct (previous_emergency_is_read_only_projection Examples.no_table
              (Examples.page (Examples.after_emergency Examples.fever_is_high))
              (Chat.setSending true
                 (Examples.page (Examples.after_emergency Examples.fever_is_high)))
              [Examples.chest_pain; Examples.emergency_reply; Examples.fever_is_high]
              [] [] Examples.unsure_reply eq_refl eq_refl (List.Forall_nil _))
    as (H & _ & _ & _ & _ & _ & R).
  split; [|exact R].
  apply H. split; [|split; [intros E; vm_compute in E; discriminate | reflexivity]].
  exists Examples.emergency_reply. split; [|split; reflexivity].
  apply list_elem_of_In. simpl. auto.
Defined.

Lemma greeting_prefix_marks_turn_non_medical_witness :
  Chat.hadPreviousEmergency (Examples.after_emergency Examples.loud_high_fever) = true
  /\ Chat.conversationRisk (Examples.after_emergency Examples.loud_high_fever) = "low"
  /\ Chat.isNonMedicalTurn Examples.no_table
       (Examples.after_emergency Examples.loud_high_fever) = true
  /\ Chat.previous_emergency_badge
       (Chat.render_header Examples.no_table
          (Examples.page (Examples.after_emergency Examples.loud_high_fever))) = false.
Proof.
  split; [reflexivity|]. split; [reflexivity|].
  destruct (greeting_prefix_marks_turn_non_medical Examples.no_table
              (Examples.page (Examples.after_emergency Examples.loud_high_fever))
              [Examples.chest_pain; Examples.emergency_reply] [Examples.unsure_reply]
              Examples.loud_high_fever " fever" eq_refl eq_refl) as (_ & _ & H).
  - repeat constructor.
  - apply (H "hi" "HIGH"); [now left | reflexivity | reflexivity | reflexivity].
Defined.

(** ** Authentication of the API helpers *)

Lemma apiFetch_no_token {T} (p : string) (o : Api.RequestInit)
    (net : Api.FetchOutcome T) (w : Api.Browser) :
  no_token w ->
  Api.apiFetch p o true net w = (Api.Rejected (Api.Error "Not authenticated"), w).
Proof.
  intros H. unfold Api.apiFetch, Api.bind, Api.getToken.
  destruct (Api.localStorage w) as [store|] eqn:E; [|reflexivity].
  unfold Api.token_key. now rewrite (H store E).
Qed.

(** An empty token counts as none. *)
Lemma apiFetch_empty_token {T} (p : string) (o : Api.RequestInit)
    (net : Api.FetchOutcome T) (w : Api.Browser) (store : gmap string string) :
  Api.localStorage w = Some store -> store !! "medibot_token" = Some "" ->
  Api.apiFetch p o true net w = (Api.Rejected (Api.Error "Not authenticated"), w).
Proof.
  intros E H. unfold Api.apiFetch, Api.bind, Api.getToken.
  rewrite E. unfold Api.token_key. now rewrite H.
Qed.

(** With a token, the request is issued with the bearer header, and the
    call settles as the network answers. *)
Lemma apiFetch_with_token {T} (p : string) (o : Api.RequestInit)
    (net : Api.FetchOutcome T) (w : Api.Browser) (store : gmap string string)
    (t : string) :
  Api.localStorage w = Some store -> store !! "medibot_token" = Some t -> t <> "" ->
  exists req,
    Api.apiFetch p o true net w
    = (match net with
       | Api.NetworkError e => Api.Rejected e
       | Api.HttpError status b => Api.Rejected (Api.Error (Api.readErrorMessage status b))
       | Api.HttpOk r => r
       end,
       {| Api.localStorage := Some store;
          Api.requests := Api.requests w ++ [req];
          Api.alerts := Api.alerts w |})
    /\ Api.path req = p
    /\ Api.headers req !! "Authorization" = Some ("Bearer " +:+ t).
Proof.
  intros E H Ht. unfold Api.apiFetch, Api.bind, Api.getToken.
  rewrite E. unfold Api.token_key. rewrite H.
  destruct (String.eqb t "") eqn:Et; [apply String.eqb_eq in Et; contradiction|].
  eexists. split; [|split].
  - unfold Api.ret, Api.fetch, Api.throw. cbn.
    destruct net as [e|status b|[data|e]]; cbn; rewrite E; reflexivity.
  - reflexivity.
  - cbn. apply lookup_insert_eq.
Qed.

Lemma apiFetch_sends_bearer {T} (p : string) (o : Api.RequestInit)
    (net : Api.FetchOutcome T) (w : Api.Browser) (store : gmap string string)
    (t : string) :
  Api.localStorage w = Some store -> store !! "medibot_token" = Some t -> t <> "" ->
  sent_with_bearer t w (snd (Api.apiFetch p o true net w)).
Proof.
  intros E H Ht.
  destruct (apiFetch_with_token p o net w store t E H Ht) as (req & -> & _ & Hh).
  exists req. split; [reflexivity | exact Hh].
Qed.

(** A login that succeeds stores the token it was given. *)
Lemma login_stores_token (email password : string) (tok : Api.TokenResponse)
    (w : Api.Browser) (store : gmap string string) :
  Api.localStorage w = Some store ->
  Api.login email password (Api.HttpOk (Api.Resolved tok)) w
  = (Api.Resolved tok,
     {| Api.localStorage := Some (<["medibot_token" := Api.access_token tok]> store);
        Api.requests :=
          Api.requests w ++
          [{| Api.path := "/api/v1/auth/login"; Api.method := Some "POST";
              Api.headers := {[ "Content-Type" := "application/x-www-form-urlencoded" ]};
              Api.body := Some ("username=" +:+ Api.form_encode email
                                +:+ "&password=" +:+ Api.form_encode password) |}];
        Api.alerts := Api.alerts w |}).
Proof.
  intros E. unfold Api.login, Api.bind, Api.fetch, Api.setToken. cbn. rewrite E.
  reflexivity.
Qed.

(** C10: with nothing stored under "medibot_token", each of the eight
    authenticated helpers throws "Not authenticated" and leaves the browser
    as it was, so no request is issued.  A login that succeeds stores the
    access token it received, and a helper called afterwards issues its
    request with the header [Authorization: Bearer <token>] (the token
    being a non-empty text: an empty one counts as none). *)
Theorem helpers_need_the_stored_token
    (w w0 : Api.Browser) (store0 : gmap string string)
    (text email password : string) (conv : option Z) (i : Z)
    (tok : Api.TokenResponse)
    (n1 : Api.FetchOutcome Api.ChatResponse)
    (n2 : Api.FetchOutcome Api.ExplainResponse)
    (n3 : Api.FetchOutcome Api.ExplainRagResponse)
    (n4 : Api.FetchOutcome (list Api.ConversationSummary))
    (n5 : Api.FetchOutcome Api.ConversationDetail)
    (n6 : Api.FetchOutcome string)
    (n7 : Api.FetchOutcome (list Api.Escalation))
    (n8 : Api.FetchOutcome Api.ResolveResponse) :
  no_token w ->
  Api.localStorage w0 = Some store0 ->
  let denied {T} (r : Api.Outcome T * Api.Browser) :=
    r = (Api.Rejected (Api.Error "Not authenticated"), w) in
  let w1 := snd (Api.login email password (Api.HttpOk (Api.Resolved tok)) w0) in
  let sent {T} (r : Api.Outcome T * Api.Browser) :=
    sent_with_bearer (Api.access_token tok) w1 (snd r) in
  (denied (Api.sendChat text conv n1 w)
   /\ denied (Api.explain i n2 w)
   /\ denied (Api.explainRag i n3 w)
   /\ denied (Api.listConversations n4 w)
   /\ denied (Api.getConversation i n5 w)
   /\ denied (Api.escalateToDoctor i n6 w)
   /\ denied (Api.listEscalations n7 w)
   /\ denied (Api.resolveEscalation i n8 w))
  /\ Api.localStorage w1 = Some (<["medibot_token" := Api.access_token tok]> store0)
  /\ (Api.access_token tok <> "" ->
      sent (Api.sendChat text conv n1 w1)
      /\ sent (Api.explain i n2 w1)
      /\ sent (Api.explainRag i n3 w1)
      /\ sent (Api.listConversations n4 w1)
      /\ sent (Api.getConversation i n5 w1)
      /\ sent (Api.escalateToDoctor i n6 w1)
      /\ sent (Api.listEscalations n7 w1)
      /\ sent (Api.resolveEscalation i n8 w1)).
Proof.
  intros Hw E0 denied w1 sent.
  assert (E1 : Api.localStorage w1
               = Some (<["medibot_token" := Api.access_token tok]> store0)).
  { unfold w1. now rewrite (login_stores_token email password tok w0 store0 E0). }
  split; [|split; [exact E1|]].
  - unfold denied, Api.sendChat, Api.explain, Api.explainRag, Api.listConversations,
      Api.getConversation, Api.escalateToDoctor, Api.listEscalations,
      Api.resolveEscalation.
    repeat split; now apply apiFetch_no_token.
  - intros Ht.
    unfold sent, Api.sendChat, Api.explain, Api.explainRag, Api.listConversations,
      Api.getConversation, Api.escalateToDoctor, Api.listEscalations,
      Api.resolveEscalation.
    repeat split;
      (eapply apiFetch_sends_bearer; [exact E1 | apply lookup_insert_eq | exact Ht]).
Qed.

(** ** Sending a turn *)

Lemma refreshed_frame (r : Api.Outcome (list Api.ConversationSummary))
    (s : Chat.ChatState) :
  Chat.messages (Chat.refreshed r s) = Chat.messages s
  /\ Chat.sending (Chat.refreshed r s) = Chat.sending s
  /\ Chat.input (Chat.refreshed r s) = Chat.input s.
Proof. destruct r; repeat split; reflexivity. Qed.

Lemma onSend_replied_messages (thinkingId uuid3 : string)
    (r : Api.Outcome Api.ChatResponse) (s : Chat.ChatState) :
  Chat.messages (Chat.onSend_replied thinkingId uuid3 r s)
  = Chat.replace_thinking thinkingId
      (match r with
       | Api.Resolved res => Chat.assistantMsg uuid3 res
       | Api.Rejected _ => Chat.failureMsg uuid3
       end) (Chat.messages s)
  /\ Chat.sending (Chat.onSend_replied thinkingId uuid3 r s) = Chat.sending s.
Proof. destruct r; split; reflexivity. Qed.

(** The message that takes the place of the placeholder. *)
Lemma onSend_settle_messages (thinkingId uuid3 : string)
    (r : Api.Outcome Api.ChatResponse)
    (list_net : Api.FetchOutcome (list Api.ConversationSummary))
    (s : Chat.ChatState) (w : Api.Browser) :
  Chat.messages (fst (Chat.onSend_settle thinkingId uuid3 r list_net s w))
  = Chat.replace_thinking thinkingId
      (match r with
       | Api.Resolved res => Chat.assistantMsg uuid3 res
       | Api.Rejected _ => Chat.failureMsg uuid3
       end) (Chat.messages s)
  /\ Chat.sending (fst (Chat.onSend_settle thinkingId uuid3 r list_net s w)) = false.
Proof.
  unfold Chat.onSend_settle, Chat.refreshConversations.
  destruct r as [res|e]; [|split; reflexivity].
  destruct (Api.listConversations list_net w) as [lr w1]. cbn [fst].
  split; [|reflexivity].
  cbn [Chat.setSending Chat.messages].
  now destruct (refreshed_frame lr (Chat.onSend_replied thinkingId uuid3 (Api.Resolved res) s))
    as (-> & _).
Qed.

Lemma filter_keeps_all (t : string) (l : list Chat.UIMessage) :
  Forall (fun m => Chat.id m <> t) l ->
  filter (fun m => Chat.id m <> t) l = l.
Proof.
  intros H. induction H as [|m l Hm _ IH]; [reflexivity|].
  rewrite filter_cons_True by exact Hm. now rewrite IH.
Qed.

Lemma filter_leaves_none (t : string) (l : list Chat.UIMessage) :
  Forall (fun m => Chat.id m <> t) (filter (fun m => Chat.id m <> t) l).
Proof.
  apply Forall_forall. intros m Hm. now apply list_elem_of_filter in Hm as [Hm _].
Qed.

Lemma replace_thinking_clean (t : string) (a : Chat.UIMessage)
    (prev : list Chat.UIMessage) :
  Chat.id a <> t ->
  Forall (fun m => Chat.id m <> t) (Chat.replace_thinking t a prev).
Proof.
  intros Ha. unfold Chat.replace_thinking. apply Forall_app. split.
  - apply filter_leaves_none.
  - now repeat constructor.
Qed.

Lemma replace_thinking_after_start (t uuid1 text : string) (a : Chat.UIMessage)
    (prev : list Chat.UIMessage) :
  Forall (fun m => Chat.id m <> t) prev -> uuid1 <> t ->
  Chat.replace_thinking t a (prev ++ [Chat.userMsg uuid1 text; Chat.thinking t])
  = prev ++ [Chat.userMsg uuid1 text; a].
Proof.
  intros Hp Hu. unfold Chat.replace_thinking.
  rewrite filter_app, (filter_keeps_all t prev Hp).
  rewrite filter_cons_True by exact Hu.
  rewrite filter_cons_False by (cbn; intros H; now apply H).
  rewrite filter_nil. now rewrite <- app_assoc.
Qed.

(** [onSend] as one handler: the guard, the start, and the settling step
    from any state. *)
Lemma onSend_turn
    (uuid1 thinkingId uuid3 : string)
    (chat_net : Api.FetchOutcome Api.ChatResponse)
    (list_net : Api.FetchOutcome (list Api.ConversationSummary))
    (r : Api.Outcome Api.ChatResponse)
    (s s' : Chat.ChatState) (w w' : Api.Browser) :
  Forall (fun m => Chat.id m <> thinkingId) (Chat.messages s) ->
  uuid1 <> thinkingId ->
  uuid3 <> thinkingId ->
  let text := Js.trim (Chat.input s) in
  let after := fst (Chat.onSend uuid1 thinkingId uuid3 chat_net list_net s w) in
  let settled := fst (Chat.onSend_settle thinkingId uuid3 r list_net s' w') in
  (text = "" \/ Chat.sending s = true ->
   Chat.onSend uuid1 thinkingId uuid3 chat_net list_net s w = (s, w))
  /\ (text <> "" -> Chat.sending s = false ->
      (exists s1,
         Chat.onSend_start uuid1 thinkingId s = Some (text, s1)
         /\ Chat.messages s1
            = Chat.messages s ++ [Chat.userMsg uuid1 text; Chat.thinking thinkingId]
         /\ Chat.sending s1 = true)
      /\ (exists a,
            Chat.messages after = Chat.messages s ++ [Chat.userMsg uuid1 text; a]
            /\ Chat.role a = Chat.Assistant
            /\ ((exists res, a = Chat.assistantMsg uuid3 res)
                \/ a = Chat.failureMsg uuid3))
      /\ Forall (fun m => Chat.id m <> thinkingId) (Chat.messages after)
      /\ Chat.sending after = false)
  /\ (exists a,
        Chat.messages settled
        = filter (fun m => Chat.id m <> thinkingId) (Chat.messages s') ++ [a]
        /\ Chat.role a = Chat.Assistant)
  /\ Forall (fun m => Chat.id m <> thinkingId) (Chat.messages settled)
  /\ Chat.sending settled = false.
Proof.
  intros Hfresh H1 H3 text after settled.
  split; [|split; [|split; [|split]]].
  - intros Hg. unfold Chat.onSend, Chat.onSend_start. fold text.
    destruct Hg as [Hg|Hg]; [rewrite Hg | rewrite Hg, orb_true_r]; reflexivity.
  - intros Ht Hs.
    assert (Hstart : Chat.onSend_start uuid1 thinkingId s
              = Some (text,
                      Chat.setMessages
                        (fun prev => prev ++ [Chat.userMsg uuid1 text;
                                              Chat.thinking thinkingId])
                        (Chat.setSending true (Chat.setInput "" s)))).
    { unfold Chat.onSend_start. fold text. rewrite Hs.
      destruct (String.eqb text "") eqn:E; [apply String.eqb_eq in E; contradiction|].
      reflexivity. }
    split; [eexists; split; [exact Hstart | split; reflexivity]|].
    unfold after, Chat.onSend. rewrite Hstart.
    destruct (Api.sendChat text (Chat.activeConversationId s) chat_net w) as [r0 w1].
    match goal with
    | |- context [Chat.onSend_settle ?t ?u ?r ?n ?s1 ?w1] =>
      destruct (onSend_settle_messages t u r n s1 w1) as [Hm Hsend];
      rewrite Hm, Hsend
    end.
    cbn [Chat.setMessages Chat.messages Chat.setSending Chat.setInput].
    rewrite (replace_thinking_after_start thinkingId uuid1 text _ _ Hfresh H1).
    split; [|split; [|reflexivity]].
    + eexists. split; [reflexivity|]. destruct r0 as [res|e]; split; eauto.
    + apply Forall_app. split; [exact Hfresh|].
      constructor; [exact H1|]. constructor; [|constructor].
      destruct r0; exact H3.
  - unfold settled.
    destruct (onSend_settle_messages thinkingId uuid3 r list_net s' w') as [Hm _].
    rewrite Hm. unfold Chat.replace_thinking. eexists. split; [reflexivity|].
    destruct r; reflexivity.
  - unfold settled.
    destruct (onSend_settle_messages thinkingId uuid3 r list_net s' w') as [Hm _].
    rewrite Hm. apply replace_thinking_clean. destruct r; exact H3.
  - unfold settled.
    now destruct (onSend_settle_messages thinkingId uuid3 r list_net s' w') as [_ Hs].
Qed.

(** *** Sessions *)

Lemma start_Inv (w : Api.Browser) : Session.Inv (Session.start w).
Proof.
  split; cbn; try reflexivity; try lia; intros ? H; inversion H.
Qed.

Lemma in_flight_cases (x : Session.State) :
  Session.Inv x ->
  Session.in_flight x = [] \/ exists t ph, Session.in_flight x = [(t, ph)].
Proof.
  intros [H _ _ _ _]. destruct (Session.in_flight x) as [|[t ph] [|]]; cbn in H; eauto; lia.
Qed.

Lemma step_TypeText text x : Session.Inv x -> Session.Inv (Session.step (Session.TypeText text) x).
Proof. intros [H1 H2 H3 H4 H5]. split; cbn; assumption. Qed.

Lemma step_ClickNewChat x : Session.Inv x -> Session.Inv (Session.step Session.ClickNewChat x).
Proof.
  intros [H1 H2 H3 H4 H5]. split; cbn; try assumption; intros m Hm; inversion Hm.
Qed.

Lemma step_ClickSend u t n x :
  Session.Inv x -> Session.fresh x (Session.ClickSend u t n) ->
  Session.Inv (Session.step (Session.ClickSend u t n) x).
Proof.
  intros HI (Hu & Ht & Hut). cbn [Session.step].
  unfold Chat.onSend_start.
  destruct (String.eqb (Js.trim (Chat.input (Session.page x))) "" || Chat.sending (Session.page x)) eqn:G;
    [exact HI|].
  apply orb_false_iff in G as [_ Gs].
  destruct HI as [H1 H2 H3 H4 H5].
  assert (E : Session.in_flight x = []).
  { rewrite Gs in H2. now destruct (Session.in_flight x). }
  destruct (Api.sendChat _ _ n (Session.browser x)) as [r w1].
  rewrite E in *.
  split; cbn.
  - lia.
  - reflexivity.
  - intros m Hm. rewrite !elem_of_cons. apply elem_of_app in Hm as [Hm|Hm].
    + right. right. now apply H3.
    + rewrite !elem_of_cons, elem_of_nil in Hm. destruct Hm as [->|[->|[]]]; cbn; auto.
  - intros t' Ht'. rewrite !elem_of_cons. apply elem_of_cons in Ht' as [->|Ht']; auto.
  - intros m Hm Hp. set_unfold.
    destruct Hm as [Hm|[Hm|[Hm|[]]]]; subst; cbn in *.
    + destruct Hp as [Hp|Hp]; [rewrite <- Hp in Ht; now apply H3 in Hm|].
      destruct (H5 m Hm Hp).
    + destruct Hp as [Hp|Hp]; [contradiction|]. now apply H4 in Hp.
    + now left.
Qed.

Lemma take_single t t0 ph :
  Session.take t [(t0, ph)] = if String.eqb t t0 then Some (ph, []) else None.
Proof. cbn. now destruct (String.eqb t t0). Qed.

Lemma step_ChatSettles t u n x :
  Session.Inv x -> Session.fresh x (Session.ChatSettles t u n) ->
  Session.Inv (Session.step (Session.ChatSettles t u n) x).
Proof.
  intros HI Hu. cbn in Hu. cbn [Session.step].
  destruct (in_flight_cases x HI) as [E|(t0 & ph & E)]; rewrite E; [exact HI|].
  rewrite take_single. destruct (String.eqb_spec t t0) as [<-|_]; [|exact HI].
  destruct ph as [r|lr]; [|exact HI].
  destruct HI as [H1 H2 H3 H4 H5]. rewrite E in *. cbn in H5.
  destruct (onSend_replied_messages t u r (Session.page x)) as [Hm Hs].
  assert (Hk : forall m, m ∈ Chat.messages (Chat.onSend_replied t u r (Session.page x)) ->
                 Chat.id m = u \/ (m ∈ Chat.messages (Session.page x) /\ Chat.id m <> t)).
  { intros m. rewrite Hm. unfold Chat.replace_thinking.
    rewrite elem_of_app, list_elem_of_filter, list_elem_of_singleton.
    intros [[? ?]| ->]; [now right|left]. now destruct r. }
  assert (Hno : forall m, m ∈ Chat.messages (Chat.onSend_replied t u r (Session.page x)) ->
                  Chat.id m ∈ Session.placeholders x -> False).
  { intros m Hin Hp. destruct (Hk m Hin) as [Hid|[Hin' Hne]].
    - rewrite Hid in Hp. now apply H4 in Hp.
    - specialize (H5 m Hin' Hp). set_unfold. destruct H5 as [?|[]]. contradiction. }
  destruct r as [res|e].
  - destruct (Api.listConversations n (Session.browser x)) as [lr w1].
    split; cbn [Session.page Session.in_flight Session.issued Session.placeholders
                app length Session.awaited flat_map snd fst].
    + lia.
    + now rewrite Hs, H2.
    + intros m Hin. apply elem_of_cons. destruct (Hk m Hin) as [->|[Hin' _]]; auto.
    + intros t' Ht'. apply elem_of_cons. auto.
    + intros m Hin Hp. destruct (Hno m Hin Hp).
  - split; cbn [Session.page Session.in_flight Session.issued Session.placeholders
                app length Session.awaited flat_map snd fst].
    + lia.
    + reflexivity.
    + intros m Hin. cbn in Hin. apply elem_of_cons.
      destruct (Hk m Hin) as [->|[Hin' _]]; auto.
    + intros t' Ht'. apply elem_of_cons. auto.
    + intros m Hin Hp. cbn in Hin. destruct (Hno m Hin Hp).
Qed.

Lemma step_ListSettles t x :
  Session.Inv x -> Session.Inv (Session.step (Session.ListSettles t) x).
Proof.
  intros HI. cbn [Session.step].
  destruct (in_flight_cases x HI) as [E|(t0 & ph & E)]; rewrite E; [exact HI|].
  rewrite take_single. destruct (String.eqb_spec t t0) as [<-|_]; [|exact HI].
  destruct ph as [r|lr]; [exact HI|].
  destruct HI as [H1 H2 H3 H4 H5]. rewrite E in *. cbn in H5.
  destruct (refreshed_frame lr (Session.page x)) as (Hm & _ & _).
  split; cbn [Session.page Session.in_flight Session.issued Session.placeholders
              length Session.awaited flat_map Chat.setSending Chat.messages Chat.sending].
  - lia.
  - reflexivity.
  - intros m. rewrite Hm. apply H3.
  - exact H4.
  - intros m. rewrite Hm. apply H5.
Qed.

Lemma step_ClickConversation c n x :
  Session.Inv x -> Session.Inv (Session.step (Session.ClickConversation c n) x).
Proof.
  intros [H1 H2 H3 H4 H5]. cbn [Session.step].
  destruct (Api.getConversation c n (Session.browser x)) as [r w1].
  split; cbn; assumption.
Qed.

Lemma loaded_sending r s : Chat.sending (Chat.loaded r s) = Chat.sending s.
Proof. now destruct r. Qed.

Lemma step_LoadSettles k x :
  Session.Inv x -> Session.fresh x (Session.LoadSettles k) ->
  Session.Inv (Session.step (Session.LoadSettles k) x).
Proof.
  intros HI Hf. cbn in Hf. cbn [Session.step].
  destruct (Session.loads x !! k) as [r|]; [|exact HI].
  destruct HI as [H1 H2 H3 H4 H5]. specialize (Hf r).
  split; cbn [Session.page Session.in_flight Session.issued Session.placeholders].
  - exact H1.
  - now rewrite loaded_sending.
  - intros m Hm. apply elem_of_app. left. apply list_elem_of_fmap. now exists m.
  - intros t Ht. apply elem_of_app. right. now apply H4.
  - intros m Hm Hp. destruct (Hf m eq_refl Hm Hp).
Qed.

Lemma step_preserves_Inv (e : Session.Event) (x : Session.State) :
  Session.Inv x -> Session.fresh x e -> Session.Inv (Session.step e x).
Proof.
  intros HI Hf. destruct e.
  - now apply step_TypeText.
  - now apply step_ClickSend.
  - now apply step_ChatSettles.
  - now apply step_ListSettles.
  - now apply step_ClickNewChat.
  - now apply step_ClickConversation.
  - now apply step_LoadSettles.
Qed.

Lemma reachable_Inv (w : Api.Browser) (x : Session.State) :
  Session.reachable w x -> Session.Inv x.
Proof.
  induction 1 as [|x e _ IH Hf]; [apply start_Inv | now apply step_preserves_Inv].
Qed.

(** With nothing else happening in between, the click on a conversation
    and the arrival of its messages are [openConversation]. *)
Lemma open_without_interleaving (c : Z) (net : Api.FetchOutcome Api.ConversationDetail)
    (x : Session.State) :
  Session.loads x = [] ->
  let y := Session.run [Session.ClickConversation c net; Session.LoadSettles 0] x in
  (Session.page y, Session.browser y)
  = Chat.openConversation c net (Session.page x) (Session.browser x)
  /\ Session.loads y = [].
Proof.
  intros E. unfold Session.run, Chat.openConversation, Chat.loadConversation.
  cbn [fold_left Session.step].
  destruct (Api.getConversation c net (Session.browser x)) as [r w1].
  rewrite E. cbn. destruct r; split; reflexivity.
Qed.

(** With nothing else happening in between, the three steps of a session
    that make up one turn are [onSend]. *)
Lemma run_without_interleaving (uuid1 thinkingId uuid3 : string)
    (chat_net : Api.FetchOutcome Api.ChatResponse)
    (list_net : Api.FetchOutcome (list Api.ConversationSummary))
    (x : Session.State) :
  Session.in_flight x = [] ->
  let y := Session.run [Session.ClickSend uuid1 thinkingId chat_net;
                        Session.ChatSettles thinkingId uuid3 list_net;
                        Session.ListSettles thinkingId] x in
  (Session.page y, Session.browser y)
  = Chat.onSend uuid1 thinkingId uuid3 chat_net list_net (Session.page x) (Session.browser x)
  /\ Session.in_flight y = [].
Proof.
  intros E. unfold Session.run. cbn [fold_left]. unfold Chat.onSend.
  cbn [Session.step].
  destruct (Chat.onSend_start uuid1 thinkingId (Session.page x)) as [[text s1]|].
  - destruct (Api.sendChat text _ chat_net (Session.browser x)) as [r w1].
    rewrite E. cbn [app Session.in_flight Session.page Session.browser Session.take].
    rewrite String.eqb_refl. unfold Chat.onSend_settle, Chat.refreshConversations.
    destruct r as [res|e].
    + destruct (Api.listConversations list_net w1) as [lr w2].
      cbn [Session.step app Session.in_flight Session.page Session.browser Session.take].
      rewrite String.eqb_refl. split; reflexivity.
    + cbn [Session.step app Session.in_flight Session.page Session.browser Session.take].
      split; reflexivity.
  - rewrite E. cbn [Session.take Session.step]. rewrite E. cbn [Session.take].
    split; [reflexivity | exact E].
Qed.

(** C9: [onSend] returns at once, changing nothing and asking nothing of the
    network, when the trimmed input is empty or a send is in progress.
    Otherwise it first appends the user message and the placeholder and
    raises [sending]; once the request has settled, in success and in
    failure alike, the placeholder is gone, one assistant message stands in
    its place and [sending] is lowered; this holds for the settling step
    from any state the page may be in by then.  Over a whole session, with
    typing, "New Chat" and opening a conversation interleaved at every
    [await]: at most one send is in flight, [sending] is raised exactly
    while one is, a further [onSend] then does nothing, and a placeholder
    still on screen belongs to a turn that awaits its answer, so none is
    left once every turn has settled. *)
Theorem onSend_settles_into_one_assistant_message
    (uuid1 thinkingId uuid3 : string)
    (chat_net : Api.FetchOutcome Api.ChatResponse)
    (list_net : Api.FetchOutcome (list Api.ConversationSummary))
    (r : Api.Outcome Api.ChatResponse)
    (s s' : Chat.ChatState) (w w' w0 : Api.Browser) (x : Session.State) :
  Forall (fun m => Chat.id m <> thinkingId) (Chat.messages s) ->
  uuid1 <> thinkingId ->
  uuid3 <> thinkingId ->
  Session.reachable w0 x ->
  let text := Js.trim (Chat.input s) in
  let after := fst (Chat.onSend uuid1 thinkingId uuid3 chat_net list_net s w) in
  let settled := fst (Chat.onSend_settle thinkingId uuid3 r list_net s' w') in
  ((text = "" \/ Chat.sending s = true ->
    Chat.onSend uuid1 thinkingId uuid3 chat_net list_net s w = (s, w))
   /\ (text <> "" -> Chat.sending s = false ->
       (exists s1,
          Chat.onSend_start uuid1 thinkingId s = Some (text, s1)
          /\ Chat.messages s1
             = Chat.messages s ++ [Chat.userMsg uuid1 text; Chat.thinking thinkingId]
          /\ Chat.sending s1 = true)
       /\ (exists a,
             Chat.messages after = Chat.messages s ++ [Chat.userMsg uuid1 text; a]
             /\ Chat.role a = Chat.Assistant
             /\ ((exists res, a = Chat.assistantMsg uuid3 res)
                 \/ a = Chat.failureMsg uuid3))
       /\ Forall (fun m => Chat.id m <> thinkingId) (Chat.messages after)
       /\ Chat.sending after = false)
   /\ (exists a,
         Chat.messages settled
         = filter (fun m => Chat.id m <> thinkingId) (Chat.messages s') ++ [a]
         /\ Chat.role a = Chat.Assistant)
   /\ Forall (fun m => Chat.id m <> thinkingId) (Chat.messages settled)
   /\ Chat.sending settled = false)
  /\ (length (Session.in_flight x) <= 1
      /\ (Chat.sending (Session.page x) = true <-> Session.in_flight x <> [])
      /\ (Session.in_flight x <> [] ->
          Session.step (Session.ClickSend uuid1 thinkingId chat_net) x = x)
      /\ (forall m, m ∈ Chat.messages (Session.page x) ->
                    Chat.id m ∈ Session.placeholders x ->
                    Chat.id m ∈ Session.awaited (Session.in_flight x))
      /\ (Session.in_flight x = [] ->
          forall m, m ∈ Chat.messages (Session.page x) ->
                    Chat.id m ∉ Session.placeholders x)).
Proof.
  intros Hfresh H1 H3 Hx text after settled. split.
  - exact (onSend_turn uuid1 thinkingId uuid3 chat_net list_net r s s' w w'
             Hfresh H1 H3).
  - destruct (reachable_Inv w0 x Hx) as [I1 I2 I3 I4 I5].
    split; [exact I1|]. split; [|split; [|split]].
    + rewrite I2. destruct (Session.in_flight x); split; congruence.
    + intros Hne. cbn [Session.step]. unfold Chat.onSend_start.
      rewrite I2. destruct (Session.in_flight x); [congruence|].
      now rewrite orb_true_r.
    + exact I5.
    + intros E m Hm Hp. specialize (I5 m Hm Hp). rewrite E in I5. inversion I5.
Qed.

Lemma onSend_settles_into_one_assistant_message_witness :
  Chat.messages
    (fst (Chat.onSend "u-3" "t-3" "a-3"
            (Api.HttpOk (Api.Resolved Examples.emergency_answer))
            (Api.HttpOk (Api.Resolved []))
            (Examples.page [Examples.chest_pain; Examples.emergency_reply])
            Examples.signed_in))
  = [Examples.chest_pain; Examples.emergency_reply;
     Chat.userMsg "u-3" "high fever";
     Chat.assistantMsg "a-3" Examples.emergency_answer]
  /\ Forall (fun m => Chat.id m <> "t-3")
       (Chat.messages
          (fst (Chat.onSend "u-3" "t-3" "a-3"
                  (Api.HttpOk (Api.Resolved Examples.emergency_answer))
                  (Api.HttpOk (Api.Resolved []))
                  (Examples.page [Examples.chest_pain; Examples.emergency_reply])
                  Examples.signed_in)))
  /\ length (Session.in_flight Examples.waiting) <= 1
  /\ Session.step
       (Session.ClickSend "u-3" "t-3" (Api.HttpOk (Api.Resolved Examples.emergency_answer)))
       Examples.waiting
     = Examples.waiting.
Proof.
  split; [reflexivity|].
  assert (Hfresh : Forall (fun m => Chat.id m <> "t-3")
                     (Chat.messages
                        (Examples.page [Examples.chest_pain; Examples.emergency_reply]))).
  { repeat constructor; discriminate. }
  assert (Hreach : Session.reachable Examples.signed_in Examples.waiting).
  { unfold Examples.waiting, Session.run. cbn [fold_left].
    apply Session.reach_step; [apply Session.reach_step; [apply Session.reach_start|]|].
    - exact I.
    - cbn. repeat split; [apply not_elem_of_nil | apply not_elem_of_nil | discriminate]. }
  destruct (onSend_settles_into_one_assistant_message "u-3" "t-3" "a-3"
              (Api.HttpOk (Api.Resolved Examples.emergency_answer))
              (Api.HttpOk (Api.Resolved []))
              (Api.Resolved Examples.emergency_answer)
              (Examples.page [Examples.chest_pain; Examples.emergency_reply])
              (Examples.page [])
              Examples.signed_in Examples.signed_in Examples.signed_in Examples.waiting
              Hfresh ltac:(discriminate) ltac:(discriminate) Hreach)
    as ((_ & H & _) & (L & _ & N & _)).
  split; [|split; [exact L|]].
  - destruct H as (_ & _ & H & _); [discriminate | reflexivity | exact H].
  - apply N. discriminate.
Defined.

Lemma helpers_need_the_stored_token_witness :
  Api.resolveEscalation 9 (Api.HttpOk (Api.Resolved {| Api.rr_id := 9; Api.rr_resolved := true |}))
    Examples.signed_out
  = (Api.Rejected (Api.Error "Not authenticated"), Examples.signed_out)
  /\ Api.localStorage
       (snd (Api.login "user1@medibot.ai" "password123"
               (Api.HttpOk (Api.Resolved {| Api.access_token := "tok-123";
                                            Api.token_type := "bearer" |}))
               Examples.signed_out))
     = Some (<["medibot_token" := "tok-123"]> ∅)
  /\ sent_with_bearer "tok-123"
       (snd (Api.login "user1@medibot.ai" "password123"
               (Api.HttpOk (Api.Resolved {| Api.access_token := "tok-123";
                                            Api.token_type := "bearer" |}))
               Examples.signed_out))
       (snd (Api.resolveEscalation 9
               (Api.HttpOk (Api.Resolved {| Api.rr_id := 9; Api.rr_resolved := true |}))
               (snd (Api.login "user1@medibot.ai" "password123"
                       (Api.HttpOk (Api.Resolved {| Api.access_token := "tok-123";
                                                    Api.token_type := "bearer" |}))
                       Examples.signed_out)))).
Proof.
  assert (Hno : no_token Examples.signed_out).
  { intros store E. injection E as <-. apply lookup_empty. }
  destruct (helpers_need_the_stored_token Examples.signed_out Examples.signed_out ∅
              "high fever" "user1@medibot.ai" "password123" (Some 5%Z) 9%Z
              {| Api.access_token := "tok-123"; Api.token_type := "bearer" |}
              (Api.NetworkError (Api.Error "Failed to fetch"))
              (Api.NetworkError (Api.Error "Failed to fetch"))
              (Api.NetworkError (Api.Error "Failed to fetch"))
              (Api.NetworkError (Api.Error "Failed to fetch"))
              (Api.NetworkError (Api.Error "Failed to fetch"))
              (Api.NetworkError (Api.Error "Failed to fetch"))
              (Api.NetworkError (Api.Error "Failed to fetch"))
              (Api.HttpOk (Api.Resolved {| Api.rr_id := 9; Api.rr_resolved := true |}))
              Hno eq_refl)
    as ((_ & _ & _ & _ & _ & _ & _ & H) & E & S).
  split; [exact H|]. split; [exact E|].
  destruct (S ltac:(discriminate)) as (_ & _ & _ & _ & _ & _ & _ & S8). exact S8.
Defined.

(** ** Failures shown to the user *)

Lemma apiFetch_keeps_alerts {T} (p : string) (o : Api.RequestInit) (auth : bool)
    (net : Api.FetchOutcome T) (w : Api.Browser) :
  Api.alerts (snd (Api.apiFetch p o auth net w)) = Api.alerts w.
Proof.
  unfold Api.apiFetch, Api.bind, Api.getToken, Api.fetch, Api.ret, Api.throw.
  destruct auth; cbn.
  - destruct (Api.localStorage w) as [store|]; cbn; [|reflexivity].
    destruct (store !! Api.token_key) as [t|]; cbn; [|reflexivity].
    destruct (String.eqb t ""); cbn; [reflexivity|].
    destruct net as [e|status b|[data|e]]; reflexivity.
  - destruct net as [e|status b|[data|e]]; reflexivity.
Qed.

(** A failed resolve alerts the message of the error, whatever it says. *)
Lemma onResolve_alerts_message (i : Z)
    (resolve_net : Api.FetchOutcome Api.ResolveResponse)
    (list_net : Api.FetchOutcome (list Api.Escalation))
    (s : Escalations.PageState) (w : Api.Browser) (e : Api.Thrown) :
  fst (Api.resolveEscalation i resolve_net w) = Api.Rejected e ->
  Api.alerts (snd (Escalations.onResolve i resolve_net list_net s w))
  = Api.alerts w ++ [default "Failed to resolve escalation" (Api.message e)].
Proof.
  intros H. unfold Escalations.onResolve.
  pose proof (apiFetch_keeps_alerts
                ("/api/v1/escalations/" +:+ Js.string_of_int i +:+ "/resolve")
                (Api.init "PATCH" None) true resolve_net w) as Ha.
  fold (Api.resolveEscalation i resolve_net) in Ha.
  destruct (Api.resolveEscalation i resolve_net w) as [r w1]. cbn in H, Ha. subst r.
  cbn. unfold Escalations.message_or. now rewrite Ha.
Qed.

(** With a token stored, the [detail] text of a failed answer is what the
    user reads. *)
Lemma onResolve_alerts_server_detail (i status : Z) (d : string)
    (list_net : Api.FetchOutcome (list Api.Escalation))
    (s : Escalations.PageState) (w : Api.Browser) (store : gmap string string)
    (t : string) :
  Api.localStorage w = Some store -> store !! "medibot_token" = Some t -> t <> "" ->
  Api.alerts (snd (Escalations.onResolve i (Api.HttpError status (Examples.server_detail d))
                     list_net s w))
  = Api.alerts w ++ [d].
Proof.
  intros E H Ht.
  rewrite (onResolve_alerts_message i _ list_net s w (Api.Error d)); [reflexivity|].
  unfold Api.resolveEscalation.
  destruct (apiFetch_with_token
              ("/api/v1/escalations/" +:+ Js.string_of_int i +:+ "/resolve")
              (Api.init "PATCH" None)
              (Api.HttpError (T:=Api.ResolveResponse) status (Examples.server_detail d))
              w store t E H Ht) as (req & -> & _).
  reflexivity.
Qed.

(** C6, as stated, fails on the escalations page: two failed resolves
    alert two different texts, each the [detail] the server sent. *)
Lemma resolve_failure_alerts_server_detail :
  Api.alerts
    (snd (Escalations.onResolve 9
            (Api.HttpError 500
               (Examples.server_detail "psycopg2.OperationalError: connection refused"))
            (Api.HttpOk (Api.Resolved []))
            Escalations.initial Examples.signed_in))
  = ["psycopg2.OperationalError: connection refused"]
  /\ Api.alerts
       (snd (Escalations.onResolve 9
               (Api.HttpError 404 (Examples.server_detail "Escalation not found"))
               (Api.HttpOk (Api.Resolved []))
               Escalations.initial Examples.signed_in))
     = ["Escalation not found"].
Proof. split; vm_compute; reflexivity. Qed.

(** C6 (amended): when the request of a turn fails, for whatever reason, the
    chat shows the fixed text "Something went wrong while sending your
    message. Please try again." and raises no alert; when resolving an
    escalation fails, the alert shows the message of the error, and the
    fixed text "Failed to resolve escalation" only for an error without a
    message. *)
Theorem send_failure_is_generic_resolve_failure_shows_message
    (uuid1 thinkingId uuid3 : string)
    (chat_net : Api.FetchOutcome Api.ChatResponse)
    (list_net : Api.FetchOutcome (list Api.ConversationSummary))
    (s : Chat.ChatState) (w : Api.Browser) (e : Api.Thrown)
    (i : Z) (resolve_net : Api.FetchOutcome Api.ResolveResponse)
    (reload_net : Api.FetchOutcome (list Api.Escalation))
    (ps : Escalations.PageState) (pw : Api.Browser) (e' : Api.Thrown) :
  Js.trim (Chat.input s) <> "" ->
  Chat.sending s = false ->
  fst (Api.sendChat (Js.trim (Chat.input s)) (Chat.activeConversationId s) chat_net w)
  = Api.Rejected e ->
  fst (Api.resolveEscalation i resolve_net pw) = Api.Rejected e' ->
  let after := Chat.onSend uuid1 thinkingId uuid3 chat_net list_net s w in
  (exists a, last (Chat.messages (fst after)) = Some a
             /\ Chat.role a = Chat.Assistant
             /\ Chat.content a
                = "Something went wrong while sending your message. Please try again.")
  /\ Api.alerts (snd after) = Api.alerts w
  /\ Api.alerts (snd (Escalations.onResolve i resolve_net reload_net ps pw))
     = Api.alerts pw
       ++ [match Api.message e' with
           | Some text => text
           | None => "Failed to resolve escalation"
           end].
Proof.
  intros Ht Hs Hr Hr' after. split; [|split].
  - unfold after, Chat.onSend, Chat.onSend_start. rewrite Hs.
    destruct (String.eqb (Js.trim (Chat.input s)) "") eqn:E;
      [apply String.eqb_eq in E; contradiction|].
    cbn [orb].
    destruct (Api.sendChat (Js.trim (Chat.input s)) (Chat.activeConversationId s)
                chat_net w) as [r w1].
    cbn in Hr. subst r. cbn.
    exists (Chat.failureMsg uuid3). split; [|split; reflexivity].
    unfold Chat.replace_thinking. apply last_snoc.
  - unfold after, Chat.onSend, Chat.onSend_start. rewrite Hs.
    destruct (String.eqb (Js.trim (Chat.input s)) "") eqn:E;
      [apply String.eqb_eq in E; contradiction|].
    cbn [orb].
    pose proof (apiFetch_keeps_alerts "/api/v1/chat"
                  (Api.init "POST"
                     (Some (Json.stringify
                              (Json.Object
                                 (("message", Json.Str (Js.trim (Chat.input s)))
                                  :: match Chat.activeConversationId s with
                                     | Some c =>
                                       [("conversation_id",
                                         Json.Number (Js.string_of_int c))]
                                     | None => []
                                     end)))))
                  true chat_net w) as Ha.
    fold (Api.sendChat (Js.trim (Chat.input s)) (Chat.activeConversationId s) chat_net) in Ha.
    destruct (Api.sendChat (Js.trim (Chat.input s)) (Chat.activeConversationId s)
                chat_net w) as [r w1].
    cbn in Hr, Ha. subst r. cbn. exact Ha.
  - rewrite (onResolve_alerts_message i resolve_net reload_net ps pw e' Hr').
    now destruct (Api.message e').
Qed.

Lemma send_failure_is_generic_resolve_failure_shows_message_witness :
  Api.alerts
    (snd (Escalations.onResolve 9
            (Api.HttpError 404 (Examples.server_detail "Escalation not found"))
            (Api.HttpOk (Api.Resolved []))
            Escalations.initial Examples.signed_in))
  = [] ++ ["Escalation not found"].
Proof.
  apply (send_failure_is_generic_resolve_failure_shows_message "u-3" "t-3" "a-3"
           (Api.HttpError 503 (Examples.server_detail "Service Unavailable"))
           (Api.HttpOk (Api.Resolved []))
           (Examples.page []) Examples.signed_in (Api.Error "Service Unavailable")
           9%Z (Api.HttpError 404 (Examples.server_detail "Escalation not found"))
           (Api.HttpOk (Api.Resolved []))
           Escalations.initial Examples.signed_in (Api.Error "Escalation not found"));
    [discriminate | reflexivity | reflexivity | reflexivity].
Defined.

(** ** Resolving an escalation *)

(** C7: [resolve] fails with [NotFound] for an id that is absent, returns an
    escalation that is already resolved as it is, and otherwise sets
    [resolved]; resolving the same id once more succeeds again and yields
    the same resolved escalation. *)
Theorem resolve_is_idempotent
    (now later : string) (i : Z) (absent store : gmap Z Core.Escalation)
    (e : Core.Escalation) :
  absent !! i = None ->
  store !! i = Some e ->
  Core.resolve now i absent = inl Core.NotFound
  /\ (Core.resolved e = true -> Core.resolve now i store = inr (e, store))
  /\ (Core.resolved e = false ->
      Core.resolve now i store
      = inr (Core.mark_resolved now e, <[i := Core.mark_resolved now e]> store))
  /\ exists e1 store1,
       Core.resolve now i store = inr (e1, store1)
       /\ Core.resolved e1 = true
       /\ store1 !! i = Some e1
       /\ Core.resolve later i store1 = inr (e1, store1).
Proof.
  intros Ha Hs. unfold Core.resolve. rewrite Ha, Hs.
  split; [reflexivity|]. split; [now intros ->|]. split; [now intros ->|].
  destruct (Core.resolved e) eqn:Hr.
  - exists e, store. rewrite Hs, Hr. auto.
  - exists (Core.mark_resolved now e), (<[i := Core.mark_resolved now e]> store).
    rewrite lookup_insert_eq. cbn. auto.
Qed.

Lemma resolve_is_idempotent_witness :
  Core.resolve "2026-01-05T11:00:00Z" 9 ∅ = inl Core.NotFound
  /\ exists e1 store1,
       Core.resolve "2026-01-05T11:00:00Z" 9 {[ 9%Z := Examples.pending ]}
       = inr (e1, store1)
       /\ Core.resolved e1 = true
       /\ store1 !! 9%Z = Some e1
       /\ Core.resolve "2026-01-05T12:00:00Z" 9 store1 = inr (e1, store1).
Proof.
  destruct (resolve_is_idempotent "2026-01-05T11:00:00Z" "2026-01-05T12:00:00Z" 9%Z
              ∅ {[ 9%Z := Examples.pending ]} Examples.pending
              (lookup_empty _) (lookup_singleton_eq _ _)) as (H & _ & _ & H').
  split; [exact H | exact H'].
Defined.

(** ** The definitions at work *)

Example trim_strips_both_ends :
  Js.trim (String (ascii_of_nat 9) "  high fever " +:+ String (ascii_of_nat 10) "")
  = "high fever".
Proof. reflexivity. Qed.

(** U+00A0 and U+3000 are white space too. *)
Example trim_strips_wide_spaces :
  Js.trim (String (ascii_of_nat 194) (String (ascii_of_nat 160) "hi")
           +:+ String (ascii_of_nat 227) (String (ascii_of_nat 128)
                 (String (ascii_of_nat 128) "")))
  = "hi".
Proof. reflexivity. Qed.

Example toLowerCase_ascii (U : string -> string -> string) :
  Js.toLowerCase U "High FEVER, 39C" = "high fever, 39c".
Proof. reflexivity. Qed.

(** From the first byte outside ASCII on (here U+0130, bytes 196 176), the
    lower case is the one of the case tables. *)
Example toLowerCase_beyond_ascii (U : string -> string -> string) :
  Js.toLowerCase U ("HI" +:+ String (ascii_of_nat 196) (String (ascii_of_nat 176) "GH"))
  = "hi" +:+ U "HI" (String (ascii_of_nat 196) (String (ascii_of_nat 176) "GH")).
Proof. reflexivity. Qed.

Example stringify_escapes :
  Json.stringify
    (Json.Object [("detail", Json.Array [Json.Str ("a" +:+ Json.dquote +:+ "b");
                                         Json.Number "422"; Json.Null; Json.Bool true])])
  = "{" +:+ Json.dquote +:+ "detail" +:+ Json.dquote +:+ ":["
    +:+ Json.dquote +:+ "a\" +:+ Json.dquote +:+ "b" +:+ Json.dquote
    +:+ ",422,null,true]}".
Proof. reflexivity. Qed.

Example form_encode_email :
  Api.form_encode "user1@medibot.ai" = "user1%40medibot.ai"
  /\ Api.form_encode "pass word+1" = "pass+word%2B1".
Proof. split; reflexivity. Qed.

Example readErrorMessage_cases :
  Api.readErrorMessage 404 (Examples.server_detail "Escalation not found")
  = "Escalation not found"
  /\ Api.readErrorMessage 422
       {| Api.json := Some (Json.Object [("detail", Json.Array [Json.Number "1"])]) |}
     = "[1]"
  /\ Api.readErrorMessage 400
       {| Api.json := Some (Json.Object [("error", Json.Str "bad")]) |}
     = "{" +:+ Json.dquote +:+ "error" +:+ Json.dquote +:+ ":"
       +:+ Json.dquote +:+ "bad" +:+ Json.dquote +:+ "}"
  /\ Api.readErrorMessage 502 {| Api.json := None |} = "Request failed: 502".
Proof. repeat split; reflexivity. Qed.

(** What [sendChat] puts on the wire when a token is stored. *)
Example sendChat_request :
  Api.requests
    (snd (Api.sendChat "high fever" (Some 5%Z)
            (Api.HttpOk (Api.Resolved Examples.emergency_answer)) Examples.signed_in))
  = [{| Api.path := "/api/v1/chat";
        Api.method := Some "POST";
        Api.headers := <["Authorization" := "Bearer tok-123"]>
                         (<["Content-Type" := "application/json"]> ∅);
        Api.body :=
          Some ("{" +:+ Json.dquote +:+ "message" +:+ Json.dquote +:+ ":"
                +:+ Json.dquote +:+ "high fever" +:+ Json.dquote +:+ ","
                +:+ Json.dquote +:+ "conversation_id" +:+ Json.dquote +:+ ":5}") |}].
Proof. reflexivity. Qed.

Example login_rejected :
  fst (Api.login "user1@medibot.ai" "wrong"
         (Api.HttpError 401 (Examples.server_detail "Incorrect email or password"))
         Examples.signed_out)
  = Api.Rejected (Api.Error "Incorrect email or password")
  /\ fst (Api.login "user1@medibot.ai" "wrong"
            (Api.HttpError 500 {| Api.json := None |})
            Examples.signed_out)
     = Api.Rejected (Api.Error "Invalid email or password").
Proof. split; reflexivity. Qed.

(** An ordinary reply is drawn with its source and the explain button. *)
Example unsure_reply_view :
  Chat.render_message (Some 43%Z) [] Examples.unsure_reply
  = {| Chat.bubble := Chat.BubbleSelected;
       Chat.emergency_banner := None;
       Chat.risk_badge := Some "low risk";
       Chat.model_badge := Some "Online AI";
       Chat.body_text := "It may be a viral infection.";
       Chat.confidence_indicator := Some 0.3%float;
       Chat.low_confidence_warning := true;
       Chat.sources :=
         [{| Chat.summary := "Chest pain: first response";
             Chat.source_line := Some "Source: who.int";
             Chat.file_line := Some "File: chest_pain.pdf";
             Chat.page_line := Some "Page: 12" |}];
       Chat.explain_button := true |}.
Proof. reflexivity. Qed.

Example threshold_is_strict :
  Chat.is_low_confidence (Some 0.4%float) = false
  /\ Chat.is_low_confidence (Some 0.39999%float) = true
  /\ Chat.is_low_confidence (Some PrimFloat.nan) = false
  /\ Chat.is_low_confidence None = false.
Proof. repeat split; reflexivity. Qed.

Example escalations_after_failed_load :
  Escalations.render
    (fst (Escalations.load (Api.HttpError 403 (Examples.server_detail "Doctors only"))
            Escalations.initial Examples.signed_in))
  = Escalations.Failed "Doctors only".
Proof. reflexivity. Qed.

(** A turn taken step by step, with "New Chat" clicked while the answer is
    awaited: the answer still lands, and no placeholder is left. *)
Example interleaved_turn :
  Chat.messages
    (Session.page
       (Session.run
          [Session.ClickNewChat;
           Session.ChatSettles "t-1" "a-1" (Api.HttpOk (Api.Resolved []));
           Session.ListSettles "t-1"]
          Examples.waiting))
  = [Chat.assistantMsg "a-1" Examples.emergency_answer]
  /\ Session.in_flight
       (Session.run
          [Session.ClickNewChat;
           Session.ChatSettles "t-1" "a-1" (Api.HttpOk (Api.Resolved []));
           Session.ListSettles "t-1"]
          Examples.waiting) = [].
Proof. split; reflexivity. Qed.

(** * More of the client *)

(** ** Tokens and [apiFetch] *)

(** A token that is stored is the one read back, a second one replaces it,
    and after [clearToken] none is read; the other keys of [localStorage],
    the requests and the alerts are not touched. *)
Theorem token_round_trip (t t' : string) (w : Api.Browser) (store : gmap string string) :
  Api.localStorage w = Some store ->
  let w1 := snd (Api.setToken t w) in
  let w2 := snd (Api.setToken t' w1) in
  let w3 := snd (Api.clearToken w2) in
  fst (Api.getToken w1) = Api.Resolved (Some t)
  /\ fst (Api.getToken w2) = Api.Resolved (Some t')
  /\ fst (Api.getToken w3) = Api.Resolved None
  /\ (exists store3, Api.localStorage w3 = Some store3
        /\ forall k, k <> "medibot_token" -> store3 !! k = store !! k)
  /\ Api.requests w3 = Api.requests w
  /\ Api.alerts w3 = Api.alerts w.
Proof.
  intros E. unfold Api.setToken, Api.clearToken, Api.getToken, Api.token_key.
  rewrite E. cbn. rewrite !lookup_insert_eq, lookup_delete_eq.
  repeat split; try reflexivity.
  eexists. split; [reflexivity|]. intros k Hk.
  rewrite lookup_delete_ne, !lookup_insert_ne by congruence. reflexivity.
Qed.

(** The message of a failed answer.  When the body parses as JSON, a
    [detail] that is a string is the message as it stands, wherever it sits
    among the fields, and a [detail] that is an array is shown as its JSON
    text; the status plays no part.  When the body does not parse, the
    message is the one with the status: the text of the body is never
    shown. *)
Theorem readErrorMessage_by_body (status : Z) (b : Api.ErrorBody) :
  (forall data d,
     Api.json b = Some data -> Json.get "detail" data = Some (Json.Str d) ->
     Api.readErrorMessage status b = d)
  /\ (forall data items,
        Api.json b = Some data -> Json.get "detail" data = Some (Json.Array items) ->
        Api.readErrorMessage status b = Json.stringify (Json.Array items))
  /\ (forall status',
        Api.json b <> None -> Api.readErrorMessage status b = Api.readErrorMessage status' b)
  /\ (Api.json b = None ->
      Api.readErrorMessage status b = "Request failed: " +:+ Js.string_of_int status).
Proof.
  unfold Api.readErrorMessage. repeat split.
  - intros data d -> ->. reflexivity.
  - intros data items -> ->. reflexivity.
  - intros status' H. destruct (Api.json b); [reflexivity | contradiction].
  - intros ->. reflexivity.
Qed.

(** [apiFetch] never changes [localStorage] and never alerts; it issues at
    most one request, with the path, method and body it was given. *)
Theorem apiFetch_frame {T} (p : string) (o : Api.RequestInit) (auth : bool)
    (net : Api.FetchOutcome T) (w : Api.Browser) :
  Api.localStorage (snd (Api.apiFetch p o auth net w)) = Api.localStorage w
  /\ Api.alerts (snd (Api.apiFetch p o auth net w)) = Api.alerts w
  /\ (Api.requests (snd (Api.apiFetch p o auth net w)) = Api.requests w
      \/ exists req,
           Api.requests (snd (Api.apiFetch p o auth net w)) = Api.requests w ++ [req]
           /\ Api.path req = p /\ Api.method req = Api.ri_method o
           /\ Api.body req = Api.ri_body o).
Proof.
  unfold Api.apiFetch, Api.bind, Api.getToken, Api.fetch, Api.ret, Api.throw.
  destruct auth; cbn.
  - destruct (Api.localStorage w) as [store|] eqn:E; cbn; [|auto].
    destruct (store !! Api.token_key) as [t|]; cbn; [|auto].
    destruct (String.eqb t ""); cbn; [auto|].
    destruct net as [e|status b|[data|e]]; cbn; rewrite ?E; repeat split; eauto 10.
  - destruct net as [e|status b|[data|e]]; cbn; repeat split; eauto 10.
Qed.

(** An authenticated call resolves only if a non-empty token was stored,
    one request went out with it as bearer, and the answer was [ok] with
    that very body. *)
Theorem apiFetch_resolves_only_when_ok {T} (p : string) (o : Api.RequestInit)
    (net : Api.FetchOutcome T) (w : Api.Browser) (a : T) :
  fst (Api.apiFetch p o true net w) = Api.Resolved a ->
  net = Api.HttpOk (Api.Resolved a)
  /\ exists store t req,
       Api.localStorage w = Some store
       /\ store !! "medibot_token" = Some t /\ t <> ""
       /\ Api.requests (snd (Api.apiFetch p o true net w)) = Api.requests w ++ [req]
       /\ Api.headers req !! "Authorization" = Some ("Bearer " +:+ t).
Proof.
  intros H.
  destruct (Api.localStorage w) as [store|] eqn:E.
  2:{ rewrite apiFetch_no_token in H; [discriminate|]. intros st Hs. congruence. }
  destruct (store !! "medibot_token") as [t|] eqn:Ht.
  2:{ rewrite apiFetch_no_token in H; [discriminate|]. intros st Hs. congruence. }
  destruct (String.eqb_spec t "") as [->|Hne].
  { rewrite (apiFetch_empty_token p o net w store E Ht) in H. discriminate. }
  destruct (apiFetch_with_token p o net w store t E Ht Hne) as (req & Hr & _ & Hh).
  rewrite Hr in H |- *. cbn in H.
  split.
  - destruct net as [e|status b|[data|e]]; try discriminate. congruence.
  - exists store, t, req. cbn. auto.
Qed.

Lemma apiFetch_request {T} (p : string) (o : Api.RequestInit)
    (net : Api.FetchOutcome T) (w : Api.Browser) (store : gmap string string)
    (t : string) :
  Api.localStorage w = Some store -> store !! "medibot_token" = Some t -> t <> "" ->
  Api.requests (snd (Api.apiFetch p o true net w))
  = Api.requests w ++
    [{| Api.path := p; Api.method := Api.ri_method o;
        Api.headers :=
          <["Authorization" := "Bearer " +:+ t]>
            (if negb (Js.truthy_string (Api.ri_headers o !! "Content-Type"))
                && Js.truthy_string (Api.ri_body o)
             then <["Content-Type" := "application/json"]> (Api.ri_headers o)
             else Api.ri_headers o);
        Api.body := Api.ri_body o |}].
Proof.
  intros E H Ht. unfold Api.apiFetch, Api.bind, Api.getToken.
  rewrite E. unfold Api.token_key. rewrite H.
  destruct (String.eqb t "") eqn:Et; [apply String.eqb_eq in Et; contradiction|].
  unfold Api.ret, Api.fetch, Api.throw. cbn.
  destruct net as [e|status b|[data|e]]; reflexivity.
Qed.

(** Only [sendChat] sends a body, and with it the JSON content type. *)
Theorem only_sendChat_sends_json
    (w : Api.Browser) (store : gmap string string) (t text : string)
    (conv : option Z) (i : Z)
    (n1 : Api.FetchOutcome Api.ChatResponse)
    (n2 : Api.FetchOutcome Api.ExplainResponse)
    (n3 : Api.FetchOutcome Api.ExplainRagResponse)
    (n4 : Api.FetchOutcome (list Api.ConversationSummary))
    (n5 : Api.FetchOutcome Api.ConversationDetail)
    (n6 : Api.FetchOutcome string)
    (n7 : Api.FetchOutcome (list Api.Escalation))
    (n8 : Api.FetchOutcome Api.ResolveResponse) :
  Api.localStorage w = Some store -> store !! "medibot_token" = Some t -> t <> "" ->
  let bare {T} (m : string) (r : Api.Outcome T * Api.Browser) :=
    exists req, Api.requests (snd r) = Api.requests w ++ [req]
                /\ Api.method req = Some m
                /\ Api.body req = None
                /\ Api.headers req !! "Content-Type" = None in
  (exists req body,
     Api.requests (snd (Api.sendChat text conv n1 w)) = Api.requests w ++ [req]
     /\ Api.method req = Some "POST"
     /\ Api.body req = Some body /\ body <> ""
     /\ Api.headers req !! "Content-Type" = Some "application/json")
  /\ bare "GET" (Api.explain i n2 w)
  /\ bare "GET" (Api.explainRag i n3 w)
  /\ bare "GET" (Api.listConversations n4 w)
  /\ bare "GET" (Api.getConversation i n5 w)
  /\ bare "POST" (Api.escalateToDoctor i n6 w)
  /\ bare "GET" (Api.listEscalations n7 w)
  /\ bare "PATCH" (Api.resolveEscalation i n8 w).
Proof.
  intros E H Ht bare.
  assert (Hb : forall T p m (n : Api.FetchOutcome T),
             bare T m (Api.apiFetch p (Api.init m None) true n w)).
  { intros T p m n. eexists. split; [apply (apiFetch_request p _ n w store t E H Ht)|].
    cbn. repeat split. }
  split; [|repeat split; apply Hb].
  eexists. eexists. split; [apply (apiFetch_request _ _ n1 w store t E H Ht)|].
  cbn [Api.method Api.body Api.headers Api.init Api.ri_method Api.ri_body Api.ri_headers].
  split; [reflexivity|]. split; [reflexivity|]. split; [discriminate|].
  rewrite lookup_empty. cbn. rewrite lookup_insert_ne by discriminate.
  apply lookup_insert_eq.
Qed.

Lemma list_ascii_of_append (a b : string) :
  String.list_ascii_of_string (a +:+ b)
  = String.list_ascii_of_string a ++ String.list_ascii_of_string b.
Proof. induction a as [|c a IH]; simpl; [reflexivity | f_equal; exact IH]. Qed.

Lemma piece_of_safe (c : ascii) :
  forallb (fun x => Api.form_safe x || Ascii.eqb x "+" || Ascii.eqb x "%")
          (String.list_ascii_of_string (piece_of c)) = true.
Proof. destruct c as [[] [] [] [] [] [] [] []]; vm_compute; reflexivity. Qed.

Lemma form_encode_cons (c : ascii) (r : string) :
  Api.form_encode (String c r) = piece_of c +:+ Api.form_encode r
  /\ Forall (fun c => Api.form_safe c = true \/ c = "+"%char \/ c = "%"%char)
            (String.list_ascii_of_string (piece_of c)).
Proof.
  split; [reflexivity|].
  pose proof (piece_of_safe c) as H. rewrite forallb_forall in H.
  apply Forall_forall. intros x Hx. apply list_elem_of_In, H in Hx.
  apply orb_true_iff in Hx as [Hx|Hx]; [apply orb_true_iff in Hx as [Hx|Hx]|].
  - now left.
  - right. left. now apply Ascii.eqb_eq.
  - right. right. now apply Ascii.eqb_eq.
Qed.

(** The form encoding writes letters, digits and [* - . _ + %] only, so an
    encoded value holds neither [&] nor [=]. *)
Lemma form_encode_alphabet (s : string) :
  Forall (fun c => Api.form_safe c = true \/ c = "+"%char \/ c = "%"%char)
         (String.list_ascii_of_string (Api.form_encode s))
  /\ ~ In "&"%char (String.list_ascii_of_string (Api.form_encode s))
  /\ ~ In "="%char (String.list_ascii_of_string (Api.form_encode s)).
Proof.
  assert (H : Forall (fun c => Api.form_safe c = true \/ c = "+"%char \/ c = "%"%char)
                     (String.list_ascii_of_string (Api.form_encode s))).
  { induction s as [|c r IH]; [constructor|].
    destruct (form_encode_cons c r) as (-> & Hp).
    rewrite list_ascii_of_append. apply Forall_app. split; assumption. }
  split; [exact H|].
  rewrite Forall_forall in H.
  split; intros Hin; apply list_elem_of_In, H in Hin;
    destruct Hin as [Hin|[Hin|Hin]]; discriminate.
Qed.

(** ** Accounts *)

Lemma login_requests (email password : string)
    (net : Api.FetchOutcome Api.TokenResponse) (w : Api.Browser) :
  Api.requests (snd (Api.login email password net w))
  = Api.requests w ++ [login_request email password]
  /\ Api.alerts (snd (Api.login email password net w)) = Api.alerts w.
Proof.
  unfold Api.login, Api.bind, Api.fetch, Api.setToken, Api.throw, Api.ret. cbn.
  destruct net as [e|status b|[data|e]]; cbn; try (split; reflexivity).
  - destruct (Api.json b) as [err|]; [|split; reflexivity].
    destruct (Json.get "detail" err) as [d|]; [|split; reflexivity].
    destruct (Json.truthy d); split; reflexivity.
  - destruct (Api.localStorage w); split; reflexivity.
Qed.

(** Whatever the email and the password hold, the body [login] sends is
    [username=U&password=P] with [U] and [P] written in letters, digits and
    [* - . _ + %] only: neither value can add a parameter of its own. *)
Theorem login_body_is_well_formed (email password : string)
    (net : Api.FetchOutcome Api.TokenResponse) (w : Api.Browser) :
  exists req u p,
    Api.requests (snd (Api.login email password net w)) = Api.requests w ++ [req]
    /\ Api.body req = Some ("username=" +:+ u +:+ "&password=" +:+ p)
    /\ Api.headers req !! "Content-Type" = Some "application/x-www-form-urlencoded"
    /\ ~ In "&"%char (String.list_ascii_of_string u)
    /\ ~ In "="%char (String.list_ascii_of_string u)
    /\ ~ In "&"%char (String.list_ascii_of_string p)
    /\ ~ In "="%char (String.list_ascii_of_string p).
Proof.
  exists (login_request email password), (Api.form_encode email), (Api.form_encode password).
  split; [apply login_requests|]. split; [reflexivity|]. split; [reflexivity|].
  destruct (form_encode_alphabet email) as (_ & H1 & H2).
  destruct (form_encode_alphabet password) as (_ & H3 & H4).
  repeat split; assumption.
Qed.

Lemma login_storage (email password : string)
    (net : Api.FetchOutcome Api.TokenResponse) (w : Api.Browser) :
  (forall tok, fst (Api.login email password net w) = Api.Resolved tok ->
     net = Api.HttpOk (Api.Resolved tok)
     /\ exists store, Api.localStorage w = Some store
          /\ Api.localStorage (snd (Api.login email password net w))
             = Some (<["medibot_token" := Api.access_token tok]> store))
  /\ (forall e, fst (Api.login email password net w) = Api.Rejected e ->
        Api.localStorage (snd (Api.login email password net w)) = Api.localStorage w).
Proof.
  unfold Api.login, Api.bind, Api.fetch, Api.setToken, Api.throw, Api.ret. cbn.
  destruct net as [e|status b|[data|e]]; cbn.
  - split; [discriminate | reflexivity].
  - destruct (Api.json b) as [err|]; [|split; [discriminate | reflexivity]].
    destruct (Json.get "detail" err) as [d|]; [|split; [discriminate | reflexivity]].
    destruct (Json.truthy d); split; (discriminate || reflexivity).
  - destruct (Api.localStorage w) as [store|] eqn:E; cbn.
    + split; [|discriminate]. intros tok [= <-]. split; [reflexivity|].
      exists store. split; reflexivity.
    + split; [discriminate|]. intros e _. reflexivity.
  - split; [discriminate | reflexivity].
Qed.

Lemma login_token (email password : string)
    (net : Api.FetchOutcome Api.TokenResponse) (w : Api.Browser) (tok : Api.TokenResponse) :
  fst (Api.login email password net w) = Api.Resolved tok ->
  net = Api.HttpOk (Api.Resolved tok)
  /\ fst (Api.getToken (snd (Api.login email password net w)))
     = Api.Resolved (Some (Api.access_token tok)).
Proof.
  intros H. destruct (login_storage email password net w) as [Hs _].
  destruct (Hs tok H) as (Hn & store & _ & E). split; [exact Hn|].
  unfold Api.getToken. rewrite E. unfold Api.token_key. now rewrite lookup_insert_eq.
Qed.

(** [login] asks the server once, without a bearer header even when a
    token is stored, and changes the stored token only when it succeeds. *)
Theorem login_touches_storage_only_on_success (email password : string)
    (net : Api.FetchOutcome Api.TokenResponse) (w : Api.Browser) :
  (exists req,
     Api.requests (snd (Api.login email password net w)) = Api.requests w ++ [req]
     /\ Api.path req = "/api/v1/auth/login"
     /\ Api.headers req !! "Authorization" = None)
  /\ (forall e, fst (Api.login email password net w) = Api.Rejected e ->
        Api.localStorage (snd (Api.login email password net w)) = Api.localStorage w)
  /\ (forall tok, fst (Api.login email password net w) = Api.Resolved tok ->
        net = Api.HttpOk (Api.Resolved tok)
        /\ fst (Api.getToken (snd (Api.login email password net w)))
           = Api.Resolved (Some (Api.access_token tok))).
Proof.
  split; [|split].
  - exists (login_request email password).
    split; [apply login_requests|]. split; reflexivity.
  - apply login_storage.
  - apply login_token.
Qed.

Lemma register_result {T} (email password : string)
    (net : Api.FetchOutcome T) (w : Api.Browser) :
  Account.register email password net w
  = (match net with
     | Api.NetworkError e => Api.Rejected e
     | Api.HttpError _ b => Api.Rejected (Account.detail_or b "Registration failed")
     | Api.HttpOk r => r
     end,
     {| Api.localStorage := Api.localStorage w;
        Api.requests := Api.requests w ++ [register_request email password];
        Api.alerts := Api.alerts w |}).
Proof.
  unfold Account.register, Api.bind, Api.fetch, Api.throw, Api.ret.
  destruct net as [e|status b|[data|e]]; reflexivity.
Qed.

(** [register] asks the server once, without a bearer header, and never
    stores a token: an account that was just created is not signed in. *)
Theorem register_never_signs_in {T} (email password : string)
    (net : Api.FetchOutcome T) (w : Api.Browser) :
  Api.localStorage (snd (Account.register email password net w)) = Api.localStorage w
  /\ fst (Api.getToken (snd (Account.register email password net w)))
     = fst (Api.getToken w)
  /\ (exists req,
        Api.requests (snd (Account.register email password net w)) = Api.requests w ++ [req]
        /\ Api.path req = "/api/v1/auth/register"
        /\ Api.headers req !! "Authorization" = None)
  /\ (forall a, fst (Account.register email password net w) = Api.Resolved a ->
        net = Api.HttpOk (Api.Resolved a)).
Proof.
  rewrite register_result. cbn [fst snd Api.localStorage Api.requests].
  split; [reflexivity|]. split.
  { unfold Api.getToken. cbn. now destruct (Api.localStorage w). }
  split.
  - eexists. split; [reflexivity|]. split; reflexivity.
  - intros a H. destruct net as [e|status b|[data|e]]; try discriminate. congruence.
Qed.

(** The login page goes to the chat exactly when [login] succeeded, and
    then the token is stored; otherwise it shows the message of the error
    and the stored token is as before.  It is never left loading. *)
Theorem login_page_submits (net : Api.FetchOutcome Api.TokenResponse)
    (s : Account.Form) (w : Api.Browser) :
  let '(s', w', route) := Account.login_onSubmit net s w in
  Account.loading s' = false
  /\ Account.email s' = Account.email s
  /\ (route = Some "/chat" /\ Account.error s' = None
      /\ (exists tok, net = Api.HttpOk (Api.Resolved tok)
            /\ fst (Api.getToken w') = Api.Resolved (Some (Api.access_token tok)))
      \/ route = None
         /\ (exists e, fst (Api.login (Account.email s) (Account.password s) net w)
                       = Api.Rejected e
                       /\ Account.error s' = Some (default "Login failed" (Api.message e)))
         /\ Api.localStorage w' = Api.localStorage w).
Proof.
  unfold Account.login_onSubmit.
  pose proof (login_storage (Account.email s) (Account.password s) net w) as (_ & Hr).
  pose proof (login_token (Account.email s) (Account.password s) net w) as Hk.
  destruct (Api.login (Account.email s) (Account.password s) net w) as [[tok|e] w1];
    cbn [fst snd] in *.
  - split; [reflexivity|]. split; [reflexivity|]. left.
    split; [reflexivity|]. split; [reflexivity|].
    destruct (Hk tok eq_refl) as [Hn Hg]. eauto.
  - split; [reflexivity|]. split; [reflexivity|]. right.
    split; [reflexivity|]. split; [eauto|]. now apply (Hr e).
Qed.

(** The register page signs in only after the account was created: when
    [register] fails, [login] is not called and nothing is stored; the page
    goes to the chat only when both succeeded, and then the token is
    stored. *)
Theorem register_page_submits {T} (register_net : Api.FetchOutcome T)
    (login_net : Api.FetchOutcome Api.TokenResponse)
    (s : Account.Form) (w : Api.Browser) :
  let '(s', w', route) := Account.register_onSubmit register_net login_net s w in
  Account.loading s' = false
  /\ (forall e,
        fst (Account.register (Account.email s) (Account.password s) register_net w)
        = Api.Rejected e ->
        route = None
        /\ Account.error s' = Some (default "Registration failed" (Api.message e))
        /\ Api.localStorage w' = Api.localStorage w
        /\ Api.requests w'
           = Api.requests w ++ [register_request (Account.email s) (Account.password s)])
  /\ (route = Some "/chat" ->
      Account.error s' = None
      /\ (exists a tok,
            register_net = Api.HttpOk (Api.Resolved a)
            /\ login_net = Api.HttpOk (Api.Resolved tok)
            /\ fst (Api.getToken w') = Api.Resolved (Some (Api.access_token tok)))
      /\ Api.requests w'
         = Api.requests w ++ [register_request (Account.email s) (Account.password s);
                              login_request (Account.email s) (Account.password s)]).
Proof.
  unfold Account.register_onSubmit.
  rewrite (register_result (Account.email s) (Account.password s) register_net w).
  set (w1 := {| Api.localStorage := Api.localStorage w;
                Api.requests := Api.requests w
                                ++ [register_request (Account.email s) (Account.password s)];
                Api.alerts := Api.alerts w |}).
  destruct register_net as [e0|status b|[a|e0]]; cbn [fst snd];
    try (split; [reflexivity|]; split;
         [intros e [= <-]; repeat split; reflexivity | discriminate]).
  pose proof (login_token (Account.email s) (Account.password s) login_net w1) as Hk.
  pose proof (login_requests (Account.email s) (Account.password s) login_net w1) as [Hq _].
  destruct (Api.login (Account.email s) (Account.password s) login_net w1)
    as [[tok|e] w2]; cbn [fst snd] in *.
  - split; [reflexivity|]. split; [discriminate|]. intros _.
    split; [reflexivity|]. destruct (Hk tok eq_refl) as [Hn Hg]. split; [eauto|].
    rewrite Hq. unfold w1. cbn. now rewrite <- app_assoc.
  - split; [reflexivity|]. split; [discriminate|]. discriminate.
Qed.

(** After [logout] nothing is stored under the token's key, the other keys
    are as before, the login page is next, and every authenticated call
    throws before it reaches the network. *)
Theorem logout_signs_out {T} (w : Api.Browser) (store : gmap string string)
    (p : string) (o : Api.RequestInit) (net : Api.FetchOutcome T) :
  Api.localStorage w = Some store ->
  let w' := fst (Account.logout w) in
  snd (Account.logout w) = Some "/login"
  /\ Api.localStorage w' = Some (delete "medibot_token" store)
  /\ fst (Api.getToken w') = Api.Resolved None
  /\ Api.requests w' = Api.requests w
  /\ Api.apiFetch p o true net w'
     = (Api.Rejected (Api.Error "Not authenticated"), w').
Proof.
  intros E. unfold Account.logout, Api.clearToken. rewrite E. cbn.
  split; [reflexivity|]. split; [reflexivity|].
  split; [unfold Api.getToken, Api.token_key; cbn; now rewrite lookup_delete_eq|].
  split; [reflexivity|].
  apply apiFetch_no_token. intros st [= <-]. apply lookup_delete_eq.
Qed.

(** Opening the chat page without a stored token leads to the login page
    without a request; in general the page is redirected exactly when the
    conversations could not be listed, and its messages are never touched. *)
Theorem mount_redirects_without_token
    (net : Api.FetchOutcome (list Api.ConversationSummary))
    (s : Chat.ChatState) (w : Api.Browser) :
  (no_token w -> Panel.mount net s w = (s, w, Some "/login"))
  /\ (forall l, fst (Api.listConversations net w) = Api.Resolved l ->
        snd (Panel.mount net s w) = None
        /\ Chat.conversations (fst (fst (Panel.mount net s w))) = l)
  /\ (forall e, fst (Api.listConversations net w) = Api.Rejected e ->
        snd (Panel.mount net s w) = Some "/login"
        /\ fst (fst (Panel.mount net s w)) = s)
  /\ Chat.messages (fst (fst (Panel.mount net s w))) = Chat.messages s.
Proof.
  unfold Panel.mount. split; [|split; [|split]].
  - intros H. unfold Api.listConversations. now rewrite apiFetch_no_token.
  - intros l H. destruct (Api.listConversations net w) as [[l'|e] w1]; cbn in *;
      [split; congruence | discriminate].
  - intros e H. destruct (Api.listConversations net w) as [[l'|e'] w1]; cbn in *;
      [discriminate | split; reflexivity].
  - now destruct (Api.listConversations net w) as [[l'|e'] w1].
Qed.

(** ** The chat page *)

Lemma plain_history_is_low (ms : list Chat.UIMessage) :
  Forall plain ms ->
  Chat.conversationRisk ms = "low" /\ Chat.hadPreviousEmergency ms = false.
Proof.
  intros H. split.
  - unfold Chat.conversationRisk, Chat.find_last.
    destruct (find Chat.is_assistant (rev ms)) as [m|] eqn:F; [|reflexivity].
    apply find_some in F as [Hin _]. apply in_rev, list_elem_of_In in Hin.
    rewrite Forall_forall in H. destruct (H m Hin) as (_ & He & Hr & _).
    now rewrite He, Hr.
  - unfold Chat.hadPreviousEmergency.
    induction H as [|m l (_ & He & _) _ IH]; [reflexivity|].
    cbn. rewrite He, IH. cbn. now rewrite andb_false_r.
Qed.

Lemma plain_view (selected : option Z) (escalated : list Z) (m : Chat.UIMessage) :
  plain m ->
  Chat.emergency_banner (Chat.render_message selected escalated m) = None
  /\ Chat.risk_badge (Chat.render_message selected escalated m) = None
  /\ Chat.model_badge (Chat.render_message selected escalated m) = None
  /\ Chat.confidence_indicator (Chat.render_message selected escalated m) = None
  /\ Chat.low_confidence_warning (Chat.render_message selected escalated m) = false
  /\ Chat.sources (Chat.render_message selected escalated m) = [].
Proof.
  intros (Hc & He & Hr & Hs & Hm). unfold Chat.render_message. cbn.
  rewrite Hc, He, Hr, Hs, Hm. cbn.
  destruct (Chat.is_assistant m); cbn; repeat split; reflexivity.
Qed.

Lemma mapped_plain (stored : list Api.StoredMessage) :
  Forall plain (map Chat.mapped stored).
Proof.
  apply Forall_forall. intros m Hm. apply list_elem_of_fmap in Hm as (x & -> & _).
  repeat split.
Qed.

Lemma loadConversation_messages (c : Z) (net : Api.FetchOutcome Api.ConversationDetail)
    (s : Chat.ChatState) (w : Api.Browser) :
  exists stored,
    Chat.messages (fst (Chat.loadConversation c net s w)) = map Chat.mapped stored
    /\ (forall conv, fst (Api.getConversation c net w) = Api.Resolved conv ->
          stored = default [] (Api.cd_messages conv))
    /\ (forall e, fst (Api.getConversation c net w) = Api.Rejected e -> stored = []).
Proof.
  unfold Chat.loadConversation.
  destruct (Api.getConversation c net w) as [[conv|e] w1]; cbn.
  - exists (default [] (Api.cd_messages conv)). split; [reflexivity|].
    split; [intros ? [= <-]; reflexivity | discriminate].
  - exists []. split; [reflexivity|]. split; [discriminate | reflexivity].
Qed.

(** A conversation that is loaded again comes back without its safety
    data: whatever the server stored, the risk shown is low, no emergency
    is remembered and no bubble shows a banner, a badge, a warning or
    sources.  The messages keep their order and number, and a failed load
    empties the chat. *)
Theorem reloaded_conversation_has_no_safety_data
    (U : string -> string -> string)
    (c : Z) (net : Api.FetchOutcome Api.ConversationDetail)
    (s : Chat.ChatState) (w : Api.Browser) :
  let s' := fst (Chat.loadConversation c net s w) in
  Chat.conversationRisk (Chat.messages s') = "low"
  /\ Chat.hadPreviousEmergency (Chat.messages s') = false
  /\ Chat.previous_emergency_badge (Chat.render_header U s') = false
  /\ Forall (fun v => Chat.emergency_banner v = None /\ Chat.risk_badge v = None
                      /\ Chat.low_confidence_warning v = false /\ Chat.sources v = [])
            (Chat.render_messages s')
  /\ (forall conv, fst (Api.getConversation c net w) = Api.Resolved conv ->
        map Chat.content (Chat.messages s')
        = map Api.sm_content (default [] (Api.cd_messages conv))
        /\ map Chat.chat_message_id (Chat.messages s')
           = map (fun x => Some (Api.sm_id x)) (default [] (Api.cd_messages conv)))
  /\ (forall e, fst (Api.getConversation c net w) = Api.Rejected e ->
        Chat.messages s' = []).
Proof.
  intros s'.
  destruct (loadConversation_messages c net s w) as (stored & Hm & Hok & Hko).
  fold s' in Hm.
  destruct (plain_history_is_low (Chat.messages s')) as [Hr Hh].
  { rewrite Hm. apply mapped_plain. }
  split; [exact Hr|]. split; [exact Hh|]. split; [|split; [|split]].
  - cbn [Chat.render_header Chat.previous_emergency_badge]. rewrite Hh.
    now rewrite andb_false_r.
  - unfold Chat.render_messages. rewrite Hm. apply Forall_forall. intros v Hv.
    apply list_elem_of_fmap in Hv as (m & -> & Hin).
    pose proof (mapped_plain stored) as Hp. rewrite Forall_forall in Hp.
    destruct (plain_view (Chat.selectedChatMessageId s') (Chat.escalatedIds s') m (Hp m Hin))
      as (H1 & H2 & _ & _ & H5 & H6).
    auto.
  - intros conv H. rewrite Hm, (Hok conv H), <- !list_fmap_compose. split; reflexivity.
  - intros e H. now rewrite Hm, (Hko e H).
Qed.

(** What the client writes into the chat itself (the user's message, the
    placeholder, the failure notice) carries no safety data, and neither
    the placeholder nor the failure notice offers an explanation. *)
Theorem client_made_messages_are_plain
    (selected : option Z) (escalated : list Z) (uuid text : string) :
  Forall (fun m =>
            Chat.emergency_banner (Chat.render_message selected escalated m) = None
            /\ Chat.risk_badge (Chat.render_message selected escalated m) = None
            /\ Chat.confidence_indicator (Chat.render_message selected escalated m) = None
            /\ Chat.low_confidence_warning (Chat.render_message selected escalated m) = false
            /\ Chat.sources (Chat.render_message selected escalated m) = []
            /\ Chat.explain_button (Chat.render_message selected escalated m) = false)
         [Chat.userMsg uuid text; Chat.thinking uuid; Chat.failureMsg uuid]
  /\ Chat.conversationRisk [Chat.userMsg uuid text; Chat.thinking uuid] = "low"
  /\ Chat.conversationRisk [Chat.userMsg uuid text; Chat.failureMsg uuid] = "low".
Proof.
  split; [|split; reflexivity].
  repeat constructor.
Qed.

Lemma find_last_elem (p : Chat.UIMessage -> bool) (ms : list Chat.UIMessage)
    (m : Chat.UIMessage) :
  Chat.find_last p ms = Some m -> m ∈ ms /\ p m = true.
Proof.
  unfold Chat.find_last. intros F. apply find_some in F as [Hin Hp].
  split; [now apply list_elem_of_In, in_rev | exact Hp].
Qed.

(** The risk of the header is one of three words; it is "emergency" only
    if an emergency is remembered, in which case the "previous emergency"
    badge is not drawn; and with no emergency remembered it is never drawn. *)
Theorem header_risk_and_badge (U : string -> string -> string) (s : Chat.ChatState) :
  (Chat.conversationRisk (Chat.messages s) = "low"
   \/ Chat.conversationRisk (Chat.messages s) = "high"
   \/ Chat.conversationRisk (Chat.messages s) = "emergency")
  /\ (Chat.conversationRisk (Chat.messages s) = "emergency" ->
      Chat.hadPreviousEmergency (Chat.messages s) = true
      /\ Chat.previous_emergency_badge (Chat.render_header U s) = false)
  /\ (Chat.hadPreviousEmergency (Chat.messages s) = false ->
      Chat.previous_emergency_badge (Chat.render_header U s) = false
      /\ Chat.conversationRisk (Chat.messages s) <> "emergency").
Proof.
  assert (He : Chat.conversationRisk (Chat.messages s) = "emergency" ->
               Chat.hadPreviousEmergency (Chat.messages s) = true).
  { unfold Chat.conversationRisk.
    destruct (Chat.find_last Chat.is_assistant (Chat.messages s)) as [m|] eqn:F;
      [|discriminate].
    apply find_last_elem in F as [Hin Ha].
    destruct (bool_decide (Chat.emergency_detected m = Some true)) eqn:B.
    - intros _. apply hadPreviousEmergency_spec. exists m.
      split; [exact Hin|]. split; [|now apply bool_decide_eq_true in B].
      unfold Chat.is_assistant in Ha. now destruct (Chat.role m).
    - destruct (bool_decide (Chat.risk_level m = Some "high")); discriminate. }
  split; [|split].
  - unfold Chat.conversationRisk.
    destruct (Chat.find_last Chat.is_assistant (Chat.messages s)) as [m|]; [|auto].
    destruct (bool_decide (Chat.emergency_detected m = Some true)); [auto|].
    destruct (bool_decide (Chat.risk_level m = Some "high")); auto.
  - intros H. split; [now apply He|].
    cbn [Chat.render_header Chat.previous_emergency_badge]. now rewrite H.
  - intros H. split.
    + cbn [Chat.render_header Chat.previous_emergency_badge]. rewrite H.
      now rewrite andb_false_r.
    + intros Hc. apply He in Hc. congruence.
Qed.

Lemma title_without_active (s : Chat.ChatState) :
  Chat.activeConversationId s = None -> Chat.title s = "New conversation".
Proof.
  intros E. unfold Chat.title. rewrite E.
  induction (Chat.conversations s) as [|c l IH]; [reflexivity|]. exact IH.
Qed.

(** "New Chat" empties the chat and puts the header back to a new
    conversation at low risk, whatever was shown before; it leaves
    [sending] and the text being typed alone. *)
Theorem newChat_resets_the_header (U : string -> string -> string) (s : Chat.ChatState) :
  Chat.messages (Chat.newChat s) = []
  /\ Chat.render_header U (Chat.newChat s)
     = {| Chat.header_title := "New conversation";
          Chat.risk_label := "low risk";
          Chat.previous_emergency_badge := false |}
  /\ Chat.render_messages (Chat.newChat s) = []
  /\ Chat.sending (Chat.newChat s) = Chat.sending s
  /\ Chat.input (Chat.newChat s) = Chat.input s.
Proof.
  split; [reflexivity|]. split; [|repeat split].
  unfold Chat.render_header. rewrite title_without_active by reflexivity. reflexivity.
Qed.

(** After a successful send the conversation of the answer becomes the
    active one and the list of conversations is asked for once; a failure
    of that second request changes nothing in the chat.  After a failed
    send nothing more is requested and the active conversation stays. *)
Theorem onSend_follow_up
    (uuid1 thinkingId uuid3 : string)
    (chat_net : Api.FetchOutcome Api.ChatResponse)
    (list_net list_net' : Api.FetchOutcome (list Api.ConversationSummary))
    (s : Chat.ChatState) (w : Api.Browser) :
  Js.trim (Chat.input s) <> "" ->
  Chat.sending s = false ->
  let sent := Api.sendChat (Js.trim (Chat.input s)) (Chat.activeConversationId s) chat_net w in
  let after := Chat.onSend uuid1 thinkingId uuid3 chat_net list_net s w in
  let after' := Chat.onSend uuid1 thinkingId uuid3 chat_net list_net' s w in
  Chat.input (fst after) = ""
  /\ Chat.messages (fst after') = Chat.messages (fst after)
  /\ (forall res, fst sent = Api.Resolved res ->
        Chat.activeConversationId (fst after) = Some (Api.conversation_id res)
        /\ snd after = snd (Api.listConversations list_net (snd sent))
        /\ (forall l, fst (Api.listConversations list_net (snd sent)) = Api.Resolved l ->
              Chat.conversations (fst after) = l)
        /\ (forall e, fst (Api.listConversations list_net (snd sent)) = Api.Rejected e ->
              Chat.conversations (fst after) = Chat.conversations s))
  /\ (forall e, fst sent = Api.Rejected e ->
        snd after = snd sent
        /\ Chat.activeConversationId (fst after) = Chat.activeConversationId s
        /\ Chat.conversations (fst after) = Chat.conversations s).
Proof.
  intros Ht Hs sent after after'.
  unfold after, after', Chat.onSend, Chat.onSend_start. rewrite Hs.
  destruct (String.eqb (Js.trim (Chat.input s)) "") eqn:E;
    [apply String.eqb_eq in E; contradiction|].
  cbn [orb]. fold sent. destruct sent as [r w1]. cbn [fst snd].
  unfold Chat.onSend_settle, Chat.refreshConversations.
  destruct r as [res|e].
  - destruct (Api.listConversations list_net w1) as [lr w2].
    destruct (Api.listConversations list_net' w1) as [lr' w2'].
    cbn [fst snd].
    split; [now destruct lr|]. split; [now destruct lr, lr'|].
    split; [|discriminate].
    intros res' [= <-]. split; [now destruct lr|]. split; [reflexivity|].
    split; [intros l ->; reflexivity | intros e' ->; reflexivity].
  - cbn [fst snd]. split; [reflexivity|]. split; [reflexivity|].
    split; [discriminate|]. intros e' _. repeat split.
Qed.



(** The dev-mode switch flips [showDev] and nothing else but [ragData]:
    switching off, or on with nothing selected, asks nothing of the
    network; a failed request is swallowed; two switches in a row leave
    [showDev] as it was. *)
Theorem toggleDevMode_flips
    (rag_net rag_net' : Api.FetchOutcome Api.ExplainRagResponse)
    (s : Chat.ChatState) (w : Api.Browser) :
  let s' := fst (Panel.toggleDevMode rag_net s w) in
  let w' := snd (Panel.toggleDevMode rag_net s w) in
  Chat.showDev s' = negb (Chat.showDev s)
  /\ Chat.showDev (fst (Panel.toggleDevMode rag_net' s' w')) = Chat.showDev s
  /\ Chat.explainError s' = Chat.explainError s
  /\ Chat.explainData s' = Chat.explainData s
  /\ Chat.messages s' = Chat.messages s
  /\ (Chat.showDev s = true \/ Js.truthy_int (Chat.selectedChatMessageId s) = false ->
      Panel.toggleDevMode rag_net s w = (Panel.setShowDev (negb (Chat.showDev s)) s, w))
  /\ (forall i e, Chat.selectedChatMessageId s = Some i ->
        fst (Api.explainRag i rag_net w) = Api.Rejected e ->
        s' = Panel.setShowDev (negb (Chat.showDev s)) s).
Proof.
  intros s' w'.
  assert (H : forall n x y,
             Chat.showDev (fst (Panel.toggleDevMode n x y)) = negb (Chat.showDev x)
             /\ Chat.explainError (fst (Panel.toggleDevMode n x y)) = Chat.explainError x
             /\ Chat.explainData (fst (Panel.toggleDevMode n x y)) = Chat.explainData x
             /\ Chat.messages (fst (Panel.toggleDevMode n x y)) = Chat.messages x).
  { intros n x y. unfold Panel.toggleDevMode.
    destruct (Chat.selectedChatMessageId x) as [i|]; [|repeat split].
    destruct (negb (Chat.showDev x) && Js.truthy_int (Some i)); [|repeat split].
    destruct (Api.explainRag i n y) as [[rag|e] y1]; repeat split. }
  destruct (H rag_net s w) as (H1 & H2 & H3 & H4).
  split; [exact H1|]. split.
  { destruct (H rag_net' s' w') as (-> & _). unfold s'. rewrite H1. apply negb_involutive. }
  split; [exact H2|]. split; [exact H3|]. split; [exact H4|]. split.
  - unfold Panel.toggleDevMode. intros [Hd|Hn].
    + rewrite Hd. cbn. now destruct (Chat.selectedChatMessageId s).
    + destruct (Chat.selectedChatMessageId s) as [i|]; [|reflexivity].
      rewrite Hn. now rewrite andb_false_r.
  - intros i e Hi He. unfold s', Panel.toggleDevMode. rewrite Hi.
    destruct (negb (Chat.showDev s) && Js.truthy_int (Some i)); [|reflexivity].
    destruct (Api.explainRag i rag_net w) as [[rag|e'] w1]; [discriminate | reflexivity].
Qed.

Lemma escalate_click_ids (m : Chat.UIMessage) (net : Api.FetchOutcome string)
    (s : Chat.ChatState) (w : Api.Browser) :
  Chat.escalatedIds (fst (Panel.escalate_click m net s w)) = Chat.escalatedIds s
  \/ exists i, Chat.chat_message_id m = Some i /\ i <> 0%Z
               /\ (i ∉ Chat.escalatedIds s)
               /\ Chat.escalatedIds (fst (Panel.escalate_click m net s w))
                  = Chat.escalatedIds s ++ [i].
Proof.
  unfold Panel.escalate_click.
  destruct (Chat.chat_message_id m) as [i|]; [|now left].
  destruct (Js.truthy_int (Some i)) eqn:Hi; [|now left].
  destruct (Api.escalateToDoctor i net w) as [[st|e] w1]; [|now left].
  cbn. destruct (bool_decide (i ∈ Chat.escalatedIds s)) eqn:B; [now left|].
  right. exists i. split; [reflexivity|]. split.
  - cbn in Hi. intros ->. discriminate.
  - split; [now apply bool_decide_eq_false in B | reflexivity].
Qed.

(** Escalating keeps the list of escalated messages free of repetitions
    and never removes an entry; a failed call leaves the page as it was;
    after a call that succeeded, the banner of the message shows "Doctor
    notified" on a disabled button. *)
Theorem escalate_click_marks_once (m : Chat.UIMessage) (net : Api.FetchOutcome string)
    (s : Chat.ChatState) (w : Api.Browser) (selected : option Z) :
  NoDup (Chat.escalatedIds s) ->
  let s' := fst (Panel.escalate_click m net s w) in
  NoDup (Chat.escalatedIds s')
  /\ (forall i, i ∈ Chat.escalatedIds s -> i ∈ Chat.escalatedIds s')
  /\ Chat.messages s' = Chat.messages s
  /\ (forall i e, Chat.chat_message_id m = Some i ->
        fst (Api.escalateToDoctor i net w) = Api.Rejected e -> s' = s)
  /\ (forall i st, Chat.chat_message_id m = Some i -> i <> 0%Z ->
        fst (Api.escalateToDoctor i net w) = Api.Resolved st ->
        i ∈ Chat.escalatedIds s'
        /\ (Chat.emergency_detected m = Some true ->
            Chat.emergency_banner (Chat.render_message selected (Chat.escalatedIds s') m)
            = Some {| Chat.escalate_disabled := true;
                      Chat.escalate_label := "Doctor notified";
                      Chat.clinician_notified := true |})).
Proof.
  intros Hn s'. subst s'. split; [|split; [|split; [|split]]].
  - destruct (escalate_click_ids m net s w) as [->|(i & _ & _ & Hi & ->)]; [exact Hn|].
    apply NoDup_app. split; [exact Hn|]. split; [|apply NoDup_singleton].
    intros x Hx Hx'. apply list_elem_of_singleton in Hx'. now subst.
  - intros i Hi.
    destruct (escalate_click_ids m net s w) as [->|(j & _ & _ & _ & ->)]; [exact Hi|].
    apply elem_of_app. now left.
  - unfold Panel.escalate_click.
    destruct (Chat.chat_message_id m) as [i|]; [|reflexivity].
    destruct (Js.truthy_int (Some i)); [|reflexivity].
    now destruct (Api.escalateToDoctor i net w) as [[st|e] w1].
  - intros i e Hi He. unfold Panel.escalate_click. rewrite Hi.
    destruct (Js.truthy_int (Some i)); [|reflexivity].
    destruct (Api.escalateToDoctor i net w) as [[st|e'] w1]; [discriminate | reflexivity].
  - intros i st Hi Hz Hr.
    assert (Hin : i ∈ Chat.escalatedIds (fst (Panel.escalate_click m net s w))).
    { unfold Panel.escalate_click. rewrite Hi.
      assert (Ht : Js.truthy_int (Some i) = true).
      { cbn. destruct (Z.eqb_spec i 0); [contradiction | reflexivity]. }
      rewrite Ht.
      destruct (Api.escalateToDoctor i net w) as [[st'|e'] w1]; [|discriminate].
      cbn. destruct (bool_decide (i ∈ Chat.escalatedIds s)) eqn:B.
      - now apply bool_decide_eq_true in B.
      - apply elem_of_app. right. now apply list_elem_of_singleton. }
    split; [exact Hin|]. intros He.
    unfold Chat.render_message. cbn [Chat.emergency_banner]. rewrite He, Hi.
    rewrite bool_decide_eq_true_2 by reflexivity. cbn [default].
    rewrite bool_decide_eq_true_2 by exact Hin.
    cbn. destruct (Z.eqb_spec i 0); [contradiction | reflexivity].
Qed.

Lemma load_frame (net : Api.FetchOutcome (list Api.Escalation))
    (s : Escalations.PageState) (w : Api.Browser) :
  Escalations.loading (fst (Escalations.load net s w)) = false
  /\ Escalations.resolvingId (fst (Escalations.load net s w)) = Escalations.resolvingId s
  /\ Api.alerts (snd (Escalations.load net s w)) = Api.alerts w
  /\ (forall data, fst (Api.listEscalations net w) = Api.Resolved data ->
        Escalations.items (fst (Escalations.load net s w)) = data
        /\ Escalations.error (fst (Escalations.load net s w)) = Escalations.error s)
  /\ (forall e, fst (Api.listEscalations net w) = Api.Rejected e ->
        Escalations.items (fst (Escalations.load net s w)) = Escalations.items s
        /\ Escalations.error (fst (Escalations.load net s w))
           = Some (default "Failed to load escalations" (Api.message e))).
Proof.
  unfold Escalations.load.
  pose proof (apiFetch_keeps_alerts "/api/v1/escalations" (Api.init "GET" None) true net w)
    as Ha.
  fold (Api.listEscalations net) in Ha.
  destruct (Api.listEscalations net w) as [[data|e] w1]; cbn [fst snd] in *.
  - split; [reflexivity|]. split; [reflexivity|]. split; [exact Ha|].
    split; [intros ? [= <-]; split; reflexivity | discriminate].
  - split; [reflexivity|]. split; [reflexivity|]. split; [exact Ha|].
    split; [discriminate | intros ? [= <-]; split; reflexivity].
Qed.

(** Loading the escalations always ends the loading state.  A list that
    arrives replaces the items but does not clear an earlier error, so the
    page keeps showing that error; a failure keeps the items and records
    the message of the error. *)
Theorem load_ends_loading (net : Api.FetchOutcome (list Api.Escalation))
    (s : Escalations.PageState) (w : Api.Browser) :
  let s' := fst (Escalations.load net s w) in
  Escalations.loading s' = false
  /\ (forall data, fst (Api.listEscalations net w) = Api.Resolved data ->
        Escalations.items s' = data
        /\ Escalations.error s' = Escalations.error s
        /\ (Js.truthy_string (Escalations.error s) = true ->
            Escalations.render s' = Escalations.Failed (default "" (Escalations.error s)))
        /\ (Js.truthy_string (Escalations.error s) = false ->
            Escalations.render s'
            = Escalations.Listing (map (Escalations.render_card (Escalations.resolvingId s))
                                       data)))
  /\ (forall e, fst (Api.listEscalations net w) = Api.Rejected e ->
        Escalations.items s' = Escalations.items s
        /\ Escalations.error s'
           = Some (default "Failed to load escalations" (Api.message e))).
Proof.
  intros s'. subst s'. destruct (load_frame net s w) as (Hl & Hr & _ & Hok & Hko).
  split; [exact Hl|]. split; [|exact Hko].
  intros data H. destruct (Hok data H) as [Hi He].
  split; [exact Hi|]. split; [exact He|].
  unfold Escalations.render. rewrite Hl, He, Hi, Hr.
  split; intros ->; reflexivity.
Qed.

(** [onResolve] always gives the button back ([resolvingId] is cleared).
    When the call fails the list is neither reloaded nor changed and one
    alert is raised; when it succeeds no alert is raised and the list is
    asked for again, its answer replacing the items. *)
Theorem onResolve_outcomes (i : Z)
    (resolve_net : Api.FetchOutcome Api.ResolveResponse)
    (list_net : Api.FetchOutcome (list Api.Escalation))
    (s : Escalations.PageState) (w : Api.Browser) :
  let s' := fst (Escalations.onResolve i resolve_net list_net s w) in
  let w' := snd (Escalations.onResolve i resolve_net list_net s w) in
  let w1 := snd (Api.resolveEscalation i resolve_net w) in
  Escalations.resolvingId s' = None
  /\ (forall e, fst (Api.resolveEscalation i resolve_net w) = Api.Rejected e ->
        Escalations.items s' = Escalations.items s
        /\ Escalations.error s' = Escalations.error s
        /\ Api.requests w' = Api.requests w1
        /\ length (Api.alerts w') = S (length (Api.alerts w)))
  /\ (forall r, fst (Api.resolveEscalation i resolve_net w) = Api.Resolved r ->
        Api.alerts w' = Api.alerts w
        /\ Api.requests w' = Api.requests (snd (Api.listEscalations list_net w1))
        /\ (forall data, fst (Api.listEscalations list_net w1) = Api.Resolved data ->
              Escalations.items s' = data)).
Proof.
  intros s' w' w1. unfold s', w', w1, Escalations.onResolve.
  pose proof (apiFetch_keeps_alerts
                ("/api/v1/escalations/" +:+ Js.string_of_int i +:+ "/resolve")
                (Api.init "PATCH" None) true resolve_net w) as Ha.
  fold (Api.resolveEscalation i resolve_net) in Ha.
  destruct (Api.resolveEscalation i resolve_net w) as [[r|e] w2]; cbn [fst snd] in *.
  - destruct (load_frame list_net (Escalations.setResolvingId (Some i) s) w2)
      as (_ & _ & Hal & Hok & _).
    unfold Escalations.load in *.
    destruct (Api.listEscalations list_net w2) as [[data|e] w3]; cbn [fst snd] in *.
    + split; [reflexivity|]. split; [discriminate|]. intros ? _.
      split; [congruence|]. split; [reflexivity|]. intros ? [= <-]. reflexivity.
    + split; [reflexivity|]. split; [discriminate|]. intros ? _.
      split; [congruence|]. split; [reflexivity|]. discriminate.
  - split; [reflexivity|]. split; [|discriminate]. intros ? _.
    split; [reflexivity|]. split; [reflexivity|]. split; [reflexivity|].
    cbn. rewrite length_app, Ha. cbn. lia.
Qed.

(** A conversation opened while an answer is awaited.  If its messages
    arrive before the answer, the answer is added below them.  If the
    answer arrives first, the messages that arrive afterwards replace
    everything on screen: the answer is no longer shown.  Either way the
    conversation of the answer ends up as the active one, over the messages
    of the conversation that was opened, and [sending] stays raised until
    the turn ends. *)
Theorem answer_races_opened_conversation
    (c : Z) (net : Api.FetchOutcome Api.ConversationDetail)
    (conv : Api.ConversationDetail) (thinkingId uuid3 : string)
    (res : Api.ChatResponse)
    (list_net : Api.FetchOutcome (list Api.ConversationSummary))
    (x : Session.State) :
  Session.in_flight x = [(thinkingId, Session.AwaitingChat (Api.Resolved res))] ->
  Session.loads x = [] ->
  fst (Api.getConversation c net (Session.browser x)) = Api.Resolved conv ->
  let opened := map Chat.mapped (default [] (Api.cd_messages conv)) in
  let clicked := Session.step (Session.ClickConversation c net) x in
  let load_first :=
    Session.run [Session.LoadSettles 0; Session.ChatSettles thinkingId uuid3 list_net]
                clicked in
  let answer_first :=
    Session.run [Session.ChatSettles thinkingId uuid3 list_net; Session.LoadSettles 0]
                clicked in
  (Chat.activeConversationId (Session.page clicked) = Some c
   /\ Chat.messages (Session.page clicked) = Chat.messages (Session.page x))
  /\ Chat.messages (Session.page load_first)
     = filter (fun m => Chat.id m <> thinkingId) opened ++ [Chat.assistantMsg uuid3 res]
  /\ Chat.messages (Session.page answer_first) = opened
  /\ Chat.activeConversationId (Session.page load_first) = Some (Api.conversation_id res)
  /\ Chat.activeConversationId (Session.page answer_first) = Some (Api.conversation_id res)
  /\ Chat.sending (Session.page load_first) = Chat.sending (Session.page x)
  /\ Chat.sending (Session.page answer_first) = Chat.sending (Session.page x)
  /\ Session.loads load_first = []
  /\ Session.loads answer_first = [].
Proof.
  intros Hf Hl H opened clicked load_first answer_first.
  subst load_first answer_first clicked opened.
  unfold Session.run. cbn [fold_left Session.step].
  destruct (Api.getConversation c net (Session.browser x)) as [r w1].
  cbn [fst] in H. subst r.
  rewrite Hl, Hf.
  cbn [app lookup list_lookup Session.loads Session.in_flight Session.page
       Session.browser Session.take].
  rewrite String.eqb_refl.
  destruct (Api.listConversations list_net w1) as [lr w2].
  cbn. repeat split; reflexivity.
Qed.

(** ** The statements above at concrete inputs *)

Lemma token_round_trip_witness :
  fst (Api.getToken (snd (Api.setToken "tok-1" Examples.signed_out)))
  = Api.Resolved (Some "tok-1")
  /\ fst (Api.getToken
            (snd (Api.clearToken
                    (snd (Api.setToken "tok-2"
                            (snd (Api.setToken "tok-1" Examples.signed_out)))))))
     = Api.Resolved None.
Proof.
  destruct (token_round_trip "tok-1" "tok-2" Examples.signed_out ∅ eq_refl)
    as (H1 & _ & H3 & _).
  split; [exact H1 | exact H3].
Defined.

Lemma apiFetch_resolves_only_when_ok_witness :
  Api.HttpOk (Api.Resolved Samples.empty_rag) = Api.HttpOk (Api.Resolved Samples.empty_rag)
  /\ exists store t req,
       Api.localStorage Examples.signed_in = Some store
       /\ store !! "medibot_token" = Some t /\ t <> ""
       /\ Api.requests
            (snd (Api.apiFetch "/api/v1/chat/43/explain-rag" (Api.init "GET" None) true
                    (Api.HttpOk (Api.Resolved Samples.empty_rag)) Examples.signed_in))
          = Api.requests Examples.signed_in ++ [req]
       /\ Api.headers req !! "Authorization" = Some ("Bearer " +:+ t).
Proof.
  apply (apiFetch_resolves_only_when_ok "/api/v1/chat/43/explain-rag"
           (Api.init "GET" None) (Api.HttpOk (Api.Resolved Samples.empty_rag))
           Examples.signed_in Samples.empty_rag).
  reflexivity.
Defined.

Lemma only_sendChat_sends_json_witness :
  exists req,
    Api.requests (snd (Api.listEscalations (Api.HttpOk (Api.Resolved []))
                         Examples.signed_in))
    = Api.requests Examples.signed_in ++ [req]
    /\ Api.method req = Some "GET"
    /\ Api.body req = None
    /\ Api.headers req !! "Content-Type" = None.
Proof.
  destruct (only_sendChat_sends_json Examples.signed_in {[ "medibot_token" := "tok-123" ]}
              "tok-123" "high fever" (Some 5%Z) 9%Z
              (Api.NetworkError (Api.Error "Failed to fetch"))
              (Api.NetworkError (Api.Error "Failed to fetch"))
              (Api.NetworkError (Api.Error "Failed to fetch"))
              (Api.NetworkError (Api.Error "Failed to fetch"))
              (Api.NetworkError (Api.Error "Failed to fetch"))
              (Api.NetworkError (Api.Error "Failed to fetch"))
              (Api.HttpOk (Api.Resolved []))
              (Api.NetworkError (Api.Error "Failed to fetch"))
              eq_refl (lookup_singleton_eq _ _) ltac:(discriminate))
    as (_ & _ & _ & _ & _ & _ & H & _).
  exact H.
Defined.

Lemma logout_signs_out_witness :
  snd (Account.logout Examples.signed_in) = Some "/login"
  /\ Api.listEscalations (Api.HttpOk (Api.Resolved [])) (fst (Account.logout Examples.signed_in))
     = (Api.Rejected (Api.Error "Not authenticated"), fst (Account.logout Examples.signed_in)).
Proof.
  destruct (logout_signs_out Examples.signed_in {[ "medibot_token" := "tok-123" ]}
              "/api/v1/escalations" (Api.init "GET" None)
              (Api.HttpOk (Api.Resolved (@nil Api.Escalation))) eq_refl)
    as (H1 & _ & _ & _ & H5).
  split; [exact H1 | exact H5].
Defined.

Lemma onSend_follow_up_witness :
  Chat.activeConversationId
    (fst (Chat.onSend "u-3" "t-3" "a-3"
            (Api.HttpOk (Api.Resolved Examples.emergency_answer))
            (Api.HttpError 500 (Examples.server_detail "Internal Server Error"))
            (Examples.page []) Examples.signed_in))
  = Some 5%Z
  /\ Chat.conversations
       (fst (Chat.onSend "u-3" "t-3" "a-3"
               (Api.HttpOk (Api.Resolved Examples.emergency_answer))
               (Api.HttpError 500 (Examples.server_detail "Internal Server Error"))
               (Examples.page []) Examples.signed_in))
     = [].
Proof.
  destruct (onSend_follow_up "u-3" "t-3" "a-3"
              (Api.HttpOk (Api.Resolved Examples.emergency_answer))
              (Api.HttpError 500 (Examples.server_detail "Internal Server Error"))
              (Api.HttpOk (Api.Resolved []))
              (Examples.page []) Examples.signed_in
              ltac:(discriminate) eq_refl) as (_ & _ & H & _).
  destruct (H Examples.emergency_answer eq_refl) as (Ha & _ & _ & Hc).
  split; [exact Ha|].
  exact (Hc (Api.Error "Internal Server Error") eq_refl).
Defined.



Lemma escalate_click_marks_once_witness :
  Chat.escalatedIds
    (fst (Panel.escalate_click Examples.emergency_reply (Api.HttpOk (Api.Resolved "ok"))
            (Examples.page [Examples.emergency_reply]) Examples.signed_in))
  = [41%Z]
  /\ NoDup (Chat.escalatedIds
              (fst (Panel.escalate_click Examples.emergency_reply
                      (Api.HttpOk (Api.Resolved "ok"))
                      (Examples.page [Examples.emergency_reply]) Examples.signed_in))).
Proof.
  split; [reflexivity|].
  destruct (escalate_click_marks_once Examples.emergency_reply
              (Api.HttpOk (Api.Resolved "ok"))
              (Examples.page [Examples.emergency_reply]) Examples.signed_in None
              (NoDup_nil_2 : NoDup (Chat.escalatedIds (Examples.page [Examples.emergency_reply]))))
    as (H & _).
  exact H.
Defined.

Lemma answer_races_opened_conversation_witness :
  map Chat.content
    (Chat.messages
       (Session.page
          (Session.run
             [Session.ClickConversation 7 (Api.HttpOk (Api.Resolved Samples.stored));
              Session.ChatSettles "t-1" "a-1" (Api.HttpOk (Api.Resolved []));
              Session.LoadSettles 0]
             Examples.waiting)))
  = ["I have crushing chest pain"; "Call emergency services now."]
  /\ Chat.activeConversationId
       (Session.page
          (Session.run
             [Session.ClickConversation 7 (Api.HttpOk (Api.Resolved Samples.stored));
              Session.ChatSettles "t-1" "a-1" (Api.HttpOk (Api.Resolved []));
              Session.LoadSettles 0]
             Examples.waiting))
     = Some 5%Z.
Proof.
  destruct (answer_races_opened_conversation 7%Z
              (Api.HttpOk (Api.Resolved Samples.stored)) Samples.stored "t-1" "a-1"
              Examples.emergency_answer (Api.HttpOk (Api.Resolved []))
              Examples.waiting eq_refl eq_refl eq_refl)
    as (_ & _ & Hm & _ & Ha & _).
  split; [|exact Ha].
  change (Session.run
            [Session.ClickConversation 7 (Api.HttpOk (Api.Resolved Samples.stored));
             Session.ChatSettles "t-1" "a-1" (Api.HttpOk (Api.Resolved []));
             Session.LoadSettles 0] Examples.waiting)
    with (Session.run
            [Session.ChatSettles "t-1" "a-1" (Api.HttpOk (Api.Resolved []));
             Session.LoadSettles 0]
            (Session.step
               (Session.ClickConversation 7 (Api.HttpOk (Api.Resolved Samples.stored)))
               Examples.waiting)).
  rewrite Hm. reflexivity.
Defined.

